(** * Graph view-state store of the Spanner graph notebook front end

    A shallow embedding of the schema index, the graph object model and the
    [GraphStore] of the front end, together with the properties of these
    components that the design document states.

    Conventions of the embedding:
    - a JavaScript object used as a dictionary is a [gmap] over its own
      string keys; the dictionaries of the store and of the configuration
      are object literals, so a read [object[key]] that finds no own entry
      yields the member of [Object.prototype] of that name when there is
      one; the enumeration order of [Object.keys] is modelled for the
      schema index only (no property of the store depends on it);
    - every graph object carries the address it was allocated at, and the
      strict equality [===] of two objects compares addresses;
    - a method that may throw returns a [Completion];
    - [console] output and listener invocations are recorded, in program
      order, in a list of [Effect]s returned next to the final state.
      Listeners are the external renderers: the store's behaviour towards
      them is exactly the sequence of calls it makes and the arguments it
      passes, so a call is recorded with a snapshot of the configuration
      object handed to the callback. *)

From stdpp Require Import base gmap strings list sorting.

Local Open Scope string_scope.
Local Open Scope list_scope.

(** ** JavaScript values and completions *)

(** An IEEE double, as far as the code distinguishes them: the code only
    asks whether a number is finite. A finite double is [m * 2^e]. *)
Inductive JsNumber : Type :=
  | JsNaN
  | JsInfinity (negative : bool)
  | JsFinite (m e : Z).

(** The primitive values that reach the models. *)
Inductive JsValue : Type :=
  | JsUndefined
  | JsNull
  | JsBool (b : bool)
  | JsNum (n : JsNumber)
  | JsStr (s : string).

Inductive Exn : Type :=
  | Error (message : string)
  | TypeError (message : string)
  | ReferenceError (message : string).

Inductive Completion (A : Type) : Type :=
  | Normal (value : A)
  | Throw (exn : Exn).
Arguments Normal {A} value.
Arguments Throw {A} exn.

Definition throws {A} (c : Completion A) : Prop := ∃ e, c = Throw e.

Inductive ConsoleLevel : Type := ConsoleLog | ConsoleError.

(** One call of [console.log] or [console.error]: the level and the first
    argument (the message). *)
Record ConsoleMsg : Type := Console { level : ConsoleLevel; text : string }.

(** ** Schema index *)

Module Schema.

Record PropertyDefinition : Type := {
  propertyDeclarationName : string;
  valueExpressionSql : string
}.

Record EdgeDestinationNode : Type := {
  edgeTableColumns : list string;
  nodeTableColumns : list string;
  nodeTableName : string
}.

Record NodeTable : Type := {
  nt_name : string;
  nt_labelNames : list string;
  nt_keyColumns : list string;
  nt_propertyDefinitions : list PropertyDefinition
}.

Record EdgeTable : Type := {
  et_name : string;
  et_labelNames : list string;
  et_keyColumns : list string;
  et_propertyDefinitions : list PropertyDefinition;
  sourceNodeTable : EdgeDestinationNode;
  destinationNodeTable : EdgeDestinationNode
}.

Record PropertyDeclaration : Type := {
  pd_name : string;
  pd_type : string
}.

Record RawSchema : Type := {
  edgeTables : list EdgeTable;
  nodeTables : list NodeTable;
  propertyDeclarations : list PropertyDeclaration
}.

Record t : Type := { rawSchema : RawSchema }.

Record Connection : Type := { isConnected : bool; isSource : bool }.

(** [getEdgeFromName]: the first edge table of that name; when there is
    none the method logs and returns [undefined]. *)
Definition getEdgeFromName (s : t) (name : string)
  : option EdgeTable * list ConsoleMsg :=
  let edges :=
    filter (λ edgeTable, et_name edgeTable = name) (edgeTables (rawSchema s)) in
  match edges with
  | e :: _ => (Some e, [])
  | [] => (None, [Console ConsoleError ("No edgeTable associated with name " +:+ name)])
  end.

(** [getNodeFromName]: likewise over the node tables. *)
Definition getNodeFromName (s : t) (name : string)
  : option NodeTable * list ConsoleMsg :=
  let nodes :=
    filter (λ nodeTable, nt_name nodeTable = name) (nodeTables (rawSchema s)) in
  match nodes with
  | n :: _ => (Some n, [])
  | [] => (None, [Console ConsoleError ("No nodeTable associated with name " +:+ name)])
  end.

(** [getEdgesOfNode] *)
Definition getEdgesOfNode (s : t) (nodeTable : NodeTable) : list EdgeTable :=
  filter (λ edgeTable,
            nodeTableName (sourceNodeTable edgeTable) = nt_name nodeTable
            ∨ nodeTableName (destinationNodeTable edgeTable) = nt_name nodeTable)
         (edgeTables (rawSchema s)).

(** [nodeIsConnectedToEdge] *)
Definition nodeIsConnectedToEdge (s : t) (nodeName edgeName : string)
  : Connection * list ConsoleMsg :=
  let connection := {| isConnected := false; isSource := false |} in
  let '(node, log1) := getNodeFromName s nodeName in
  match node with
  | None =>
      (connection,
       log1 ++ [Console ConsoleError ("No node found from name " +:+ nodeName)])
  | Some node =>
      let '(edge, log2) := getEdgeFromName s edgeName in
      match edge with
      | None =>
          (connection,
           log1 ++ log2
             ++ [Console ConsoleError ("No edge found from name " +:+ edgeName)])
      | Some edge =>
          ({| isConnected := true;
              isSource :=
                bool_decide (nodeTableName (sourceNodeTable edge) = nt_name node) |},
           log1 ++ log2)
      end
  end.

(** What it means for a name to resolve: [x] is the first element of [l]
    whose name is [name]. *)
Definition first_named {A} (nameOf : A → string) (l : list A)
    (name : string) (x : A) : Prop :=
  ∃ l1 l2, l = l1 ++ x :: l2 ∧ nameOf x = name ∧ ∀ y, y ∈ l1 → nameOf y ≠ name.

Definition unresolved {A} (nameOf : A → string) (l : list A)
    (name : string) : Prop :=
  Forall (λ y, nameOf y ≠ name) l.

(** *** The other lookups of the schema index *)

(** The value of a key that is an array index: a canonical decimal numeral
    below [2^32 - 1]. *)
Fixpoint decimalValue (digits : string) (acc : N) : option N :=
  match digits with
  | EmptyString => Some acc
  | String c rest =>
      let code := Ascii.N_of_ascii c in
      if (48 <=? code)%N && (code <=? 57)%N
      then decimalValue rest (10 * acc + (code - 48))%N
      else None
  end.

Definition arrayIndex (key : string) : option N :=
  match key with
  | EmptyString => None
  | String c rest =>
      if bool_decide (Ascii.N_of_ascii c = 48%N)
         && negb (bool_decide (rest = EmptyString))
      then None
      else
        match decimalValue key 0 with
        | Some n => if (n <? 2 ^ 32 - 1)%N then Some n else None
        | None => None
        end
  end.

Definition indexOrder (a b : string) : Prop :=
  (default 0 (arrayIndex a) ≤ default 0 (arrayIndex b))%N.

#[global] Instance indexOrder_dec (a b : string) : Decision (indexOrder a b).
Proof. unfold indexOrder. apply _. Defined.

(** [obj[key] = value] for a primitive [value] on an object literal whose
    own keys, in the order of their creation, are [keys]: the inherited
    setter of ["__proto__"] ignores a primitive, any other new key becomes
    the last own key. *)
Definition assignKey (key : string) (keys : list string) : list string :=
  if decide (key = "__proto__") then keys
  else if decide (key ∈ keys) then keys
  else keys ++ [key].

(** [Object.keys(obj)]: the array indices in ascending order, then the
    other keys in the order of their creation. *)
Definition Object_keys (keys : list string) : list string :=
  merge_sort indexOrder (filter (λ k, is_Some (arrayIndex k)) keys)
  ++ filter (λ k, ¬ is_Some (arrayIndex k)) keys.

(** The loop of [getNamesOfTables]: the keys of [names] and the log. A
    [name] is a string here, so the check of its type never fires, and the
    only falsy name is the empty one. *)
Fixpoint collectNames {A} (nameOf : A → string) (tables : list A)
    (acc : list string * list ConsoleMsg) : list string * list ConsoleMsg :=
  match tables with
  | [] => acc
  | table :: tables' =>
      if decide (nameOf table = EmptyString) then
        collectNames nameOf tables'
          (acc.1, acc.2 ++ [Console ConsoleError "name of nodeTable is not declared"])
      else
        collectNames nameOf tables' (assignKey (nameOf table) acc.1, acc.2)
  end.

(** [getNamesOfTables]. A schema of this model always holds a raw schema,
    so the guard on [this.rawSchema] does not fire. *)
Definition getNamesOfTables {A} (nameOf : A → string) (s : t) (tables : list A)
  : list string * list ConsoleMsg :=
  let '(names, log) := collectNames nameOf tables ([], []) in
  (Object_keys names, log).

(** [getUniqueLabels]: the first label of every table that has labels. *)
Fixpoint getUniqueLabels {A} (labelNamesOf : A → list string) (tables : list A)
  : list string :=
  match tables with
  | [] => []
  | table :: tables' =>
      match labelNamesOf table with
      | [] => getUniqueLabels labelNamesOf tables'
      | label :: _ => label :: getUniqueLabels labelNamesOf tables'
      end
  end.

(** [getNodeNames] *)
Definition getNodeNames (s : t) : list string :=
  getUniqueLabels nt_labelNames (nodeTables (rawSchema s)).

(** [getEdgeNames] *)
Definition getEdgeNames (s : t) : list string :=
  getUniqueLabels et_labelNames (edgeTables (rawSchema s)).

Record TableNames : Type := { edges : list string; nodes : list string }.

(** [getTableNames] *)
Definition getTableNames (s : t) : TableNames :=
  {| edges := getEdgeNames s; nodes := getNodeNames s |}.

(** The local [getPropertyType] of [getPropertiesOfTable]: the type of the
    first declaration of that name. *)
Fixpoint getPropertyType (declarations : list PropertyDeclaration) (name : string)
  : option string :=
  match declarations with
  | [] => None
  | declaration :: declarations' =>
      if decide (pd_name declaration = name) then Some (pd_type declaration)
      else getPropertyType declarations' name
  end.

(** [properties[key] = value] on the object literal [properties]. *)
Definition assignProperty (key value : string) (properties : gmap string string)
  : gmap string string :=
  if decide (key = "__proto__") then properties else <[key := value]> properties.

(** The loop of [getPropertiesOfTable] over the [propertyDefinitions] of the
    table. A type is a string here; the empty one is falsy. *)
Fixpoint collectProperties (s : t) (propertyDefinitions : list PropertyDefinition)
    (acc : gmap string string * list ConsoleMsg)
  : gmap string string * list ConsoleMsg :=
  match propertyDefinitions with
  | [] => acc
  | propertyDefinition :: propertyDefinitions' =>
      let name := propertyDeclarationName propertyDefinition in
      match getPropertyType (propertyDeclarations (rawSchema s)) name with
      | Some propertyType =>
          if decide (propertyType = EmptyString) then
            collectProperties s propertyDefinitions'
              (acc.1,
               acc.2 ++ [Console ConsoleError
                           ("Property Declaration does not contain Property Definition: "
                            +:+ name)])
          else
            collectProperties s propertyDefinitions'
              (assignProperty name propertyType acc.1, acc.2)
      | None =>
          collectProperties s propertyDefinitions'
            (acc.1,
             acc.2 ++ [Console ConsoleError
                         ("Property Declaration does not contain Property Definition: "
                          +:+ name)])
      end
  end.

(** [getPropertiesOfTable] *)
Definition getPropertiesOfTable (s : t) (propertyDefinitions : list PropertyDefinition)
  : gmap string string * list ConsoleMsg :=
  collectProperties s propertyDefinitions (∅, []).

Record EdgeNodes : Type := { to : option NodeTable; from : option NodeTable }.

(** The loop of [getNodesOfEdges], which stops as soon as both ends are
    found. *)
Fixpoint findNodesOfEdge (edgeTable : EdgeTable) (tables : list NodeTable)
    (nodes : EdgeNodes) : EdgeNodes :=
  match tables with
  | [] => nodes
  | nodeTable :: tables' =>
      let nodes1 :=
        if decide (nodeTableName (sourceNodeTable edgeTable) = nt_name nodeTable)
        then {| to := to nodes; from := Some nodeTable |} else nodes in
      let nodes2 :=
        if decide (nodeTableName (destinationNodeTable edgeTable) = nt_name nodeTable)
        then {| to := Some nodeTable; from := from nodes1 |} else nodes1 in
      if bool_decide (is_Some (from nodes2)) && bool_decide (is_Some (to nodes2))
      then nodes2
      else findNodesOfEdge edgeTable tables' nodes2
  end.

(** [getNodesOfEdges] *)
Definition getNodesOfEdges (s : t) (edgeTable : EdgeTable)
  : EdgeNodes * list ConsoleMsg :=
  let nodes :=
    findNodesOfEdge edgeTable (nodeTables (rawSchema s))
      {| to := None; from := None |} in
  (nodes,
   if bool_decide (is_Some (to nodes)) && bool_decide (is_Some (from nodes))
   then []
   else [Console ConsoleError "EdgeTable does not have a source or destination node"]).

(** [getDisplayName] *)
Definition getDisplayName (labelNames : list string) : option string :=
  head labelNames.

End Schema.

(** ** Graph object model *)

(** The [Edge] class of the model layer that registers itself on the page's
    namespace object. Its base class is not part of the available sources,
    so the constructor is parameterised by what [super(...)] does: it
    either returns the own properties it installed on [this], or throws. *)
Module Edge.
Section Constructor.

(** The state of [this] after the inherited constructor has run. *)
Variable GraphObject : Type.

(** [super({ label, title, properties })] *)
Variable GraphObject_constructor :
  JsValue → JsValue → gmap string JsValue → Completion GraphObject * list ConsoleMsg.

(** The built-in conversion of a string to a number. *)
Variable StringToNumber : string → JsNumber.

Record Params : Type := {
  to : JsValue;
  from : JsValue;
  label : JsValue;
  properties : gmap string JsValue;
  title : JsValue
}.

Record t : Type := {
  base : GraphObject;
  target : JsValue;
  source : JsValue;
  instantiated : bool
}.

(** The built-in [Number(value)] on primitive values. *)
Definition Number (value : JsValue) : JsNumber :=
  match value with
  | JsUndefined => JsNaN
  | JsNull => JsFinite 0 0
  | JsBool true => JsFinite 1 0
  | JsBool false => JsFinite 0 0
  | JsNum n => n
  | JsStr s => StringToNumber s
  end.

(** The built-in [Number.isFinite]. *)
Definition Number_isFinite (n : JsNumber) : bool :=
  match n with
  | JsFinite _ _ => true
  | _ => false
  end.

Definition isNumber (value : JsValue) : bool :=
  Number_isFinite (Number value).

(** The fields [target] and [source] are declared without initialiser:
    they are [undefined] once [super] has returned. *)
Definition constructor (p : Params) : Completion t * list ConsoleMsg :=
  match GraphObject_constructor (label p) (title p) (properties p) with
  | (Throw e, log) => (Throw e, log)
  | (Normal this, log) =>
      if negb (isNumber (to p)) || negb (isNumber (from p)) then
        (Normal {| base := this; target := JsUndefined; source := JsUndefined;
                   instantiated := false |},
         log ++ [Console ConsoleLog "Failed to instantiate edge"])
      else
        (Normal {| base := this; target := to p; source := from p;
                   instantiated := true |},
         log)
  end.

End Constructor.

Arguments base {GraphObject} _.
Arguments target {GraphObject} _.
Arguments source {GraphObject} _.
Arguments instantiated {GraphObject} _.

(** The values that [Number] turns into a finite number without reading a
    string: [null], the booleans and the finite numbers. *)
Definition coercesWithoutParsing (value : JsValue) : Prop :=
  match value with
  | JsNull | JsBool _ | JsNum (JsFinite _ _) => True
  | _ => False
  end.

End Edge.

(** The [GraphObject] base class of the current model layer. *)
Module GraphObject.

Record t : Type := {
  labels : list string;
  properties : gmap string JsValue;
  key_property_names : list string;
  neighborhood : option Z;
  instantiated : bool
}.

(** Modelled from the spec: [getDisplayName()] is the first label (unit
    test "should return the first label as its display name");
    [undefined] when there is none. *)
Definition getDisplayName (o : t) : option string := head (labels o).

End GraphObject.

(** ** Graph configuration *)

Module GraphConfig.

(** Modelled from the spec: the enumerations are declared by the
    [GraphConfig] class, whose source is missing. The store names the
    members [ColorScheme.NEIGHBORHOOD], [ColorScheme.LABEL],
    [ViewModes.DEFAULT] and [ViewModes.SCHEMA]; the callback
    documentation of the store names a table view. Any other value a
    caller may pass is kept with a tag. *)
Inductive ColorScheme : Type :=
  | NEIGHBORHOOD
  | LABEL
  | OtherColorScheme (tag : string).

Inductive ViewModes : Type :=
  | DEFAULT
  | TABLE
  | SCHEMA
  | OtherViewMode (tag : string).

#[global] Instance ColorScheme_eq_dec : EqDecision ColorScheme.
Proof. solve_decision. Defined.

#[global] Instance ViewModes_eq_dec : EqDecision ViewModes.
Proof. solve_decision. Defined.

(** A node as the store reads it: its address, [uid], and the inherited
    [GraphObject] part. *)
Record GraphNode : Type := {
  node_ref : nat;
  node_uid : string;
  node_base : GraphObject.t
}.

(** An edge as the store reads it. *)
Record GraphEdge : Type := {
  edge_ref : nat;
  edge_uid : string;
  edge_base : GraphObject.t;
  sourceUid : string;
  destinationUid : string
}.

(** A reference to a graph object; [instanceof] tells the two classes
    apart. *)
Inductive GraphObjectRef : Type :=
  | IsNode (n : GraphNode)
  | IsEdge (e : GraphEdge).

Definition ref (o : GraphObjectRef) : nat :=
  match o with
  | IsNode n => node_ref n
  | IsEdge e => edge_ref e
  end.

Definition uid (o : GraphObjectRef) : string :=
  match o with
  | IsNode n => node_uid n
  | IsEdge e => edge_uid e
  end.

Definition base (o : GraphObjectRef) : GraphObject.t :=
  match o with
  | IsNode n => node_base n
  | IsEdge e => edge_base e
  end.

(** [a === b] on object references. *)
Definition strict_eq (a b : GraphObjectRef) : bool :=
  bool_decide (ref a = ref b).

(** Raw records as delivered by the query layer. *)
Record NodeData : Type := {
  nd_identifier : string;
  nd_labels : option (list string);
  nd_properties : gmap string JsValue;
  nd_key_property_names : list string
}.

Record EdgeData : Type := {
  ed_identifier : string;
  source_node_identifier : string;
  destination_node_identifier : string;
  ed_labels : option (list string);
  ed_properties : gmap string JsValue;
  ed_key_property_names : list string
}.

Definition EdgeStyle : Type := string.

Record EdgeDesign : Type := {
  default_style : EdgeStyle;
  focused_style : EdgeStyle;
  selected_style : EdgeStyle
}.

Record t : Type := {
  nodes : gmap string GraphNode;
  edges : gmap string GraphEdge;
  schemaNodes : gmap string GraphNode;
  schemaEdges : gmap string GraphEdge;
  nodeColors : gmap string string;
  colorPalette : list string;
  colorScheme : ColorScheme;
  viewMode : ViewModes;
  layoutMode : string;
  lastLayoutMode : string;
  focusedGraphObject : option GraphObjectRef;
  selectedGraphObject : option GraphObjectRef;
  showLabels : bool;
  edgeDesign : EdgeDesign;
  nodeCount : nat;
  edgeCount : nat;
  (** next free address of the allocator *)
  nextRef : nat
}.

(** Field assignments [config.f = v]. *)
Definition set_focusedGraphObject (v : option GraphObjectRef) (c : t) : t :=
  {| nodes := nodes c; edges := edges c; schemaNodes := schemaNodes c;
     schemaEdges := schemaEdges c; nodeColors := nodeColors c;
     colorPalette := colorPalette c; colorScheme := colorScheme c;
     viewMode := viewMode c; layoutMode := layoutMode c;
     lastLayoutMode := lastLayoutMode c; focusedGraphObject := v;
     selectedGraphObject := selectedGraphObject c; showLabels := showLabels c;
     edgeDesign := edgeDesign c; nodeCount := nodeCount c;
     edgeCount := edgeCount c; nextRef := nextRef c |}.

Definition set_selectedGraphObject (v : option GraphObjectRef) (c : t) : t :=
  {| nodes := nodes c; edges := edges c; schemaNodes := schemaNodes c;
     schemaEdges := schemaEdges c; nodeColors := nodeColors c;
     colorPalette := colorPalette c; colorScheme := colorScheme c;
     viewMode := viewMode c; layoutMode := layoutMode c;
     lastLayoutMode := lastLayoutMode c;
     focusedGraphObject := focusedGraphObject c; selectedGraphObject := v;
     showLabels := showLabels c; edgeDesign := edgeDesign c;
     nodeCount := nodeCount c; edgeCount := edgeCount c; nextRef := nextRef c |}.

Definition set_viewMode (v : ViewModes) (c : t) : t :=
  {| nodes := nodes c; edges := edges c; schemaNodes := schemaNodes c;
     schemaEdges := schemaEdges c; nodeColors := nodeColors c;
     colorPalette := colorPalette c; colorScheme := colorScheme c;
     viewMode := v; layoutMode := layoutMode c;
     lastLayoutMode := lastLayoutMode c;
     focusedGraphObject := focusedGraphObject c;
     selectedGraphObject := selectedGraphObject c; showLabels := showLabels c;
     edgeDesign := edgeDesign c; nodeCount := nodeCount c;
     edgeCount := edgeCount c; nextRef := nextRef c |}.

Definition set_colorScheme (v : ColorScheme) (c : t) : t :=
  {| nodes := nodes c; edges := edges c; schemaNodes := schemaNodes c;
     schemaEdges := schemaEdges c; nodeColors := nodeColors c;
     colorPalette := colorPalette c; colorScheme := v;
     viewMode := viewMode c; layoutMode := layoutMode c;
     lastLayoutMode := lastLayoutMode c;
     focusedGraphObject := focusedGraphObject c;
     selectedGraphObject := selectedGraphObject c; showLabels := showLabels c;
     edgeDesign := edgeDesign c; nodeCount := nodeCount c;
     edgeCount := edgeCount c; nextRef := nextRef c |}.

Definition set_graph (ns : gmap string GraphNode) (es : gmap string GraphEdge)
    (next : nat) (c : t) : t :=
  {| nodes := ns; edges := es; schemaNodes := schemaNodes c;
     schemaEdges := schemaEdges c; nodeColors := nodeColors c;
     colorPalette := colorPalette c; colorScheme := colorScheme c;
     viewMode := viewMode c; layoutMode := layoutMode c;
     lastLayoutMode := lastLayoutMode c;
     focusedGraphObject := focusedGraphObject c;
     selectedGraphObject := selectedGraphObject c; showLabels := showLabels c;
     edgeDesign := edgeDesign c; nodeCount := size ns;
     edgeCount := size es; nextRef := next |}.

Definition set_showLabels (v : bool) (c : t) : t :=
  {| nodes := nodes c; edges := edges c; schemaNodes := schemaNodes c;
     schemaEdges := schemaEdges c; nodeColors := nodeColors c;
     colorPalette := colorPalette c; colorScheme := colorScheme c;
     viewMode := viewMode c; layoutMode := layoutMode c;
     lastLayoutMode := lastLayoutMode c;
     focusedGraphObject := focusedGraphObject c;
     selectedGraphObject := selectedGraphObject c; showLabels := v;
     edgeDesign := edgeDesign c; nodeCount := nodeCount c;
     edgeCount := edgeCount c; nextRef := nextRef c |}.

Definition set_layoutMode (v : string) (c : t) : t :=
  {| nodes := nodes c; edges := edges c; schemaNodes := schemaNodes c;
     schemaEdges := schemaEdges c; nodeColors := nodeColors c;
     colorPalette := colorPalette c; colorScheme := colorScheme c;
     viewMode := viewMode c; layoutMode := v;
     lastLayoutMode := lastLayoutMode c;
     focusedGraphObject := focusedGraphObject c;
     selectedGraphObject := selectedGraphObject c; showLabels := showLabels c;
     edgeDesign := edgeDesign c; nodeCount := nodeCount c;
     edgeCount := edgeCount c; nextRef := nextRef c |}.

Definition set_lastLayoutMode (v : string) (c : t) : t :=
  {| nodes := nodes c; edges := edges c; schemaNodes := schemaNodes c;
     schemaEdges := schemaEdges c; nodeColors := nodeColors c;
     colorPalette := colorPalette c; colorScheme := colorScheme c;
     viewMode := viewMode c; layoutMode := layoutMode c;
     lastLayoutMode := v;
     focusedGraphObject := focusedGraphObject c;
     selectedGraphObject := selectedGraphObject c; showLabels := showLabels c;
     edgeDesign := edgeDesign c; nodeCount := nodeCount c;
     edgeCount := edgeCount c; nextRef := nextRef c |}.

Section Ingestion.

(** Whether the constructor of the [Node] class, respectively of the
    current [Edge] class, accepts a raw record. Neither class is part of
    the available sources. *)
Variable nodeInstantiates : NodeData → bool.
Variable edgeInstantiates : EdgeData → bool.

(** Modelled from the spec: the [Node] class is missing. A node takes its
    [uid] from the [identifier] of the record and keeps its labels (unit
    test "should create a valid node with required parameters"); the raw
    record carries no neighborhood. *)
Definition newNode (address : nat) (d : NodeData) : GraphNode :=
  {| node_ref := address;
     node_uid := nd_identifier d;
     node_base :=
       {| GraphObject.labels := default [] (nd_labels d);
          GraphObject.properties := nd_properties d;
          GraphObject.key_property_names := nd_key_property_names d;
          GraphObject.neighborhood := None;
          GraphObject.instantiated := true |} |}.

(** Modelled from the spec: the current [Edge] class is missing. Its
    endpoints are the two node identifiers of the record (unit test "should
    parse valid edge data"). *)
Definition newEdge (address : nat) (d : EdgeData) : GraphEdge :=
  {| edge_ref := address;
     edge_uid := ed_identifier d;
     edge_base :=
       {| GraphObject.labels := default [] (ed_labels d);
          GraphObject.properties := ed_properties d;
          GraphObject.key_property_names := ed_key_property_names d;
          GraphObject.neighborhood := None;
          GraphObject.instantiated := true |};
     sourceUid := source_node_identifier d;
     destinationUid := destination_node_identifier d |}.

(** Modelled from the spec: the source of [GraphConfig.parseNodes] is
    missing. For each entry a [Node] is constructed; entries failing
    validation are dropped and logged; the result is indexed by
    [identifier], the last entry winning among duplicates. The triple
    is the result map, the next free address and the log. *)
Fixpoint parseNodes (raw : list NodeData)
    (acc : gmap string GraphNode * nat * list ConsoleMsg)
  : gmap string GraphNode * nat * list ConsoleMsg :=
  match raw with
  | [] => acc
  | d :: raw' =>
      let '(m, next, log) := acc in
      if nodeInstantiates d then
        parseNodes raw' (<[nd_identifier d := newNode next d]> m, S next, log)
      else
        parseNodes raw'
          (m, S next, log ++ [Console ConsoleError "Unable to instantiate node"])
  end.

(** Modelled from the spec: the source of [GraphConfig.parseEdges] is
    missing. Edges are constructed from [source_node_identifier] and
    [destination_node_identifier]; an edge whose endpoint is absent from
    the current node set is still stored, with a diagnostic. *)
Fixpoint parseEdges (current : gmap string GraphNode) (raw : list EdgeData)
    (acc : gmap string GraphEdge * nat * list ConsoleMsg)
  : gmap string GraphEdge * nat * list ConsoleMsg :=
  match raw with
  | [] => acc
  | d :: raw' =>
      let '(m, next, log) := acc in
      if edgeInstantiates d then
        let dangling :=
          bool_decide (current !! source_node_identifier d = None
                       ∨ current !! destination_node_identifier d = None) in
        parseEdges current raw'
          (<[ed_identifier d := newEdge next d]> m, S next,
           log ++ (if dangling
                   then [Console ConsoleError "Edge endpoint is not in the graph"]
                   else []))
      else
        parseEdges current raw'
          (m, S next, log ++ [Console ConsoleError "Unable to instantiate edge"])
  end.

(** Modelled from the spec: the source of [GraphConfig.appendGraphData]
    is missing. It parses the two batches, merges them into the live
    maps without checking for entries that are already present,
    recomputes [nodeCount] and [edgeCount], and removes nothing. *)
Definition appendGraphData (nodesData : list NodeData)
    (edgesData : list EdgeData) (c : t) : t * list ConsoleMsg :=
  let '(newNodes, next1, log1) := parseNodes nodesData (∅, nextRef c, []) in
  let nodes' := newNodes ∪ nodes c in
  let '(newEdges, next2, log2) := parseEdges nodes' edgesData (∅, next1, []) in
  let edges' := newEdges ∪ edges c in
  (set_graph nodes' edges' next2 c, log1 ++ log2).

End Ingestion.

End GraphConfig.

(** ** Graph store *)

Module GraphStore.
Import GraphConfig.

Inductive EventTypes : Type :=
  | CONFIG_CHANGE
  | FOCUS_OBJECT
  | SELECT_OBJECT
  | COLOR_SCHEME
  | VIEW_MODE_CHANGE
  | LAYOUT_MODE_CHANGE
  | SHOW_LABELS
  | NODE_EXPANSION_REQUEST
  | GRAPH_DATA_UPDATE.

#[global] Instance EventTypes_eq_dec : EqDecision EventTypes.
Proof. solve_decision. Defined.

(** What a caller can pass as [eventType]: one of the nine registered
    symbols, another symbol, or a value that is used as a string key. *)
Inductive EventKey : Type :=
  | Registered (e : EventTypes)
  | OtherSymbol (description : string)
  | StringKey (key : string).

(** A callback, identified by the function object that was registered. *)
Definition Listener : Type := nat.

(** The arguments of one callback invocation; the last component is the
    configuration as it is at the time of the call. *)
Inductive CallArgs : Type :=
  | FocusObjectArgs (graphObject : option GraphObjectRef) (cfg : GraphConfig.t)
  | SelectObjectArgs (graphObject : option GraphObjectRef) (cfg : GraphConfig.t)
  | ViewModeChangeArgs (mode : ViewModes) (cfg : GraphConfig.t)
  | GraphDataUpdateArgs
      (currentNodes : list GraphNode) (currentEdges : list GraphEdge)
      (newNodes : list NodeData) (newEdges : list EdgeData)
      (cfg : GraphConfig.t).

Inductive Effect : Type :=
  | Diagnostic (msg : ConsoleMsg)
  | Call (listener : Listener) (args : CallArgs).

Record t : Type := {
  config : GraphConfig.t;
  reservedColorsByLabel : gmap string string;
  reservedColorsByNeighborhood : list (option Z);
  eventListeners : EventTypes → list Listener
}.

Definition set_config (c : GraphConfig.t) (s : t) : t :=
  {| config := c;
     reservedColorsByLabel := reservedColorsByLabel s;
     reservedColorsByNeighborhood := reservedColorsByNeighborhood s;
     eventListeners := eventListeners s |}.

Definition set_reservedColorsByNeighborhood (l : list (option Z)) (s : t) : t :=
  {| config := config s;
     reservedColorsByLabel := reservedColorsByLabel s;
     reservedColorsByNeighborhood := l;
     eventListeners := eventListeners s |}.

Definition set_eventListeners (f : EventTypes → list Listener) (s : t) : t :=
  {| config := config s;
     reservedColorsByLabel := reservedColorsByLabel s;
     reservedColorsByNeighborhood := reservedColorsByNeighborhood s;
     eventListeners := f |}.

(** *** Methods as computations over the store *)

Record Run (A : Type) : Type := {
  outcome : Completion A;
  final : t;
  effects : list Effect
}.
Arguments outcome {A} _.
Arguments final {A} _.
Arguments effects {A} _.

Definition M (A : Type) : Type := t → Run A.

#[global] Instance M_ret : MRet M := λ A a s,
  {| outcome := Normal a; final := s; effects := [] |}.

#[global] Instance M_bind : MBind M := λ A B f m s,
  let r := m s in
  match outcome r with
  | Normal a =>
      let r' := f a (final r) in
      {| outcome := outcome r'; final := final r';
         effects := effects r ++ effects r' |}
  | Throw e => {| outcome := Throw e; final := final r; effects := effects r |}
  end.

Definition get : M t := λ s,
  {| outcome := Normal s; final := s; effects := [] |}.

Definition modify (f : t → t) : M unit := λ s,
  {| outcome := Normal (); final := f s; effects := [] |}.

Definition emit (es : list Effect) : M unit := λ s,
  {| outcome := Normal (); final := s; effects := es |}.

Definition throw {A} (e : Exn) : M A := λ s,
  {| outcome := Throw e; final := s; effects := [] |}.

(** [this.eventListeners[e].forEach(callback => callback(..., this.config))] *)
Definition notify (e : EventTypes) (args : GraphConfig.t → CallArgs) : M unit :=
  λ s,
    {| outcome := Normal (); final := s;
       effects := (λ callback, Call callback (args (config s))) <$> eventListeners s e |}.

(** The names that every object literal inherits from [Object.prototype]. *)
Definition objectPrototypeKeys : list string :=
  ["constructor"; "__defineGetter__"; "__defineSetter__"; "hasOwnProperty";
   "__lookupGetter__"; "__lookupSetter__"; "isPrototypeOf";
   "propertyIsEnumerable"; "toString"; "valueOf"; "__proto__";
   "toLocaleString"].

(** What a read [object[key]] of a dictionary evaluates to: the value of
    the own entry, else the member that the object inherits under this
    name, else [undefined]. *)
Inductive Read (A : Type) : Type :=
  | Value (value : A)
  | Inherited (member : string)
  | Undefined.
Arguments Value {A} value.
Arguments Inherited {A} member.
Arguments Undefined {A}.

(** [object[key]] for an object literal with the own entries [object]. *)
Definition readProperty {A} (object : gmap string A) (key : string) : Read A :=
  match object !! key with
  | Some value => Value value
  | None =>
      if decide (key ∈ objectPrototypeKeys) then Inherited key else Undefined
  end.

(** [array[index]] for an index within the array or beyond it. *)
Definition readIndex {A} (array : list A) (index : nat) : Read A :=
  match array !! index with
  | Some value => Value value
  | None => Undefined
  end.

(** Whether the result of a read is truthy: the members of
    [Object.prototype] are functions, or the prototype itself under
    [__proto__], and [undefined] is falsy. *)
Definition isTruthy {A} (valueIsTruthy : A → bool) (r : Read A) : bool :=
  match r with
  | Value value => valueIsTruthy value
  | Inherited _ => true
  | Undefined => false
  end.

(** Every object is truthy; the empty string is the only falsy string. *)
Definition objectIsTruthy {A} (object : A) : bool := true.

Definition stringIsTruthy (s : string) : bool := negb (bool_decide (s = "")).

(** [addEventListener]. [eventListeners] is an object literal whose own
    keys are the nine symbols. Under an inherited name the lookup is
    truthy, so the guard passes and the call of the missing [push]
    throws. *)
Definition addEventListener (eventType : EventKey) (callback : Listener) : M unit :=
  match eventType with
  | Registered e =>
      modify (λ s,
        set_eventListeners
          (λ e', if decide (e' = e) then eventListeners s e ++ [callback]
                 else eventListeners s e') s)
  | OtherSymbol _ => throw (Error "Invalid event type")
  | StringKey key =>
      if decide (key ∈ objectPrototypeKeys)
      then throw (TypeError "this.eventListeners[eventType].push is not a function")
      else throw (Error "Invalid event type")
  end.

(** [setFocusedObject] *)
Definition setFocusedObject (graphObject : option GraphObjectRef) : M unit :=
  modify (λ s, set_config (set_focusedGraphObject graphObject (config s)) s) ;;
  notify FOCUS_OBJECT (FocusObjectArgs graphObject).

(** [setSelectedObject] *)
Definition setSelectedObject (graphObject : option GraphObjectRef) : M unit :=
  modify (λ s, set_config (set_selectedGraphObject graphObject (config s)) s) ;;
  notify SELECT_OBJECT (SelectObjectArgs graphObject).

(** [setViewMode] *)
Definition setViewMode (viewMode : ViewModes) : M unit :=
  s ← get;
  if decide (viewMode = GraphConfig.viewMode (config s)) then mret ()
  else
    setFocusedObject None ;;
    setSelectedObject None ;;
    modify (λ s, set_config (set_viewMode viewMode (config s)) s) ;;
    notify VIEW_MODE_CHANGE (ViewModeChangeArgs viewMode).

(** The calls made to the listeners of [e] with the given arguments. *)
Definition calls (s : t) (e : EventTypes) (args : CallArgs) : list Effect :=
  (λ callback, Call callback args) <$> eventListeners s e.

(** The configuration at the three stages of a [setViewMode X] that takes
    effect: focus cleared, then selection cleared, then mode switched. *)
Definition focusCleared (s : t) : GraphConfig.t :=
  set_focusedGraphObject None (config s).

Definition selectionCleared (s : t) : GraphConfig.t :=
  set_selectedGraphObject None (focusCleared s).

Definition modeSwitched (X : ViewModes) (s : t) : GraphConfig.t :=
  set_viewMode X (selectionCleared s).

(** [Object.keys(map).map(uid => map[uid])] *)
Definition values {A} (m : gmap string A) : list A := (map_to_list m).*2.

(** [getNodes] *)
Definition getNodes (s : t) : list GraphNode :=
  let nodeMap :=
    match viewMode (config s) with
    | DEFAULT => nodes (config s)
    | SCHEMA => schemaNodes (config s)
    | _ => ∅
    end in
  values nodeMap.

(** [getEdges] *)
Definition getEdges (s : t) : list GraphEdge :=
  let edgeMap :=
    match viewMode (config s) with
    | DEFAULT => edges (config s)
    | SCHEMA => schemaEdges (config s)
    | _ => ∅
    end in
  values edgeMap.

(** [edgeIsConnectedToNode]. In the guard, [!edge instanceof Edge] is
    [(!edge) instanceof Edge], which is false for every [edge], and
    likewise for [node]: only the two null checks have an effect, and
    [node] may be any graph object. *)
Definition edgeIsConnectedToNode (edge : option GraphEdge)
    (node : option GraphObjectRef) : bool :=
  match edge, node with
  | Some edge, Some node =>
      bool_decide (sourceUid edge = uid node)
      || bool_decide (destinationUid edge = uid node)
  | _, _ => false
  end.

Definition edgeIsConnectedToFocusedNode (s : t) (edge : option GraphEdge) : bool :=
  edgeIsConnectedToNode edge (focusedGraphObject (config s)).

Definition edgeIsConnectedToSelectedNode (s : t) (edge : option GraphEdge) : bool :=
  edgeIsConnectedToNode edge (selectedGraphObject (config s)).

(** [getEdgesOfNode] *)
Definition getEdgesOfNode (s : t) (node : option GraphNode) : list GraphEdge :=
  match node with
  | None => []
  | Some node =>
      filter (λ edge, sourceUid edge = node_uid node
                      ∨ destinationUid edge = node_uid node) (getEdges s)
  end.

(** What the priority of [getEdgeDesign] is stated with: [edge] has [o] as
    one of its endpoints. *)
Definition touches (edge : GraphEdge) (o : GraphObjectRef) : Prop :=
  sourceUid edge = uid o ∨ destinationUid edge = uid o.

(** [edge === o] *)
Definition is_object (edge : GraphEdge) (o : GraphObjectRef) : Prop :=
  ref (IsEdge edge) = ref o.

(** [getEdgeDesign] *)
Definition getEdgeDesign (s : t) (edge : GraphEdge) : EdgeStyle :=
  let hasSelectedObject := selectedGraphObject (config s) in
  let edgeIsSelected :=
    match selectedGraphObject (config s) with
    | Some selected => strict_eq (IsEdge edge) selected
    | None => false
    end in
  if bool_decide (is_Some hasSelectedObject) && edgeIsSelected then
    selected_style (edgeDesign (config s))
  else if bool_decide (is_Some hasSelectedObject) then
    if edgeIsConnectedToSelectedNode s (Some edge)
    then focused_style (edgeDesign (config s))
    else default_style (edgeDesign (config s))
  else
    let edgeIsFocused :=
      match focusedGraphObject (config s) with
      | Some focused => strict_eq (IsEdge edge) focused
      | None => false
      end in
    if negb (bool_decide (is_Some hasSelectedObject)) && edgeIsFocused then
      focused_style (edgeDesign (config s))
    else
      let isNeighbor :=
        edgeIsConnectedToFocusedNode s (Some edge)
        || edgeIsConnectedToSelectedNode s (Some edge) in
      if isNeighbor then focused_style (edgeDesign (config s))
      else default_style (edgeDesign (config s)).

(** [array.indexOf(x)]: the first position holding a value strictly equal
    to [x], if any. *)
Definition indexOf (l : list (option Z)) (x : option Z) : option nat :=
  fst <$> list_find (λ y, y = x) l.

(** [getColorForNodeByNeighborhood]. [node] is [None] for [null]; the
    [neighborhood] of an object is [None] when the property is not set, and
    is not a number then. With a null [node] the method logs and then fails
    on [node.neighborhood]. *)
Definition getColorForNodeByNeighborhood (node : option GraphObjectRef)
  : M (Read string) :=
  match node with
  | None =>
      emit [Diagnostic (Console ConsoleError "Node must have a neighborhood")] ;;
      throw (TypeError "Cannot read properties of null (reading 'neighborhood')")
  | Some node =>
      let neighborhood := GraphObject.neighborhood (base node) in
      (if neighborhood is None
       then emit [Diagnostic (Console ConsoleError "Node must have a neighborhood")]
       else mret ()) ;;
      s ← get;
      index ←
        match indexOf (reservedColorsByNeighborhood s) neighborhood with
        | Some index => mret index
        | None =>
            modify (set_reservedColorsByNeighborhood
                      (reservedColorsByNeighborhood s ++ [neighborhood])) ;;
            mret (length (reservedColorsByNeighborhood s ++ [neighborhood]) - 1)
        end;
      if (Z.of_nat (length (colorPalette (config s))) - 1 <? Z.of_nat index)%Z then
        emit [Diagnostic (Console ConsoleError "Ran out of colors for neighborhood")] ;;
        mret (readIndex (colorPalette (config s)) 0)
      else
        mret (readIndex (colorPalette (config s)) index)
  end.

Definition defaultColor : string := "rgb(100, 100, 100)".

(** The property key that a display name is converted to. *)
Definition propertyKey (name : option string) : string :=
  default "undefined" name.

(** [getColorForNodeByLabel]. What the read of [nodeColors] yields is
    returned whenever it is truthy, also when it is an inherited member
    and no color. *)
Definition getColorForNodeByLabel (s : t) (node : option GraphObjectRef)
  : Read string :=
  match node with
  | Some (IsNode node) =>
      let nodeColor :=
        readProperty (nodeColors (config s))
          (propertyKey (GraphObject.getDisplayName (node_base node))) in
      if isTruthy stringIsTruthy nodeColor then nodeColor
      else Value defaultColor
  | _ => Value defaultColor
  end.

(** [getColorForNode]. The [default] branch evaluates the arguments of
    [Error('Invalid color scheme', colorScheme)] first, and [colorScheme]
    is bound neither in the method nor in the file: the branch ends in a
    [ReferenceError] before the [Error] is built. *)
Definition getColorForNode (node : option GraphObjectRef) : M (Read string) :=
  s ← get;
  match colorScheme (config s) with
  | NEIGHBORHOOD => getColorForNodeByNeighborhood node
  | LABEL => mret (getColorForNodeByLabel s node)
  | OtherColorScheme _ => throw (ReferenceError "colorScheme is not defined")
  end.

Section AppendGraphData.

(** [this.config.appendGraphData], a method of [GraphConfig]. *)
Variable config_appendGraphData :
  list NodeData → list EdgeData → GraphConfig.t → GraphConfig.t * list ConsoleMsg.

(** The first loop: the entries of [nodesData] for whose identifier the
    read [this.config.nodes[nodeData.identifier]] is falsy; nothing when
    [nodesData] is not an array ([None]). *)
Definition freshNodes (s : t) (nodesData : option (list NodeData)) : list NodeData :=
  match nodesData with
  | Some nodesData =>
      filter (λ nodeData,
                isTruthy objectIsTruthy
                  (readProperty (nodes (config s)) (nd_identifier nodeData))
                = false)
             nodesData
  | None => []
  end.

(** The second loop, over [edgesData] and the live edge map. *)
Definition freshEdges (s : t) (edgesData : option (list EdgeData)) : list EdgeData :=
  match edgesData with
  | Some edgesData =>
      filter (λ edgeData,
                isTruthy objectIsTruthy
                  (readProperty (edges (config s)) (ed_identifier edgeData))
                = false)
             edgesData
  | None => []
  end.

(** [appendGraphData]; the result is [None] for [undefined]. *)
Definition appendGraphData (nodesData : option (list NodeData))
    (edgesData : option (list EdgeData))
  : M (option (list NodeData * list EdgeData)) :=
  s ← get;
  let newNodes := freshNodes s nodesData in
  let newEdges := freshEdges s edgesData in
  if Nat.eqb (length newNodes) 0 && Nat.eqb (length newEdges) 0 then mret None
  else
    let '(config', log) := config_appendGraphData newNodes newEdges (config s) in
    modify (set_config config') ;;
    emit (Diagnostic <$> log) ;;
    s' ← get;
    notify GRAPH_DATA_UPDATE
           (GraphDataUpdateArgs (getNodes s') (getEdges s') newNodes newEdges) ;;
    mret (Some (newNodes, newEdges)).

End AppendGraphData.

(** A batch is well formed when the constructors accept every record. *)
Definition wellFormed (nodeInstantiates : NodeData → bool)
    (edgeInstantiates : EdgeData → bool)
    (nodesData : option (list NodeData)) (edgesData : option (list EdgeData)) : Prop :=
  Forall (λ d, nodeInstantiates d = true) (default [] nodesData)
  ∧ Forall (λ d, edgeInstantiates d = true) (default [] edgesData).

(** The reserved neighborhoods once [neighborhood] has a slot: it is added
    at the end unless it is there already. *)
Definition reserve (reserved : list (option Z)) (neighborhood : option Z)
  : list (option Z) :=
  if decide (neighborhood ∈ reserved) then reserved else reserved ++ [neighborhood].

(** The palette slot of [neighborhood]: where it is reserved, or the next
    free slot. *)
Definition slot (reserved : list (option Z)) (neighborhood : option Z) : nat :=
  default (length reserved) (indexOf reserved neighborhood).

Definition ranOutOfColors : Effect :=
  Diagnostic (Console ConsoleError "Ran out of colors for neighborhood").

End GraphStore.

(** ** The other methods of the store *)

Module GraphStoreMethods.
Import GraphConfig GraphStore.

Inductive Direction : Type := INCOMING | OUTGOING.

(** The calls of the listeners of the four events below; a call carries the
    configuration as it is at the time of the call. The four mutators
    cannot throw; each returns the store it leaves and the calls it made,
    in order. *)
Inductive Notification : Type :=
  | ShowLabelsCall (listener : Listener) (visible : bool) (cfg : GraphConfig.t)
  | LayoutModeChangeCall (listener : Listener)
      (layoutMode lastLayoutMode : string) (cfg : GraphConfig.t)
  | ColorSchemeCall (listener : Listener) (colorScheme : ColorScheme)
      (cfg : GraphConfig.t)
  | NodeExpansionRequestCall (listener : Listener) (node : option GraphNode)
      (direction : Direction) (edgeLabel : option string) (cfg : GraphConfig.t).

(** [showLabels] *)
Definition showLabels (visible : bool) (s : t) : t * list Notification :=
  let s' := set_config (set_showLabels visible (config s)) s in
  (s', (λ callback, ShowLabelsCall callback visible (config s'))
       <$> eventListeners s' SHOW_LABELS).

(** [setLayoutMode] *)
Definition setLayoutMode (layoutMode : string) (s : t) : t * list Notification :=
  let s1 := set_config (set_lastLayoutMode (GraphConfig.layoutMode (config s)) (config s)) s in
  let s2 := set_config (set_layoutMode layoutMode (config s1)) s1 in
  (s2, (λ callback,
          LayoutModeChangeCall callback layoutMode (lastLayoutMode (config s2))
            (config s2))
       <$> eventListeners s2 LAYOUT_MODE_CHANGE).

(** [requestNodeExpansion] *)
Definition requestNodeExpansion (node : option GraphNode) (direction : Direction)
    (edgeLabel : option string) (s : t) : t * list Notification :=
  (s, (λ callback, NodeExpansionRequestCall callback node direction edgeLabel (config s))
      <$> eventListeners s NODE_EXPANSION_REQUEST).

Section SetColorScheme.

(** Whether the value kept under a tag of [OtherColorScheme] is falsy. *)
Variable isFalsy : string → bool.

(** [setColorScheme]; the members of the enumeration are truthy. The
    middle component is what [console.error] received, before any call. *)
Definition setColorScheme (colorScheme : ColorScheme) (s : t)
  : t * list ConsoleMsg * list Notification :=
  let log :=
    match colorScheme with
    | OtherColorScheme tag =>
        if isFalsy tag then [Console ConsoleError "Color scheme must be provided"]
        else []
    | _ => []
    end in
  let s' := set_config (set_colorScheme colorScheme (config s)) s in
  (s', log,
   (λ callback, ColorSchemeCall callback colorScheme (config s'))
   <$> eventListeners s' COLOR_SCHEME).

End SetColorScheme.

(** [getEdgesOfObject]; as in [edgeIsConnectedToNode], only the null check
    of the guard has an effect. *)
Definition getEdgesOfObject (s : t) (graphObject : option GraphObjectRef)
  : list GraphEdge :=
  match graphObject with
  | Some (IsNode node) => getEdgesOfNode s (Some node)
  | _ => []
  end.

(** [getNeighborsOfNode]; each entry is what the read of the live node map
    under the uid of the other end yields. *)
Definition getNeighborsOfNode (s : t) (node : option GraphNode)
  : list (Read GraphNode) :=
  match node with
  | None => []
  | Some node =>
      (λ edge,
         if bool_decide (sourceUid edge = node_uid node)
         then readProperty (nodes (config s)) (destinationUid edge)
         else readProperty (nodes (config s)) (sourceUid edge))
      <$> getEdgesOfNode s (Some node)
  end.

(** [array.includes(x)] on an array of such entries, for [x] a graph object
    or [null]: [null] equals no entry, a graph object equals the entries
    that are this very object, and is no member of [Object.prototype]. *)
Definition includes (array : list (Read GraphNode)) (x : option GraphObjectRef)
  : bool :=
  match x with
  | None => false
  | Some x =>
      existsb (λ entry,
                 match entry with
                 | Value node => strict_eq (IsNode node) x
                 | Inherited _ | Undefined => false
                 end) array
  end.

(** [nodeIsNeighborTo] *)
Definition nodeIsNeighborTo (s : t) (node : option GraphNode)
    (potentialNeighbor : option GraphObjectRef) : bool :=
  includes (getNeighborsOfNode s node) potentialNeighbor.

(** [nodeIsNeighborToFocusedNode] *)
Definition nodeIsNeighborToFocusedNode (s : t) (node : option GraphNode) : bool :=
  nodeIsNeighborTo s node (focusedGraphObject (config s)).

(** [nodeIsNeighborToSelectedNode] *)
Definition nodeIsNeighborToSelectedNode (s : t) (node : option GraphNode) : bool :=
  nodeIsNeighborTo s node (selectedGraphObject (config s)).

Record EdgeType : Type := { label : string; direction : Direction }.

(** The entries that one node table and one edge table contribute to
    [getEdgeTypesOfNode]: the labels of the edge table as outgoing when
    the node table is its source, then as incoming when it is its
    destination. *)
Definition edgeTypesOfTables (nodeTable : Schema.NodeTable)
    (edgeTable : Schema.EdgeTable) : list EdgeType :=
  (if decide (Schema.nodeTableName (Schema.sourceNodeTable edgeTable)
              = Schema.nt_name nodeTable)
   then (λ label, {| label := label; direction := OUTGOING |})
        <$> Schema.et_labelNames edgeTable
   else [])
  ++ (if decide (Schema.nodeTableName (Schema.destinationNodeTable edgeTable)
                 = Schema.nt_name nodeTable)
      then (λ label, {| label := label; direction := INCOMING |})
           <$> Schema.et_labelNames edgeTable
      else []).

(** [getEdgeTypesOfNode], given [this.config.schema], which is [None] when
    the configuration was built without schema data. Every entry added to
    the [Set] is a new object, so the [Set] holds all of them, in the order
    they were added. *)
Definition getEdgeTypesOfNode (schema : option Schema.t)
    (node : option GraphObjectRef) : Completion (list EdgeType) :=
  match node with
  | Some (IsNode node) =>
      match schema with
      | None =>
          Throw (TypeError "Cannot read properties of null (reading 'rawSchema')")
      | Some schema =>
          let matchingNodeTables :=
            filter (λ nodeTable,
                      Exists (λ label, label ∈ Schema.nt_labelNames nodeTable)
                             (GraphObject.labels (node_base node)))
                   (Schema.nodeTables (Schema.rawSchema schema)) in
          Normal
            (matchingNodeTables ≫= λ nodeTable,
               Schema.edgeTables (Schema.rawSchema schema) ≫= λ edgeTable,
                 edgeTypesOfTables nodeTable edgeTable)
      end
  | _ => Normal []
  end.

(** *** Sessions

    A session is a sequence of calls of the methods of the store that can
    change it. *)

Inductive Command : Type :=
  | AddEventListener (eventType : EventKey) (callback : Listener)
  | SetViewMode (viewMode : ViewModes)
  | ShowLabels (visible : bool)
  | SetLayoutMode (layoutMode : string)
  | SetFocusedObject (graphObject : option GraphObjectRef)
  | SetSelectedObject (graphObject : option GraphObjectRef)
  | SetColorScheme (colorScheme : ColorScheme)
  | GetColorForNode (node : option GraphObjectRef)
  | AppendGraphData (nodesData : option (list NodeData))
      (edgesData : option (list EdgeData))
  | RequestNodeExpansion (node : option GraphNode) (direction : Direction)
      (edgeLabel : option string).

Section Sessions.

Variable config_appendGraphData :
  list NodeData → list EdgeData → GraphConfig.t → GraphConfig.t * list ConsoleMsg.
Variable isFalsy : string → bool.

(** The store that a call leaves behind, whether it returns or throws. *)
Definition after (command : Command) (s : t) : t :=
  match command with
  | AddEventListener eventType callback => final (addEventListener eventType callback s)
  | SetViewMode viewMode => final (setViewMode viewMode s)
  | ShowLabels visible => (showLabels visible s).1
  | SetLayoutMode layoutMode => (setLayoutMode layoutMode s).1
  | SetFocusedObject graphObject => final (setFocusedObject graphObject s)
  | SetSelectedObject graphObject => final (setSelectedObject graphObject s)
  | SetColorScheme colorScheme => (setColorScheme isFalsy colorScheme s).1.1
  | GetColorForNode node => final (getColorForNode node s)
  | AppendGraphData nodesData edgesData =>
      final (appendGraphData config_appendGraphData nodesData edgesData s)
  | RequestNodeExpansion node direction edgeLabel =>
      (requestNodeExpansion node direction edgeLabel s).1
  end.

Definition afterAll (commands : list Command) (s : t) : t :=
  foldl (λ s command, after command s) s commands.

End Sessions.

(** The callbacks that a session registers for [e], in the order of the
    calls. *)
Definition registrations (e : EventTypes) (commands : list Command) : list Listener :=
  omap (λ command,
          match command with
          | AddEventListener (Registered e') callback =>
              if decide (e' = e) then Some callback else None
          | _ => None
          end) commands.

Definition appendsGraphData (command : Command) : Prop :=
  match command with
  | AppendGraphData _ _ => True
  | _ => False
  end.

End GraphStoreMethods.

(** ** Fixtures

    The schema and the two nodes and one edge of the unit tests of the
    configuration. *)

Module Fixture.
Import Schema GraphConfig GraphStore.

Definition tableRef (name : string) : EdgeDestinationNode :=
  {| edgeTableColumns := []; nodeTableColumns := []; nodeTableName := name |}.

Definition personTable : NodeTable :=
  {| nt_name := "Person"; nt_labelNames := ["Person"]; nt_keyColumns := [];
     nt_propertyDefinitions := [] |}.

Definition companyTable : NodeTable :=
  {| nt_name := "Company"; nt_labelNames := ["Company"]; nt_keyColumns := [];
     nt_propertyDefinitions := [] |}.

Definition worksAtTable : EdgeTable :=
  {| et_name := "WORKS_AT"; et_labelNames := ["WORKS_AT"]; et_keyColumns := [];
     et_propertyDefinitions := [];
     sourceNodeTable := tableRef "Person";
     destinationNodeTable := tableRef "Company" |}.

Definition mockSchema : Schema.t :=
  {| rawSchema :=
       {| edgeTables := [worksAtTable];
          nodeTables := [personTable; companyTable];
          propertyDeclarations := [] |} |}.

Definition person : NodeData :=
  {| nd_identifier := "1"; nd_labels := Some ["Person"];
     nd_properties := ∅; nd_key_property_names := ["id"] |}.

Definition company : NodeData :=
  {| nd_identifier := "2"; nd_labels := Some ["Company"];
     nd_properties := ∅; nd_key_property_names := ["id"] |}.

Definition worksAt : EdgeData :=
  {| ed_identifier := "edge-1";
     source_node_identifier := "1"; destination_node_identifier := "2";
     ed_labels := Some ["WORKS_AT"];
     ed_properties := ∅; ed_key_property_names := ["id"] |}.

(** The validation the fixtures are ingested with: a record needs at least
    one label. *)
Definition hasLabel (labels : option (list string)) : bool :=
  match labels with
  | Some (_ :: _) => true
  | _ => false
  end.

Definition jane : NodeData :=
  {| nd_identifier := "3"; nd_labels := Some ["Person"];
     nd_properties := ∅; nd_key_property_names := ["id"] |}.

Definition nodeHasLabel (d : NodeData) : bool := hasLabel (nd_labels d).
Definition edgeHasLabel (d : EdgeData) : bool := hasLabel (ed_labels d).

(** The configuration's [appendGraphData] under this validation. *)
Definition ingest : list NodeData → list EdgeData → GraphConfig.t
                    → GraphConfig.t * list ConsoleMsg :=
  GraphConfig.appendGraphData nodeHasLabel edgeHasLabel.

Definition personNode : GraphNode := newNode 0 person.
Definition companyNode : GraphNode := newNode 1 company.
Definition worksAtEdge : GraphEdge := newEdge 2 worksAt.

(** [node] with its [neighborhood] set to [k]. *)
Definition inNeighborhood (k : Z) (node : GraphNode) : GraphObjectRef :=
  IsNode
    {| node_ref := node_ref node; node_uid := node_uid node;
       node_base :=
         {| GraphObject.labels := GraphObject.labels (node_base node);
            GraphObject.properties := GraphObject.properties (node_base node);
            GraphObject.key_property_names :=
              GraphObject.key_property_names (node_base node);
            GraphObject.neighborhood := Some k;
            GraphObject.instantiated := GraphObject.instantiated (node_base node) |} |}.

(** An edge between two nodes that are not in the graph. *)
Definition strayEdge : GraphEdge :=
  {| edge_ref := 3; edge_uid := "edge-2"; edge_base := edge_base worksAtEdge;
     sourceUid := "7"; destinationUid := "8" |}.

Definition mockConfig : GraphConfig.t :=
  {| nodes := {[ "1" := personNode; "2" := companyNode ]};
     edges := {[ "edge-1" := worksAtEdge ]};
     schemaNodes := ∅; schemaEdges := ∅;
     nodeColors := {[ "Person" := "#1A73E8"; "Company" := "#E52592" ]};
     colorPalette := ["#1A73E8"; "#E52592"];
     colorScheme := NEIGHBORHOOD;
     viewMode := DEFAULT;
     layoutMode := "force"; lastLayoutMode := "force";
     focusedGraphObject := None; selectedGraphObject := None;
     showLabels := false;
     edgeDesign := {| default_style := "default"; focused_style := "focused";
                      selected_style := "selected" |};
     nodeCount := 2; edgeCount := 1; nextRef := 4 |}.

(** A store with listeners for four kinds of event. *)
Definition mockStore : GraphStore.t :=
  {| config := mockConfig;
     reservedColorsByLabel := ∅;
     reservedColorsByNeighborhood := [];
     eventListeners := λ e,
       match e with
       | FOCUS_OBJECT => [10]
       | SELECT_OBJECT => [20]
       | VIEW_MODE_CHANGE => [30; 31]
       | GRAPH_DATA_UPDATE => [40]
       | _ => []
       end |}.

Definition withFocus (o : option GraphObjectRef) (s : GraphStore.t) : GraphStore.t :=
  set_config (set_focusedGraphObject o (config s)) s.

Definition withSelection (o : option GraphObjectRef) (s : GraphStore.t) : GraphStore.t :=
  set_config (set_selectedGraphObject o (config s)) s.

Definition withViewMode (m : ViewModes) (s : GraphStore.t) : GraphStore.t :=
  set_config (set_viewMode m (config s)) s.

Definition withColorScheme (c : ColorScheme) (s : GraphStore.t) : GraphStore.t :=
  set_config (set_colorScheme c (config s)) s.

(** A base constructor for the [Edge] class of the page: it stores its three
    arguments and returns. *)
Definition storeArguments (label title : JsValue) (properties : gmap string JsValue)
  : Completion (JsValue * JsValue * gmap string JsValue) * list ConsoleMsg :=
  (Normal (label, title, properties), []).

(** A conversion that reads unsigned decimal integers, the empty string as
    zero, and nothing else. *)
Fixpoint decimalDigits (s : string) (acc : Z) : option Z :=
  match s with
  | EmptyString => Some acc
  | String c s' =>
      let n := Ascii.nat_of_ascii c in
      if (48 <=? n)%nat && (n <=? 57)%nat
      then decimalDigits s' (10 * acc + Z.of_nat (n - 48))%Z
      else None
  end.

Definition decimalToNumber (s : string) : JsNumber :=
  match decimalDigits s 0 with
  | Some z => JsFinite z 0
  | None => JsNaN
  end.

Definition edgeParams (to from : JsValue) : Edge.Params :=
  {| Edge.to := to; Edge.from := from; Edge.label := JsStr "knows";
     Edge.properties := ∅; Edge.title := JsUndefined |}.

End Fixture.

(** ** Scenarios

    Sessions and schemas for the further properties. *)

Module Scenario.
Import GraphConfig GraphStore GraphStoreMethods.

(** No value kept under a tag is taken to be falsy. *)
Definition neverFalsy (tag : string) : bool := false.

(** A session that registers listeners, one of them under a key that is
    not an event type, and uses most mutators, but appends no data. *)
Definition browsing : list Command :=
  [ AddEventListener (Registered FOCUS_OBJECT) 11;
    SetViewMode SCHEMA;
    GetColorForNode (Some (Fixture.inNeighborhood 5 Fixture.personNode));
    AddEventListener (StringKey "click") 12;
    SetFocusedObject (Some (IsNode Fixture.companyNode));
    GetColorForNode (Some (Fixture.inNeighborhood 7 Fixture.companyNode));
    SetLayoutMode "dagre";
    AddEventListener (Registered FOCUS_OBJECT) 11;
    SetColorScheme LABEL;
    ShowLabels true ].

(** A schema with two node tables of the same name, told apart by their
    key columns, before the table that an edge table leads to. *)
Definition accountByNumber : Schema.NodeTable :=
  {| Schema.nt_name := "Account"; Schema.nt_labelNames := ["Account"];
     Schema.nt_keyColumns := ["number"]; Schema.nt_propertyDefinitions := [] |}.

Definition accountByIban : Schema.NodeTable :=
  {| Schema.nt_name := "Account"; Schema.nt_labelNames := ["Account"];
     Schema.nt_keyColumns := ["iban"]; Schema.nt_propertyDefinitions := [] |}.

Definition ownsTable : Schema.EdgeTable :=
  {| Schema.et_name := "OWNS"; Schema.et_labelNames := ["OWNS"];
     Schema.et_keyColumns := []; Schema.et_propertyDefinitions := [];
     Schema.sourceNodeTable := Fixture.tableRef "Account";
     Schema.destinationNodeTable := Fixture.tableRef "Person" |}.

Definition ambiguousSchema : Schema.t :=
  {| Schema.rawSchema :=
       {| Schema.edgeTables := [ownsTable];
          Schema.nodeTables := [accountByNumber; accountByIban; Fixture.personTable];
          Schema.propertyDeclarations := [] |} |}.

(** A node whose display name is the name of a member of
    [Object.prototype], for which [nodeColors] holds no color. *)
Definition constructorNode : GraphNode :=
  newNode 5
    {| nd_identifier := "9"; nd_labels := Some ["constructor"];
       nd_properties := ∅; nd_key_property_names := ["id"] |}.

(** A record whose identifier is such a name, and one whose identifier is
    not. *)
Definition toStringRecord : NodeData :=
  {| nd_identifier := "toString"; nd_labels := Some ["Person"];
     nd_properties := ∅; nd_key_property_names := ["id"] |}.

(** A store in which an edge leads from the person to a node that the live
    map does not hold, under a uid that is such a name, and another one to
    a uid that is not. *)
Definition valueOfEdge : GraphEdge :=
  {| edge_ref := 6; edge_uid := "edge-3"; edge_base := edge_base Fixture.worksAtEdge;
     sourceUid := "1"; destinationUid := "valueOf" |}.

Definition danglingEdge : GraphEdge :=
  {| edge_ref := 7; edge_uid := "edge-4"; edge_base := edge_base Fixture.worksAtEdge;
     sourceUid := "1"; destinationUid := "8" |}.

Definition danglingStore : GraphStore.t :=
  set_config
    (set_graph (nodes Fixture.mockConfig)
       {[ "edge-3" := valueOfEdge; "edge-4" := danglingEdge ]} 8
       Fixture.mockConfig)
    Fixture.mockStore.

End Scenario.

(** * Properties *)

(** ** Schema index *)

Section SchemaLookup.
Import Schema.
Context {A : Type} (nameOf : A → string).

Lemma filter_first_named (l : list A) (name : string) (x : A) :
  first_named nameOf l name x →
  ∃ rest, filter (λ y, nameOf y = name) l = x :: rest.
Proof.
  intros (l1 & l2 & -> & Hx & Hl1).
  rewrite filter_app, filter_cons_True by done.
  assert (filter (λ y, nameOf y = name) l1 = []) as ->; [|by eexists].
  induction l1 as [|y l1 IH]; [done|].
  rewrite filter_cons_False by (apply Hl1; left).
  apply IH. intros z Hz. apply Hl1. by right.
Qed.

Lemma filter_unresolved (l : list A) (name : string) :
  unresolved nameOf l name → filter (λ y, nameOf y = name) l = [].
Proof.
  induction 1 as [|y l Hy _ IH]; [done|].
  by rewrite filter_cons_False.
Qed.

End SchemaLookup.

(** C9. [nodeIsConnectedToEdge] reports [isConnected = false] whenever the
    node name or the edge name resolves to no table. When both resolve, to
    their first table of that name, it reports [isConnected = true], and
    [isSource] is true exactly when the source node table name of the edge
    table is the name of the node table. *)
Theorem nodeIsConnectedToEdge_connection (s : Schema.t) (nodeName edgeName : string) :
  let connection := (Schema.nodeIsConnectedToEdge s nodeName edgeName).1 in
  (Schema.unresolved Schema.nt_name (Schema.nodeTables (Schema.rawSchema s)) nodeName
   ∨ Schema.unresolved Schema.et_name (Schema.edgeTables (Schema.rawSchema s)) edgeName →
   Schema.isConnected connection = false)
  ∧ (∀ node edge,
       Schema.first_named Schema.nt_name
         (Schema.nodeTables (Schema.rawSchema s)) nodeName node →
       Schema.first_named Schema.et_name
         (Schema.edgeTables (Schema.rawSchema s)) edgeName edge →
       Schema.isConnected connection = true
       ∧ (Schema.isSource connection = true ↔
          Schema.nodeTableName (Schema.sourceNodeTable edge) = Schema.nt_name node)).
Proof.
  cbv zeta. unfold Schema.nodeIsConnectedToEdge, Schema.getNodeFromName,
    Schema.getEdgeFromName. split.
  - intros [Hn | He].
    + by rewrite (filter_unresolved _ _ _ Hn).
    + rewrite (filter_unresolved _ _ _ He).
      by destruct (filter _ (Schema.nodeTables _)).
  - intros node edge [rn Hn]%filter_first_named [re He]%filter_first_named.
    rewrite Hn, He. simpl. split; [done|]. apply bool_decide_eq_true.
Qed.

Lemma nodeIsConnectedToEdge_connection_witness :
  Schema.isConnected
    (Schema.nodeIsConnectedToEdge Fixture.mockSchema "Person" "OWNS").1 = false
  ∧ Schema.isConnected
      (Schema.nodeIsConnectedToEdge Fixture.mockSchema "Person" "WORKS_AT").1 = true
  ∧ Schema.isSource
      (Schema.nodeIsConnectedToEdge Fixture.mockSchema "Person" "WORKS_AT").1 = true
  ∧ Schema.isSource
      (Schema.nodeIsConnectedToEdge Fixture.mockSchema "Company" "WORKS_AT").1 = false.
Proof.
  assert (Schema.first_named Schema.nt_name
            (Schema.nodeTables (Schema.rawSchema Fixture.mockSchema))
            "Person" Fixture.personTable) as HPerson.
  { exists [], [Fixture.companyTable]. repeat split. intros y Hy. inversion Hy. }
  assert (Schema.first_named Schema.nt_name
            (Schema.nodeTables (Schema.rawSchema Fixture.mockSchema))
            "Company" Fixture.companyTable) as HCompany.
  { exists [Fixture.personTable], []. repeat split.
    intros y Hy. apply list_elem_of_singleton in Hy as ->. discriminate. }
  assert (Schema.first_named Schema.et_name
            (Schema.edgeTables (Schema.rawSchema Fixture.mockSchema))
            "WORKS_AT" Fixture.worksAtTable) as HWorksAt.
  { exists [], []. repeat split. intros y Hy. inversion Hy. }
  destruct (nodeIsConnectedToEdge_connection Fixture.mockSchema "Person" "OWNS")
    as [Hunresolved _].
  destruct (nodeIsConnectedToEdge_connection Fixture.mockSchema "Person" "WORKS_AT")
    as [_ Hperson].
  destruct (nodeIsConnectedToEdge_connection Fixture.mockSchema "Company" "WORKS_AT")
    as [_ Hcompany].
  destruct (Hperson _ _ HPerson HWorksAt) as [Hconnected Hsource].
  destruct (Hcompany _ _ HCompany HWorksAt) as [_ Hnosource].
  split; [|split; [|split]].
  - apply Hunresolved. right. repeat constructor. discriminate.
  - exact Hconnected.
  - apply Hsource. reflexivity.
  - apply not_true_is_false. intros H. apply Hnosource in H. discriminate H.
Defined.

(** ** Views of the graph *)

Lemma values_empty {A : Type} : GraphStore.values (∅ : gmap string A) = [].
Proof. unfold GraphStore.values. by rewrite map_to_list_empty. Qed.

(** C10. In every view mode other than [DEFAULT] and [SCHEMA], the table
    view for one, [getNodes] and [getEdges] return the empty array; they do
    not fail and they expose neither the live nor the schema graph. *)
Theorem getNodes_getEdges_other_view_mode (s : GraphStore.t) :
  GraphConfig.viewMode (GraphStore.config s) ≠ GraphConfig.DEFAULT →
  GraphConfig.viewMode (GraphStore.config s) ≠ GraphConfig.SCHEMA →
  GraphStore.getNodes s = [] ∧ GraphStore.getEdges s = [].
Proof.
  intros Hdefault Hschema. unfold GraphStore.getNodes, GraphStore.getEdges.
  destruct (GraphConfig.viewMode (GraphStore.config s)); try done;
    by rewrite !values_empty.
Qed.

Lemma getNodes_getEdges_other_view_mode_witness :
  GraphStore.getNodes (Fixture.withViewMode GraphConfig.TABLE Fixture.mockStore) = []
  ∧ GraphStore.getEdges (Fixture.withViewMode GraphConfig.TABLE Fixture.mockStore) = [].
Proof.
  apply (getNodes_getEdges_other_view_mode
           (Fixture.withViewMode GraphConfig.TABLE Fixture.mockStore));
    simpl; discriminate.
Defined.

(** ** Edge styling *)

Section EdgeDesign.
Import GraphConfig GraphStore.

Lemma edgeIsConnectedToNode_touches (edge : GraphEdge) (o : GraphObjectRef) :
  edgeIsConnectedToNode (Some edge) (Some o) = true ↔ touches edge o.
Proof.
  unfold edgeIsConnectedToNode, touches.
  rewrite orb_true_iff, !bool_decide_eq_true. done.
Qed.

Lemma edgeIsConnectedToNode_not_touches (edge : GraphEdge) (o : GraphObjectRef) :
  edgeIsConnectedToNode (Some edge) (Some o) = false ↔ ¬ touches edge o.
Proof.
  rewrite <-edgeIsConnectedToNode_touches. by destruct edgeIsConnectedToNode.
Qed.

Lemma strict_eq_is_object (edge : GraphEdge) (o : GraphObjectRef) :
  strict_eq (IsEdge edge) o = true ↔ is_object edge o.
Proof. apply bool_decide_eq_true. Qed.

End EdgeDesign.

(** C4. [getEdgeDesign] follows the four-way priority. With a selection:
    the selected style when the edge is the selection, else the focused
    style when the edge touches the selected object, else the default
    style. Without a selection: the focused style when the edge is the
    focused object or touches it, and the default style otherwise. The
    focus is consulted only when nothing is selected. *)
Theorem getEdgeDesign_priority (s : GraphStore.t) (edge : GraphConfig.GraphEdge) :
  let cfg := GraphStore.config s in
  let design := GraphConfig.edgeDesign cfg in
  (∀ selected,
     GraphConfig.selectedGraphObject cfg = Some selected →
     (GraphStore.is_object edge selected →
      GraphStore.getEdgeDesign s edge = GraphConfig.selected_style design)
     ∧ (¬ GraphStore.is_object edge selected → GraphStore.touches edge selected →
        GraphStore.getEdgeDesign s edge = GraphConfig.focused_style design)
     ∧ (¬ GraphStore.is_object edge selected → ¬ GraphStore.touches edge selected →
        GraphStore.getEdgeDesign s edge = GraphConfig.default_style design))
  ∧ (GraphConfig.selectedGraphObject cfg = None →
     (∀ focused,
        GraphConfig.focusedGraphObject cfg = Some focused →
        (GraphStore.is_object edge focused ∨ GraphStore.touches edge focused →
         GraphStore.getEdgeDesign s edge = GraphConfig.focused_style design)
        ∧ (¬ GraphStore.is_object edge focused → ¬ GraphStore.touches edge focused →
           GraphStore.getEdgeDesign s edge = GraphConfig.default_style design))
     ∧ (GraphConfig.focusedGraphObject cfg = None →
        GraphStore.getEdgeDesign s edge = GraphConfig.default_style design)).
Proof.
  cbv zeta. unfold GraphStore.getEdgeDesign,
    GraphStore.edgeIsConnectedToSelectedNode,
    GraphStore.edgeIsConnectedToFocusedNode.
  split.
  - intros selected ->. cbn [andb negb].
    rewrite bool_decide_eq_true_2 by by eexists. cbn [andb negb].
    split; [|split].
    + intros Hsel. apply strict_eq_is_object in Hsel. by rewrite Hsel.
    + intros Hsel Htouch. apply edgeIsConnectedToNode_touches in Htouch.
      rewrite <-strict_eq_is_object in Hsel.
      destruct (GraphConfig.strict_eq _ _); [done|].
      by rewrite Htouch.
    + intros Hsel Htouch. apply edgeIsConnectedToNode_not_touches in Htouch.
      rewrite <-strict_eq_is_object in Hsel.
      destruct (GraphConfig.strict_eq _ _); [done|].
      by rewrite Htouch.
  - intros ->. cbn [andb negb].
    rewrite bool_decide_eq_false_2 by (intros [? ?]; discriminate).
    cbn [andb negb]. split.
    + intros focused ->. split.
      * intros [Hfoc | Htouch].
        -- apply strict_eq_is_object in Hfoc. by rewrite Hfoc.
        -- apply edgeIsConnectedToNode_touches in Htouch.
           rewrite Htouch. by destruct (GraphConfig.strict_eq _ _).
      * intros Hfoc Htouch. apply edgeIsConnectedToNode_not_touches in Htouch.
        rewrite <-strict_eq_is_object in Hfoc.
        destruct (GraphConfig.strict_eq _ _); [done|].
        by rewrite Htouch.
    + by intros ->.
Qed.

(** The four scenarios of the design document: the selection is queried;
    an edge touching the selected node is queried; an unrelated edge is
    queried while something is selected; the focused edge is queried while
    nothing is selected. *)
Lemma getEdgeDesign_priority_witness :
  GraphStore.getEdgeDesign
    (Fixture.withSelection (Some (GraphConfig.IsEdge Fixture.worksAtEdge))
       Fixture.mockStore) Fixture.worksAtEdge = "selected"
  ∧ GraphStore.getEdgeDesign
      (Fixture.withSelection (Some (GraphConfig.IsNode Fixture.personNode))
         Fixture.mockStore) Fixture.worksAtEdge = "focused"
  ∧ GraphStore.getEdgeDesign
      (Fixture.withSelection (Some (GraphConfig.IsNode Fixture.personNode))
         Fixture.mockStore) Fixture.strayEdge = "default"
  ∧ GraphStore.getEdgeDesign
      (Fixture.withFocus (Some (GraphConfig.IsEdge Fixture.strayEdge))
         Fixture.mockStore) Fixture.strayEdge = "focused".
Proof.
  split; [|split; [|split]].
  - destruct (getEdgeDesign_priority
                (Fixture.withSelection
                   (Some (GraphConfig.IsEdge Fixture.worksAtEdge)) Fixture.mockStore)
                Fixture.worksAtEdge) as [H _].
    destruct (H _ eq_refl) as [Hselected _]. apply Hselected. reflexivity.
  - destruct (getEdgeDesign_priority
                (Fixture.withSelection
                   (Some (GraphConfig.IsNode Fixture.personNode)) Fixture.mockStore)
                Fixture.worksAtEdge) as [H _].
    destruct (H _ eq_refl) as (_ & Hfocused & _). apply Hfocused.
    + unfold GraphStore.is_object. simpl. lia.
    + left. reflexivity.
  - destruct (getEdgeDesign_priority
                (Fixture.withSelection
                   (Some (GraphConfig.IsNode Fixture.personNode)) Fixture.mockStore)
                Fixture.strayEdge) as [H _].
    destruct (H _ eq_refl) as (_ & _ & Hdefault). apply Hdefault.
    + unfold GraphStore.is_object. simpl. lia.
    + intros [H1 | H1]; discriminate H1.
  - destruct (getEdgeDesign_priority
                (Fixture.withFocus
                   (Some (GraphConfig.IsEdge Fixture.strayEdge)) Fixture.mockStore)
                Fixture.strayEdge) as [_ H].
    destruct (H eq_refl) as [Hfocus _].
    destruct (Hfocus _ eq_refl) as [Hfocused _]. apply Hfocused.
    left. reflexivity.
Defined.

(** ** View mode *)

Section ViewMode.
Import GraphConfig GraphStore.

Lemma setViewMode_unchanged (s : GraphStore.t) :
  setViewMode (viewMode (config s)) s
  = {| outcome := Normal (); final := s; effects := [] |}.
Proof.
  unfold setViewMode, mbind, M_bind, get. simpl.
  by rewrite decide_True.
Qed.

Lemma setViewMode_changed (X : ViewModes) (s : GraphStore.t) :
  X ≠ viewMode (config s) →
  setViewMode X s
  = {| outcome := Normal ();
       final := set_config (modeSwitched X s) s;
       effects :=
         calls s FOCUS_OBJECT (FocusObjectArgs None (focusCleared s))
         ++ calls s SELECT_OBJECT (SelectObjectArgs None (selectionCleared s))
         ++ calls s VIEW_MODE_CHANGE (ViewModeChangeArgs X (modeSwitched X s)) |}.
Proof.
  intros HX. unfold setViewMode, mbind, M_bind, get. simpl.
  rewrite decide_False by done.
  unfold setFocusedObject, setSelectedObject, mbind, M_bind, modify, notify.
  reflexivity.
Qed.

End ViewMode.

(** C1, as the code has it. [setViewMode X] with [X] the current view mode
    does nothing at all: no field changes, focus and selection included, and
    no listener is called. With any other [X] it clears the focus and
    notifies the focus listeners, clears the selection and notifies the
    selection listeners, then switches the mode and notifies the view-mode
    listeners, in this order; afterwards [focusedGraphObject] and
    [selectedGraphObject] are null whatever they were before. *)
Theorem setViewMode_clears_then_switches (X : GraphConfig.ViewModes) (s : GraphStore.t) :
  (X = GraphConfig.viewMode (GraphStore.config s) →
   GraphStore.setViewMode X s
   = {| GraphStore.outcome := Normal ();
        GraphStore.final := s;
        GraphStore.effects := [] |})
  ∧ (X ≠ GraphConfig.viewMode (GraphStore.config s) →
     GraphConfig.focusedGraphObject
       (GraphStore.config (GraphStore.final (GraphStore.setViewMode X s))) = None
     ∧ GraphConfig.selectedGraphObject
         (GraphStore.config (GraphStore.final (GraphStore.setViewMode X s))) = None
     ∧ GraphConfig.viewMode
         (GraphStore.config (GraphStore.final (GraphStore.setViewMode X s))) = X
     ∧ GraphStore.setViewMode X s
       = {| GraphStore.outcome := Normal ();
            GraphStore.final := GraphStore.set_config (GraphStore.modeSwitched X s) s;
            GraphStore.effects :=
              GraphStore.calls s GraphStore.FOCUS_OBJECT
                (GraphStore.FocusObjectArgs None (GraphStore.focusCleared s))
              ++ GraphStore.calls s GraphStore.SELECT_OBJECT
                   (GraphStore.SelectObjectArgs None (GraphStore.selectionCleared s))
              ++ GraphStore.calls s GraphStore.VIEW_MODE_CHANGE
                   (GraphStore.ViewModeChangeArgs X (GraphStore.modeSwitched X s)) |}).
Proof.
  split.
  - intros ->. apply setViewMode_unchanged.
  - intros HX. rewrite (setViewMode_changed X s HX). done.
Qed.

Lemma setViewMode_clears_then_switches_witness :
  GraphStore.final
    (GraphStore.setViewMode GraphConfig.DEFAULT
       (Fixture.withFocus (Some (GraphConfig.IsNode Fixture.personNode))
          Fixture.mockStore))
  = Fixture.withFocus (Some (GraphConfig.IsNode Fixture.personNode)) Fixture.mockStore
  ∧ GraphConfig.focusedGraphObject
      (GraphStore.config
         (GraphStore.final
            (GraphStore.setViewMode GraphConfig.SCHEMA
               (Fixture.withFocus (Some (GraphConfig.IsNode Fixture.personNode))
                  Fixture.mockStore)))) = None.
Proof.
  split.
  - destruct (setViewMode_clears_then_switches GraphConfig.DEFAULT
                (Fixture.withFocus (Some (GraphConfig.IsNode Fixture.personNode))
                   Fixture.mockStore)) as [H _].
    rewrite H; reflexivity.
  - destruct (setViewMode_clears_then_switches GraphConfig.SCHEMA
                (Fixture.withFocus (Some (GraphConfig.IsNode Fixture.personNode))
                   Fixture.mockStore)) as [_ H].
    apply H. simpl. discriminate.
Defined.

(** C1 as it is written fails where the requested mode is the current one:
    the focus set before the call is still there after it. *)
Lemma setViewMode_same_mode_keeps_focus :
  GraphConfig.focusedGraphObject
    (GraphStore.config
       (GraphStore.final
          (GraphStore.setViewMode GraphConfig.DEFAULT
             (Fixture.withFocus (Some (GraphConfig.IsNode Fixture.personNode))
                Fixture.mockStore)))) ≠ None.
Proof. vm_compute. discriminate. Qed.

(** ** Appending graph data *)

Section FreshItems.
Import GraphConfig GraphStore.

Lemma readProperty_Value {A} (object : gmap string A) (key : string) (value : A) :
  readProperty object key = Value value ↔ object !! key = Some value.
Proof.
  unfold readProperty. destruct (object !! key); [|case_decide]; split; congruence.
Qed.

Lemma readProperty_Inherited {A} (object : gmap string A) (key member : string) :
  readProperty object key = Inherited member
  ↔ object !! key = None ∧ key ∈ objectPrototypeKeys ∧ member = key.
Proof.
  unfold readProperty. destruct (object !! key).
  - split; [done | by intros [? _]].
  - case_decide.
    + split; [by intros [= <-] | by intros (_ & _ & ->)].
    + split; [done | by intros (_ & ? & _)].
Qed.

Lemma readProperty_Undefined {A} (object : gmap string A) (key : string) :
  readProperty object key = Undefined
  ↔ object !! key = None ∧ key ∉ objectPrototypeKeys.
Proof.
  unfold readProperty. destruct (object !! key).
  - split; [done | by intros [? _]].
  - case_decide; split; try done. by intros [_ ?].
Qed.

(** A read of a dictionary of objects is falsy only if it is [undefined]. *)
Lemma readProperty_falsy {A} (object : gmap string A) (key : string) :
  isTruthy objectIsTruthy (readProperty object key) = false
  ↔ object !! key = None ∧ key ∉ objectPrototypeKeys.
Proof.
  rewrite <-readProperty_Undefined. by destruct (readProperty object key).
Qed.

Lemma elem_of_freshNodes (s : GraphStore.t) (nodesData : option (list NodeData))
    (d : NodeData) :
  d ∈ freshNodes s nodesData
  ↔ d ∈ default [] nodesData
    ∧ nodes (config s) !! nd_identifier d = None
    ∧ nd_identifier d ∉ objectPrototypeKeys.
Proof.
  unfold freshNodes. destruct nodesData as [l|]; simpl.
  - rewrite list_elem_of_filter, readProperty_falsy. tauto.
  - split; [by intros ?%not_elem_of_nil | by intros [?%not_elem_of_nil _]].
Qed.

Lemma elem_of_freshEdges (s : GraphStore.t) (edgesData : option (list EdgeData))
    (d : EdgeData) :
  d ∈ freshEdges s edgesData
  ↔ d ∈ default [] edgesData
    ∧ edges (config s) !! ed_identifier d = None
    ∧ ed_identifier d ∉ objectPrototypeKeys.
Proof.
  unfold freshEdges. destruct edgesData as [l|]; simpl.
  - rewrite list_elem_of_filter, readProperty_falsy. tauto.
  - split; [by intros ?%not_elem_of_nil | by intros [?%not_elem_of_nil _]].
Qed.



End FreshItems.

Section AppendGraphData.
Import GraphConfig GraphStore.

Variable config_appendGraphData :
  list NodeData → list EdgeData → GraphConfig.t → GraphConfig.t * list ConsoleMsg.

Lemma appendGraphData_nothing_new (s : GraphStore.t)
    (nodesData : option (list NodeData)) (edgesData : option (list EdgeData)) :
  freshNodes s nodesData = [] → freshEdges s edgesData = [] →
  appendGraphData config_appendGraphData nodesData edgesData s
  = {| outcome := Normal None; final := s; effects := [] |}.
Proof.
  intros Hn He. unfold appendGraphData, mbind, M_bind, get. simpl.
  by rewrite Hn, He.
Qed.

Lemma appendGraphData_something_new (s : GraphStore.t)
    (nodesData : option (list NodeData)) (edgesData : option (list EdgeData)) :
  freshNodes s nodesData ≠ [] ∨ freshEdges s edgesData ≠ [] →
  let newNodes := freshNodes s nodesData in
  let newEdges := freshEdges s edgesData in
  let delegated := config_appendGraphData newNodes newEdges (config s) in
  let s' := set_config delegated.1 s in
  appendGraphData config_appendGraphData nodesData edgesData s
  = {| outcome := Normal (Some (newNodes, newEdges));
       final := s';
       effects :=
         (Diagnostic <$> delegated.2)
         ++ calls s' GRAPH_DATA_UPDATE
              (GraphDataUpdateArgs (getNodes s') (getEdges s')
                 newNodes newEdges (config s')) |}.
Proof.
  intros Hnew. cbv zeta.
  unfold appendGraphData, mbind, M_bind, get. simpl.
  assert (Nat.eqb (length (freshNodes s nodesData)) 0
          && Nat.eqb (length (freshEdges s edgesData)) 0 = false) as ->.
  { apply andb_false_iff.
    destruct Hnew as [H | H]; [left | right];
      apply Nat.eqb_neq; by rewrite length_zero_iff_nil. }
  destruct (config_appendGraphData _ _ _) as [config' log]. simpl.
  unfold calls. f_equal. by rewrite app_nil_r.
Qed.

End AppendGraphData.



(** ** Re-submission of a batch *)

Section Resubmission.
Import GraphConfig GraphStore.

Variable nodeInstantiates : NodeData → bool.
Variable edgeInstantiates : EdgeData → bool.

Local Abbreviation parseNodes := (GraphConfig.parseNodes nodeInstantiates).
Local Abbreviation parseEdges := (GraphConfig.parseEdges edgeInstantiates).
Local Abbreviation config_appendGraphData :=
  (GraphConfig.appendGraphData nodeInstantiates edgeInstantiates).

Lemma parseNodes_keeps raw m next log k :
  is_Some (m !! k) → is_Some ((parseNodes raw (m, next, log)).1.1 !! k).
Proof.
  revert m next log. induction raw as [|d raw IH]; intros m next log Hk; [done|].
  simpl. destruct (nodeInstantiates d); apply IH; [|done].
  rewrite lookup_insert. by case_decide.
Qed.

Lemma parseNodes_indexes raw m next log d :
  d ∈ raw → nodeInstantiates d = true →
  is_Some ((parseNodes raw (m, next, log)).1.1 !! nd_identifier d).
Proof.
  revert m next log.
  induction raw as [|d' raw IH]; intros m next log Hd Hvalid.
  { by apply not_elem_of_nil in Hd. }
  apply elem_of_cons in Hd as [<- | Hd]; simpl.
  - rewrite Hvalid. apply parseNodes_keeps. by rewrite lookup_insert_eq.
  - destruct (nodeInstantiates d'); by apply IH.
Qed.

Lemma parseEdges_keeps current raw m next log k :
  is_Some (m !! k) → is_Some ((parseEdges current raw (m, next, log)).1.1 !! k).
Proof.
  revert m next log. induction raw as [|d raw IH]; intros m next log Hk; [done|].
  simpl. destruct (edgeInstantiates d); apply IH; [|done].
  rewrite lookup_insert. by case_decide.
Qed.

Lemma parseEdges_indexes current raw m next log d :
  d ∈ raw → edgeInstantiates d = true →
  is_Some ((parseEdges current raw (m, next, log)).1.1 !! ed_identifier d).
Proof.
  revert m next log.
  induction raw as [|d' raw IH]; intros m next log Hd Hvalid.
  { by apply not_elem_of_nil in Hd. }
  apply elem_of_cons in Hd as [<- | Hd]; simpl.
  - rewrite Hvalid. apply parseEdges_keeps. by rewrite lookup_insert_eq.
  - destruct (edgeInstantiates d'); by apply IH.
Qed.

(** What the configuration's [appendGraphData] leaves in the live maps. *)
Lemma config_appendGraphData_nodes nodesData edgesData c :
  nodes (config_appendGraphData nodesData edgesData c).1
  = (parseNodes nodesData (∅, nextRef c, [])).1.1 ∪ nodes c.
Proof.
  unfold GraphConfig.appendGraphData.
  destruct (parseNodes _ _) as [[newNodes next1] log1].
  by destruct (parseEdges _ _ _) as [[newEdges next2] log2].
Qed.

Lemma config_appendGraphData_edges nodesData edgesData c :
  ∃ current next,
    edges (config_appendGraphData nodesData edgesData c).1
    = (parseEdges current edgesData (∅, next, [])).1.1 ∪ edges c.
Proof.
  unfold GraphConfig.appendGraphData.
  destruct (parseNodes _ _) as [[newNodes next1] log1].
  exists (newNodes ∪ nodes c), next1.
  by destruct (parseEdges _ _ _) as [[newEdges next2] log2].
Qed.

Lemma config_appendGraphData_counts nodesData edgesData c :
  let c' := (config_appendGraphData nodesData edgesData c).1 in
  nodeCount c' = size (nodes c') ∧ edgeCount c' = size (edges c').
Proof.
  unfold GraphConfig.appendGraphData.
  destruct (parseNodes _ _) as [[newNodes next1] log1].
  by destruct (parseEdges _ _ _) as [[newEdges next2] log2].
Qed.

(** After one call every identifier of a well-formed batch is in the live
    maps, so the filter of a second call keeps nothing. *)
Lemma appendGraphData_leaves_nothing_fresh (s : GraphStore.t)
    (nodesData : option (list NodeData)) (edgesData : option (list EdgeData)) :
  wellFormed nodeInstantiates edgeInstantiates nodesData edgesData →
  let once := final (appendGraphData config_appendGraphData nodesData edgesData s) in
  freshNodes once nodesData = [] ∧ freshEdges once edgesData = [].
Proof.
  intros [Hnodes Hedges]. cbv zeta.
  destruct (decide (freshNodes s nodesData = [] ∧ freshEdges s edgesData = []))
    as [[Hn He] | Hnew].
  { by rewrite appendGraphData_nothing_new. }
  assert (freshNodes s nodesData ≠ [] ∨ freshEdges s edgesData ≠ []) as Hnew'.
  { destruct (freshNodes s nodesData); [|by left].
    destruct (freshEdges s edgesData); [|by right]. by destruct Hnew. }
  rewrite appendGraphData_something_new by done.
  cbv zeta. simpl. split.
  - apply elem_of_nil_inv. intros d (Hd & Hnone & Hkey)%elem_of_freshNodes.
    simpl in Hnone. rewrite config_appendGraphData_nodes in Hnone.
    apply lookup_union_None in Hnone as [Hparsed Hold].
    assert (d ∈ freshNodes s nodesData) as Hfresh by by apply elem_of_freshNodes.
    apply eq_None_not_Some in Hparsed. apply Hparsed.
    apply parseNodes_indexes; [done|].
    by apply (proj1 (Forall_forall _ _) Hnodes).
  - apply elem_of_nil_inv. intros d (Hd & Hnone & Hkey)%elem_of_freshEdges.
    simpl in Hnone.
    destruct (config_appendGraphData_edges (freshNodes s nodesData)
                (freshEdges s edgesData) (config s)) as (current & next & Heq).
    rewrite Heq in Hnone.
    apply lookup_union_None in Hnone as [Hparsed Hold].
    assert (d ∈ freshEdges s edgesData) as Hfresh by by apply elem_of_freshEdges.
    apply eq_None_not_Some in Hparsed. apply Hparsed.
    apply parseEdges_indexes; [done|].
    by apply (proj1 (Forall_forall _ _) Hedges).
Qed.

End Resubmission.

(** C3. Submitting a well-formed batch a second time changes neither
    [nodeCount] nor [edgeCount]: every identifier of the batch is in the
    live maps after the first call, so the second call filters the whole
    batch out and returns without touching the store. *)
Theorem appendGraphData_resubmission
    (nodeInstantiates : GraphConfig.NodeData → bool)
    (edgeInstantiates : GraphConfig.EdgeData → bool)
    (s : GraphStore.t)
    (nodesData : option (list GraphConfig.NodeData))
    (edgesData : option (list GraphConfig.EdgeData)) :
  GraphStore.wellFormed nodeInstantiates edgeInstantiates nodesData edgesData →
  let append :=
    GraphStore.appendGraphData
      (GraphConfig.appendGraphData nodeInstantiates edgeInstantiates)
      nodesData edgesData in
  let once := GraphStore.final (append s) in
  let twice := GraphStore.final (append once) in
  GraphConfig.nodeCount (GraphStore.config twice)
  = GraphConfig.nodeCount (GraphStore.config once)
  ∧ GraphConfig.edgeCount (GraphStore.config twice)
    = GraphConfig.edgeCount (GraphStore.config once)
  ∧ twice = once
  ∧ GraphStore.effects (append once) = [].
Proof.
  intros Hwf. cbv zeta.
  destruct (appendGraphData_leaves_nothing_fresh _ _ s _ _ Hwf) as [Hn He].
  cbv zeta in Hn, He.
  by rewrite (appendGraphData_nothing_new _ _ _ _ Hn He).
Qed.

(** The batch of the unit test "nodeCount is updated correctly when
    appending graph data", with one known and one new node. *)
Lemma appendGraphData_resubmission_witness :
  GraphConfig.nodeCount
    (GraphStore.config
       (GraphStore.final
          (GraphStore.appendGraphData Fixture.ingest
             (Some [Fixture.person; Fixture.jane]) (Some [Fixture.worksAt])
             (GraphStore.final
                (GraphStore.appendGraphData Fixture.ingest
                   (Some [Fixture.person; Fixture.jane]) (Some [Fixture.worksAt])
                   Fixture.mockStore)))))
  = 3.
Proof.
  destruct (appendGraphData_resubmission Fixture.nodeHasLabel Fixture.edgeHasLabel
              Fixture.mockStore
              (Some [Fixture.person; Fixture.jane]) (Some [Fixture.worksAt]))
    as [Hcount _].
  - split; repeat constructor.
  - etransitivity; [exact Hcount|]. vm_compute. reflexivity.
Defined.

(** ** Node colors *)

Section NodeColors.
Import GraphConfig GraphStore.

Lemma indexOf_None (l : list (option Z)) (x : option Z) :
  indexOf l x = None ↔ x ∉ l.
Proof.
  unfold indexOf. rewrite fmap_None, list_find_None, Forall_forall.
  split; [intros H Hx; by apply (H x) | intros H y Hy ->; by apply H].
Qed.

Lemma indexOf_Some (l : list (option Z)) (x : option Z) (i : nat) :
  indexOf l x = Some i ↔ l !! i = Some x ∧ ∀ j y, l !! j = Some y → j < i → y ≠ x.
Proof.
  unfold indexOf. rewrite fmap_Some. split.
  - intros ([i' y] & (Hi & -> & Hbefore)%list_find_Some & ->). done.
  - intros [Hi Hbefore]. exists (i, x). split; [|done].
    apply list_find_Some. done.
Qed.

Lemma indexOf_app_new (l : list (option Z)) (x : option Z) :
  x ∉ l → indexOf (l ++ [x]) x = Some (length l).
Proof.
  intros Hx. apply indexOf_Some. split.
  - by rewrite lookup_app_r, Nat.sub_diag.
  - intros j y Hj Hlt ->. rewrite lookup_app_l in Hj by done.
    apply Hx. by eapply list_elem_of_lookup_2.
Qed.

Lemma indexOf_app_old (l : list (option Z)) (x y : option Z) :
  y ∈ l → indexOf (l ++ [x]) y = indexOf l y.
Proof.
  intros Hy. destruct (indexOf l y) as [i|] eqn:Hi.
  - apply indexOf_Some in Hi as [Hi Hbefore]. apply indexOf_Some. split.
    + by apply lookup_app_l_Some.
    + intros j z Hj Hlt. apply (Hbefore j); [|done].
      rewrite lookup_app_l in Hj; [done|].
      apply lookup_lt_Some in Hi. lia.
  - by apply indexOf_None in Hi.
Qed.

Lemma indexOf_reserve (l : list (option Z)) (x : option Z) :
  indexOf (reserve l x) x = Some (slot l x).
Proof.
  unfold reserve, slot. case_decide as Hx.
  - destruct (indexOf l x) eqn:Hi; [done|]. by apply indexOf_None in Hi.
  - rewrite (proj2 (indexOf_None l x) Hx). by apply indexOf_app_new.
Qed.

Lemma indexOf_reserve_old (l : list (option Z)) (x y : option Z) :
  y ∈ l → indexOf (reserve l x) y = indexOf l y.
Proof.
  intros Hy. unfold reserve. case_decide; [done|]. by apply indexOf_app_old.
Qed.

Lemma set_reservedColorsByNeighborhood_id (s : GraphStore.t) :
  set_reservedColorsByNeighborhood (reservedColorsByNeighborhood s) s = s.
Proof. by destruct s. Qed.

(** One run of [getColorForNodeByNeighborhood] on an object. *)
Lemma getColorForNodeByNeighborhood_run (s : GraphStore.t) (node : GraphObjectRef) :
  let neighborhood := GraphObject.neighborhood (base node) in
  let reserved := reservedColorsByNeighborhood s in
  let palette := colorPalette (config s) in
  let index := slot reserved neighborhood in
  let exhausted := (Z.of_nat (length palette) - 1 <? Z.of_nat index)%Z in
  getColorForNodeByNeighborhood (Some node) s
  = {| outcome :=
         Normal (if exhausted then readIndex palette 0 else readIndex palette index);
       final := set_reservedColorsByNeighborhood (reserve reserved neighborhood) s;
       effects :=
         (if neighborhood is None
          then [Diagnostic (Console ConsoleError "Node must have a neighborhood")]
          else [])
         ++ (if exhausted then [ranOutOfColors] else []) |}.
Proof.
  cbv zeta. unfold getColorForNodeByNeighborhood, slot, reserve.
  destruct (indexOf _ _) as [i|] eqn:Hi.
  - assert (GraphObject.neighborhood (base node) ∈ reservedColorsByNeighborhood s)
      as Hin.
    { destruct (decide (GraphObject.neighborhood (base node)
                        ∈ reservedColorsByNeighborhood s)); [done|].
      apply indexOf_None in n. congruence. }
    rewrite decide_True by done.
    rewrite set_reservedColorsByNeighborhood_id.
    unfold mbind, M_bind, get, emit, mret, M_ret. simpl.
    destruct (GraphObject.neighborhood _); simpl; rewrite Hi; simpl;
      destruct (_ <? _)%Z; reflexivity.
  - rewrite decide_False by by apply indexOf_None.
    unfold mbind, M_bind, get, emit, mret, M_ret, modify. simpl.
    destruct (GraphObject.neighborhood _); simpl; rewrite Hi; simpl;
      rewrite length_app, Nat.add_sub; simpl;
      destruct (_ <? _)%Z; reflexivity.
Qed.

End NodeColors.

Lemma getColorForNode_neighborhood (s : GraphStore.t)
    (node : option GraphConfig.GraphObjectRef) :
  GraphConfig.colorScheme (GraphStore.config s) = GraphConfig.NEIGHBORHOOD →
  GraphStore.getColorForNode node s = GraphStore.getColorForNodeByNeighborhood node s.
Proof.
  intros Hscheme.
  unfold GraphStore.getColorForNode, mbind, GraphStore.M_bind, GraphStore.get.
  simpl. rewrite Hscheme.
  by destruct (GraphStore.getColorForNodeByNeighborhood node s) as [[]].
Qed.

Lemma getColorForNode_label (s : GraphStore.t)
    (node : option GraphConfig.GraphObjectRef) :
  GraphConfig.colorScheme (GraphStore.config s) = GraphConfig.LABEL →
  GraphStore.getColorForNode node s
  = {| GraphStore.outcome := Normal (GraphStore.getColorForNodeByLabel s node);
       GraphStore.final := s;
       GraphStore.effects := [] |}.
Proof.
  intros Hscheme.
  unfold GraphStore.getColorForNode, mbind, GraphStore.M_bind, GraphStore.get.
  simpl. by rewrite Hscheme.
Qed.

Lemma getColorForNode_other (s : GraphStore.t)
    (node : option GraphConfig.GraphObjectRef) (tag : string) :
  GraphConfig.colorScheme (GraphStore.config s) = GraphConfig.OtherColorScheme tag →
  GraphStore.getColorForNode node s
  = {| GraphStore.outcome := Throw (ReferenceError "colorScheme is not defined");
       GraphStore.final := s;
       GraphStore.effects := [] |}.
Proof.
  intros Hscheme.
  unfold GraphStore.getColorForNode, mbind, GraphStore.M_bind, GraphStore.get.
  simpl. by rewrite Hscheme.
Qed.

(** What [getColorForNodeByLabel] returns for a node, by what [nodeColors]
    holds under its display name. *)
Lemma getColorForNodeByLabel_node (s : GraphStore.t) (node : GraphConfig.GraphNode) :
  let key :=
    GraphStore.propertyKey (GraphObject.getDisplayName (GraphConfig.node_base node)) in
  let color := GraphStore.getColorForNodeByLabel s (Some (GraphConfig.IsNode node)) in
  (∀ nodeColor,
     GraphConfig.nodeColors (GraphStore.config s) !! key = Some nodeColor →
     nodeColor ≠ "" → color = GraphStore.Value nodeColor)
  ∧ (GraphConfig.nodeColors (GraphStore.config s) !! key = Some "" →
     color = GraphStore.Value GraphStore.defaultColor)
  ∧ (GraphConfig.nodeColors (GraphStore.config s) !! key = None →
     key ∉ GraphStore.objectPrototypeKeys →
     color = GraphStore.Value GraphStore.defaultColor)
  ∧ (GraphConfig.nodeColors (GraphStore.config s) !! key = None →
     key ∈ GraphStore.objectPrototypeKeys →
     color = GraphStore.Inherited key).
Proof.
  cbv zeta. unfold GraphStore.getColorForNodeByLabel, GraphStore.readProperty.
  repeat apply conj.
  - intros nodeColor -> Hcolor. simpl. unfold GraphStore.stringIsTruthy.
    by rewrite bool_decide_eq_false_2.
  - by intros ->.
  - intros -> Hkey. by rewrite decide_False.
  - intros -> Hkey. by rewrite decide_True.
Qed.

(** C5 fails under [LABEL]: for a node whose display name is the name of a
    member that every object literal inherits, here [constructor], and for
    which [nodeColors] holds no color, [getColorForNode] returns that
    member, a function, and not the neutral gray. *)
Lemma getColorForNode_inherited_display_name :
  GraphObject.getDisplayName (GraphConfig.node_base Scenario.constructorNode)
  = Some "constructor"
  ∧ GraphConfig.nodeColors Fixture.mockConfig !! "constructor" = None
  ∧ GraphStore.outcome
      (GraphStore.getColorForNode
         (Some (GraphConfig.IsNode Scenario.constructorNode))
         (Fixture.withColorScheme GraphConfig.LABEL Fixture.mockStore))
    = Normal (GraphStore.Inherited "constructor")
  ∧ GraphStore.outcome
      (GraphStore.getColorForNode
         (Some (GraphConfig.IsNode Scenario.constructorNode))
         (Fixture.withColorScheme GraphConfig.LABEL Fixture.mockStore))
    ≠ Normal (GraphStore.Value GraphStore.defaultColor).
Proof.
  split; [reflexivity|]. split; [reflexivity|].
  rewrite getColorForNode_label by reflexivity. cbn [GraphStore.outcome].
  destruct (getColorForNodeByLabel_node
              (Fixture.withColorScheme GraphConfig.LABEL Fixture.mockStore)
              Scenario.constructorNode) as (_ & _ & _ & Hinherited).
  rewrite Hinherited.
  - split; [reflexivity | discriminate].
  - reflexivity.
  - apply (bool_decide_unpack _). reflexivity.
Qed.

(** C6 as it is written fails under the neighborhood scheme: a node of a
    neighborhood that has no slot yet gets one, which changes the store. *)
Lemma getColorForNode_reserves_a_slot :
  GraphStore.final
    (GraphStore.getColorForNode
       (Some (Fixture.inNeighborhood 5 Fixture.personNode)) Fixture.mockStore)
  ≠ Fixture.mockStore.
Proof.
  intros H. apply (f_equal GraphStore.reservedColorsByNeighborhood) in H.
  vm_compute in H. discriminate H.
Qed.

(** C6, as the code has it. [getColorForNode] never changes the
    configuration, the listeners or the colors reserved by label. Under every
    scheme but [NEIGHBORHOOD], and for a null node, it leaves the whole store
    unchanged. Under [NEIGHBORHOOD] the only field that can change is
    [reservedColorsByNeighborhood]: the neighborhood of the node is appended
    to it unless it is in it already, in which case nothing changes. *)
Theorem getColorForNode_frame (s : GraphStore.t)
    (node : option GraphConfig.GraphObjectRef) :
  let after := GraphStore.final (GraphStore.getColorForNode node s) in
  GraphStore.config after = GraphStore.config s
  ∧ GraphStore.eventListeners after = GraphStore.eventListeners s
  ∧ GraphStore.reservedColorsByLabel after = GraphStore.reservedColorsByLabel s
  ∧ (GraphConfig.colorScheme (GraphStore.config s) ≠ GraphConfig.NEIGHBORHOOD →
     after = s)
  ∧ (node = None → after = s)
  ∧ (∀ object, node = Some object →
       GraphConfig.colorScheme (GraphStore.config s) = GraphConfig.NEIGHBORHOOD →
       GraphStore.reservedColorsByNeighborhood after
       = GraphStore.reserve (GraphStore.reservedColorsByNeighborhood s)
           (GraphObject.neighborhood (GraphConfig.base object))
       ∧ (GraphObject.neighborhood (GraphConfig.base object)
            ∈ GraphStore.reservedColorsByNeighborhood s → after = s)).
Proof.
  cbv zeta.
  destruct (GraphConfig.colorScheme (GraphStore.config s)) as [| |tag] eqn:Hscheme.
  - rewrite getColorForNode_neighborhood by done.
    destruct node as [object|].
    + pose proof (getColorForNodeByNeighborhood_run s object) as Hrun.
      cbv zeta in Hrun. rewrite Hrun. clear Hrun. simpl.
      split; [done|]. split; [done|]. split; [done|].
      split; [by intros []|]. split; [by intros [=]|].
      intros ? [= <-] _. split; [done|].
      intros Hin. unfold GraphStore.reserve. rewrite decide_True by done.
      apply set_reservedColorsByNeighborhood_id.
    + simpl.
      split; [done|]. split; [done|]. split; [done|].
      split; [done|]. split; [done|]. by intros ? [=].
  - rewrite getColorForNode_label by done. simpl.
    split; [done|]. split; [done|]. split; [done|].
    split; [done|]. split; [done|]. by intros ? _ [=].
  - rewrite (getColorForNode_other s node tag) by done. simpl.
    split; [done|]. split; [done|]. split; [done|].
    split; [done|]. split; [done|]. by intros ? _ [=].
Qed.

Lemma getColorForNode_frame_witness :
  GraphStore.final
    (GraphStore.getColorForNode
       (Some (GraphConfig.IsNode Fixture.personNode))
       (Fixture.withColorScheme GraphConfig.LABEL Fixture.mockStore))
  = Fixture.withColorScheme GraphConfig.LABEL Fixture.mockStore
  ∧ GraphStore.reservedColorsByNeighborhood
      (GraphStore.final
         (GraphStore.getColorForNode
            (Some (Fixture.inNeighborhood 5 Fixture.personNode)) Fixture.mockStore))
    = [Some 5%Z]
  ∧ GraphStore.final
      (GraphStore.getColorForNode
         (Some (Fixture.inNeighborhood 5 Fixture.personNode))
         (GraphStore.set_reservedColorsByNeighborhood [Some 5%Z] Fixture.mockStore))
    = GraphStore.set_reservedColorsByNeighborhood [Some 5%Z] Fixture.mockStore.
Proof.
  split; [|split].
  - destruct (getColorForNode_frame
                (Fixture.withColorScheme GraphConfig.LABEL Fixture.mockStore)
                (Some (GraphConfig.IsNode Fixture.personNode)))
      as (_ & _ & _ & H & _).
    apply H. simpl. discriminate.
  - destruct (getColorForNode_frame Fixture.mockStore
                (Some (Fixture.inNeighborhood 5 Fixture.personNode)))
      as (_ & _ & _ & _ & _ & H).
    destruct (H _ eq_refl eq_refl) as [Hreserved _].
    rewrite Hreserved. reflexivity.
  - destruct (getColorForNode_frame
                (GraphStore.set_reservedColorsByNeighborhood [Some 5%Z]
                   Fixture.mockStore)
                (Some (Fixture.inNeighborhood 5 Fixture.personNode)))
      as (_ & _ & _ & _ & _ & H).
    destruct (H _ eq_refl eq_refl) as [_ Hsame].
    apply Hsame. simpl. apply list_elem_of_singleton. reflexivity.
Defined.

(** ** Construction of graph objects *)

(** The only throw of the [Edge] constructor is the one of the inherited
    constructor, passed on. *)
Lemma Edge_constructor_throws_iff_super_throws
    (GraphObject : Type)
    (GraphObject_constructor :
       JsValue → JsValue → gmap string JsValue →
       Completion GraphObject * list ConsoleMsg)
    (StringToNumber : string → JsNumber) (p : Edge.Params) :
  throws (Edge.constructor GraphObject GraphObject_constructor StringToNumber p).1
  ↔ throws (GraphObject_constructor (Edge.label p) (Edge.title p) (Edge.properties p)).1.
Proof.
  unfold Edge.constructor.
  destruct (GraphObject_constructor _ _ _) as [[this | e] log]; simpl.
  - destruct (_ || _); simpl; split; intros [e He]; discriminate He.
  - split; intros _; by eexists.
Qed.

(** C7. Whenever the inherited constructor returns, the [Edge] constructor
    returns as well. If [to] or [from] is not coercible to a finite number,
    which includes a missing one, the instance is marked not instantiated,
    [target] and [source] stay unset and the failure is logged; otherwise
    the instance is instantiated with [target = to] and [source = from]. *)
Theorem Edge_constructor_validates_endpoints
    (GraphObject : Type)
    (GraphObject_constructor :
       JsValue → JsValue → gmap string JsValue →
       Completion GraphObject * list ConsoleMsg)
    (StringToNumber : string → JsNumber)
    (p : Edge.Params) (this : GraphObject) (log : list ConsoleMsg) :
  GraphObject_constructor (Edge.label p) (Edge.title p) (Edge.properties p)
  = (Normal this, log) →
  ∃ edge log',
    Edge.constructor GraphObject GraphObject_constructor StringToNumber p
    = (Normal edge, log')
    ∧ (Edge.isNumber StringToNumber (Edge.to p) = false
       ∨ Edge.isNumber StringToNumber (Edge.from p) = false →
       Edge.instantiated edge = false
       ∧ Edge.target edge = JsUndefined
       ∧ Edge.source edge = JsUndefined
       ∧ Console ConsoleLog "Failed to instantiate edge" ∈ log')
    ∧ (Edge.isNumber StringToNumber (Edge.to p) = true →
       Edge.isNumber StringToNumber (Edge.from p) = true →
       Edge.instantiated edge = true
       ∧ Edge.target edge = Edge.to p
       ∧ Edge.source edge = Edge.from p)
    ∧ (Edge.to p = JsUndefined ∨ Edge.from p = JsUndefined →
       Edge.instantiated edge = false).
Proof.
  intros Hsuper. unfold Edge.constructor. rewrite Hsuper.
  destruct (Edge.isNumber StringToNumber (Edge.to p)) eqn:Hto;
    destruct (Edge.isNumber StringToNumber (Edge.from p)) eqn:Hfrom;
    simpl; eexists _, _; (split; [reflexivity|]); simpl.
  - split; [by intros [? | ?]|]. split; [done|].
    intros [Hundef | Hundef]; rewrite Hundef in *; discriminate.
  - split; [|split; [done|done]].
    intros _. repeat split. apply elem_of_app. right. by apply list_elem_of_singleton.
  - split; [|split; [done|done]].
    intros _. repeat split. apply elem_of_app. right. by apply list_elem_of_singleton.
  - split; [|split; [done|done]].
    intros _. repeat split. apply elem_of_app. right. by apply list_elem_of_singleton.
Qed.

Lemma Edge_constructor_validates_endpoints_witness :
  ∃ edge log,
    Edge.constructor _ Fixture.storeArguments Fixture.decimalToNumber
      (Fixture.edgeParams (JsStr "one") (JsStr "2")) = (Normal edge, log)
    ∧ Edge.instantiated edge = false
    ∧ Edge.target edge = JsUndefined
    ∧ Edge.source edge = JsUndefined.
Proof.
  destruct (Edge_constructor_validates_endpoints _ Fixture.storeArguments
              Fixture.decimalToNumber
              (Fixture.edgeParams (JsStr "one") (JsStr "2"))
              (JsStr "knows", JsUndefined, ∅) [] eq_refl)
    as (edge & log & Hrun & Hinvalid & _).
  exists edge, log. split; [exact Hrun|].
  destruct Hinvalid as (Hinst & Htarget & Hsource & _); [left; reflexivity|].
  repeat split; assumption.
Defined.

(** The unit test "nodeCount is updated correctly when appending graph
    data", run on the configuration directly: one of the two submitted
    nodes is known already, and the count goes from one to two. *)
Example config_appendGraphData_nodeCount :
  let before :=
    GraphConfig.set_graph {[ "1" := Fixture.personNode ]} ∅ 1 Fixture.mockConfig in
  GraphConfig.nodeCount before = 1
  ∧ GraphConfig.nodeCount
      (Fixture.ingest [Fixture.person; Fixture.company] [] before).1 = 2.
Proof. split; vm_compute; reflexivity. Qed.

(** * Further properties *)

(** ** Schema index: names, labels and properties of tables *)

Section ObjectKeys.
Import Schema.

Lemma elem_of_assignKey (key k : string) (keys : list string) :
  k ∈ assignKey key keys ↔ k ∈ keys ∨ (k = key ∧ key ≠ "__proto__").
Proof.
  unfold assignKey.
  destruct (decide (key = "__proto__")) as [Hproto|Hproto].
  { split; [by left|]. by intros [?|[_ ?]]. }
  destruct (decide (key ∈ keys)) as [Hin|Hin].
  { split; [by left|]. by intros [?|[-> _]]. }
  rewrite elem_of_app, list_elem_of_singleton.
  split; (intros [?|?]; [by left|right]); [done|tauto].
Qed.

Lemma NoDup_assignKey (key : string) (keys : list string) :
  NoDup keys → NoDup (assignKey key keys).
Proof.
  intros Hkeys. unfold assignKey. repeat case_decide; [done..|].
  apply NoDup_app. split; [done|]. split; [|apply NoDup_singleton].
  intros k Hk ->%list_elem_of_singleton. done.
Qed.

Lemma Object_keys_Permutation (keys : list string) : Object_keys keys ≡ₚ keys.
Proof.
  unfold Object_keys. rewrite merge_sort_Permutation.
  apply filter_app_complement.
Qed.

Context {A : Type} (nameOf : A → string).

Lemma collectNames_NoDup (tables : list A) (acc : list string * list ConsoleMsg) :
  NoDup acc.1 → NoDup (collectNames nameOf tables acc).1.
Proof.
  revert acc. induction tables as [|table tables IH]; intros acc Hacc; [done|].
  simpl. case_decide; apply IH; simpl; [done|]. by apply NoDup_assignKey.
Qed.

Lemma elem_of_collectNames (tables : list A) (acc : list string * list ConsoleMsg)
    (k : string) :
  k ∈ (collectNames nameOf tables acc).1
  ↔ k ∈ acc.1
    ∨ (k ≠ "" ∧ k ≠ "__proto__" ∧ ∃ table, table ∈ tables ∧ nameOf table = k).
Proof.
  revert acc. induction tables as [|table tables IH]; intros acc; simpl.
  - split; [by left|]. intros [?|(_ & _ & t & Ht & _)]; [done|].
    by apply not_elem_of_nil in Ht.
  - case_decide as Hname; rewrite IH; simpl.
    + split; (intros [?|(? & ? & t & Ht & <-)]; [by left|right]).
      * split_and!; [done..|]. exists t. split; [by right|done].
      * split_and!; [done..|]. exists t. split; [|done].
        apply elem_of_cons in Ht as [->|?]; done.
    + rewrite elem_of_assignKey. split.
      * intros [[?|[-> ?]]|(? & ? & t & Ht & <-)]; [by left|right..].
        -- split_and!; [done..|]. exists table. split; [by left|done].
        -- split_and!; [done..|]. exists t. split; [by right|done].
      * intros [?|(? & ? & t & Ht & <-)]; [by left; left|].
        apply elem_of_cons in Ht as [->|?].
        -- left. by right.
        -- right. split_and!; [done..|]. by exists t.
Qed.

Lemma collectNames_log (tables : list A) (acc : list string * list ConsoleMsg) :
  length (collectNames nameOf tables acc).2
  = length acc.2 + length (filter (λ table, nameOf table = "") tables).
Proof.
  revert acc. induction tables as [|table tables IH]; intros acc; simpl; [lia|].
  case_decide.
  - rewrite IH, filter_cons_True by done. simpl. rewrite length_app. simpl. lia.
  - rewrite IH, filter_cons_False by done. done.
Qed.

End ObjectKeys.

(** X1. [getNamesOfTables] lists every table name once, however often it is
    declared: a name is listed exactly when it is the name of a table and is
    neither empty nor ["__proto__"]. Each table with an empty name is
    reported once and skipped. *)
Theorem getNamesOfTables_lists_each_name_once {A : Type} (nameOf : A → string)
    (s : Schema.t) (tables : list A) :
  NoDup (Schema.getNamesOfTables nameOf s tables).1
  ∧ (∀ name,
       name ∈ (Schema.getNamesOfTables nameOf s tables).1
       ↔ name ≠ "" ∧ name ≠ "__proto__"
         ∧ ∃ table, table ∈ tables ∧ nameOf table = name)
  ∧ length (Schema.getNamesOfTables nameOf s tables).2
    = length (filter (λ table, nameOf table = "") tables).
Proof.
  unfold Schema.getNamesOfTables.
  pose proof (collectNames_NoDup nameOf tables ([], []) (NoDup_nil_2)) as Hnodup.
  pose proof (elem_of_collectNames nameOf tables ([], [])) as Helem.
  pose proof (collectNames_log nameOf tables ([], [])) as Hlog.
  destruct (Schema.collectNames nameOf tables ([], [])) as [names log].
  simpl in *. split; [|split].
  - by rewrite Object_keys_Permutation.
  - intros name. rewrite Object_keys_Permutation, Helem.
    split; [intros [?%not_elem_of_nil|?]; done | by right].
  - done.
Qed.

(** The keys that are array indices come first, in ascending order, whatever
    the order of the tables. *)
Example getNamesOfTables_order :
  (Schema.getNamesOfTables id Fixture.mockSchema ["b"; "10"; "a"; "9"; "b"; "07"]).1
  = ["9"; "10"; "b"; "a"; "07"].
Proof. vm_compute. reflexivity. Qed.

(** X2. [getUniqueLabels] does not remove duplicates: a label is listed as many
    times as there are tables whose first label it is, and the list is as
    long as there are tables with at least one label. *)
Theorem getUniqueLabels_keeps_duplicates {A : Type}
    (labelNamesOf : A → list string) (tables : list A) :
  (∀ label,
     length (filter (λ l, l = label) (Schema.getUniqueLabels labelNamesOf tables))
     = length (filter (λ table, head (labelNamesOf table) = Some label) tables))
  ∧ length (Schema.getUniqueLabels labelNamesOf tables)
    = length (filter (λ table, labelNamesOf table ≠ []) tables).
Proof.
  split.
  - intros label. induction tables as [|table tables IH]; [done|]. simpl.
    destruct (labelNamesOf table) as [|l ls] eqn:Hlabels.
    + rewrite filter_cons_False by (rewrite Hlabels; done). done.
    + simpl. destruct (decide (l = label)) as [->|Hne].
      * rewrite !filter_cons_True by (rewrite ?Hlabels; done). simpl. by rewrite IH.
      * rewrite !filter_cons_False by (rewrite ?Hlabels; simpl; congruence). done.
  - induction tables as [|table tables IH]; [done|]. simpl.
    destruct (labelNamesOf table) as [|l ls] eqn:Hlabels.
    + rewrite filter_cons_False by (rewrite Hlabels; tauto). done.
    + rewrite filter_cons_True by (rewrite Hlabels; done). simpl. by rewrite IH.
Qed.

Section PropertiesOfTable.
Import Schema.

Lemma getPropertyType_first_named (declarations : list PropertyDeclaration)
    (name type : string) :
  getPropertyType declarations name = Some type
  ↔ ∃ declaration,
      first_named pd_name declarations name declaration
      ∧ pd_type declaration = type.
Proof.
  induction declarations as [|d declarations IH]; simpl.
  - split; [done|]. intros (? & (l1 & l2 & Hnil & _) & _). by destruct l1.
  - case_decide as Hd.
    + split.
      * intros [= <-]. exists d. split; [|done].
        exists [], declarations. split; [done|]. split; [done|].
        by intros ? ?%not_elem_of_nil.
      * intros (d' & (l1 & l2 & Heq & Hname & Hbefore) & <-).
        destruct l1 as [|x l1]; simplify_eq/=; try done.
        destruct (Hbefore x); [by left | done].
    + rewrite IH. split.
      * intros (d' & (l1 & l2 & -> & Hname & Hbefore) & <-). exists d'.
        split; [|done]. exists (d :: l1), l2. split; [done|]. split; [done|].
        intros y [->|?]%elem_of_cons; [done | by apply Hbefore].
      * intros (d' & (l1 & l2 & Heq & Hname & Hbefore) & <-). exists d'.
        split; [|done]. destruct l1 as [|x l1]; simplify_eq/=; try done.
        exists l1, l2. split; [done|]. split; [done|].
        intros y ?. apply Hbefore. by right.
Qed.

Lemma lookup_assignProperty (key value k : string) (properties : gmap string string) :
  assignProperty key value properties !! k
  = if decide (key = k ∧ key ≠ "__proto__") then Some value else properties !! k.
Proof.
  unfold assignProperty.
  destruct (decide (key = "__proto__")) as [Hproto|Hproto].
  { rewrite decide_False; [done|]. tauto. }
  destruct (decide (key = k)) as [->|Hne].
  - rewrite decide_True by done. apply lookup_insert_eq.
  - rewrite decide_False by tauto. by apply lookup_insert_ne.
Qed.

Lemma lookup_collectProperties (s : t) (definitions : list PropertyDefinition)
    (acc : gmap string string * list ConsoleMsg) (k : string) :
  (collectProperties s definitions acc).1 !! k
  = match getPropertyType (propertyDeclarations (rawSchema s)) k with
    | Some type =>
        if decide (type ≠ "" ∧ k ≠ "__proto__"
                   ∧ Exists (λ d, propertyDeclarationName d = k) definitions)
        then Some type else acc.1 !! k
    | None => acc.1 !! k
    end.
Proof.
  revert acc. induction definitions as [|d definitions IH]; intros acc; simpl.
  - destruct (getPropertyType _ k); [|done].
    rewrite decide_False; [done|]. intros (_ & _ & []%Exists_nil).
  - destruct (decide (propertyDeclarationName d = k)) as [<-|Hk].
    + destruct (getPropertyType _ (propertyDeclarationName d)) as [type|] eqn:Htype;
        [destruct (decide (type = "")) as [->|Htype']|];
        rewrite IH, ?Htype; simpl; [done| |done].
      rewrite lookup_assignProperty.
      destruct (decide (propertyDeclarationName d = "__proto__")) as [Hproto|Hproto].
      * rewrite !decide_False; [done|tauto..].
      * rewrite (decide_True (P := _ = _ ∧ _)) by done.
        rewrite (decide_True (P := _ ∧ _ ∧ Exists _ (d :: _)))
          by (split; [done|split; [done|by left]]).
        by case_decide.
    + assert (∀ acc',
                acc'.1 !! k = acc.1 !! k →
                (collectProperties s definitions acc').1 !! k
                = match getPropertyType (propertyDeclarations (rawSchema s)) k with
                  | Some type =>
                      if decide (type ≠ "" ∧ k ≠ "__proto__"
                                 ∧ Exists (λ d, propertyDeclarationName d = k)
                                          (d :: definitions))
                      then Some type else acc.1 !! k
                  | None => acc.1 !! k
                  end) as Hstep.
      { intros acc' Hacc'. rewrite IH, Hacc'.
        destruct (getPropertyType _ k); [|done].
        apply decide_ext. rewrite Exists_cons. tauto. }
      destruct (getPropertyType _ (propertyDeclarationName d)) as [type|];
        [destruct (decide (type = ""))|]; apply Hstep; simpl; [done| |done].
      rewrite lookup_assignProperty. rewrite decide_False; [done|]. tauto.
Qed.

Lemma collectProperties_log (s : t) (definitions : list PropertyDefinition)
    (acc : gmap string string * list ConsoleMsg) :
  length (collectProperties s definitions acc).2
  = length acc.2
    + length (filter (λ d,
                        default "" (getPropertyType (propertyDeclarations (rawSchema s))
                                                    (propertyDeclarationName d)) = "")
                     definitions).
Proof.
  revert acc. induction definitions as [|d definitions IH]; intros acc; simpl; [lia|].
  destruct (getPropertyType _ (propertyDeclarationName d)) as [type|] eqn:Htype;
    [destruct (decide (type = "")) as [->|Htype']|]; rewrite IH; simpl.
  - rewrite filter_cons_True by (by rewrite Htype).
    rewrite length_app. simpl. lia.
  - rewrite filter_cons_False by (by rewrite Htype). done.
  - rewrite filter_cons_True by (by rewrite Htype).
    rewrite length_app. simpl. lia.
Qed.

End PropertiesOfTable.

(** X3. [getPropertiesOfTable] maps a property name to a type exactly when the
    table defines a property of that name, the first declaration of that
    name in the schema has a non-empty type, which is then the type
    reported, and the name is not ["__proto__"]. A definition without such a
    declaration is reported once and skipped; the call does not fail. *)
Theorem getPropertiesOfTable_resolves_declared_types (s : Schema.t)
    (definitions : list Schema.PropertyDefinition) :
  (∀ name type,
     (Schema.getPropertiesOfTable s definitions).1 !! name = Some type
     ↔ name ≠ "__proto__" ∧ type ≠ ""
       ∧ (∃ definition,
            definition ∈ definitions
            ∧ Schema.propertyDeclarationName definition = name)
       ∧ ∃ declaration,
           Schema.first_named Schema.pd_name
             (Schema.propertyDeclarations (Schema.rawSchema s)) name declaration
           ∧ Schema.pd_type declaration = type)
  ∧ length (Schema.getPropertiesOfTable s definitions).2
    = length
        (filter
           (λ d,
              default ""
                (Schema.getPropertyType
                   (Schema.propertyDeclarations (Schema.rawSchema s))
                   (Schema.propertyDeclarationName d)) = "")
           definitions).
Proof.
  unfold Schema.getPropertiesOfTable. split.
  - intros name type. rewrite lookup_collectProperties. simpl.
    rewrite <-getPropertyType_first_named.
    destruct (Schema.getPropertyType _ name) as [type'|].
    + case_decide as Hdec.
      * destruct Hdec as (? & ? & (d & ? & ?)%Exists_exists).
        split.
        -- intros [= <-]. split; [done|]. split; [done|]. split; [by exists d|done].
        -- by intros (_ & _ & _ & [= <-]).
      * rewrite lookup_empty. split; [done|].
        intros (? & ? & (d & ? & ?) & [= <-]). destruct Hdec.
        split; [done|]. split; [done|]. apply Exists_exists. by exists d.
    + rewrite lookup_empty. split; [done|]. by intros (_ & _ & _ & ?).
  - by rewrite collectProperties_log.
Qed.

(** ** Schema index: the ends of an edge table *)

Section NodesOfEdges.
Import Schema.

(** The first table of that name, as [getNodeFromName] finds it. *)
Lemma getNodeFromName_head (s : t) (name : string) :
  (getNodeFromName s name).1
  = head (filter (λ nodeTable, nt_name nodeTable = name) (nodeTables (rawSchema s))).
Proof. unfold getNodeFromName. by destruct (filter _ _). Qed.

Lemma findNodesOfEdge_unique_names (edgeTable : EdgeTable)
    (tables : list NodeTable) (nodes : EdgeNodes) :
  NoDup (nt_name <$> tables) →
  (∀ x, from nodes = Some x →
        nodeTableName (sourceNodeTable edgeTable) ∉ nt_name <$> tables) →
  (∀ x, to nodes = Some x →
        nodeTableName (destinationNodeTable edgeTable) ∉ nt_name <$> tables) →
  from (findNodesOfEdge edgeTable tables nodes)
  = match from nodes with
    | Some x => Some x
    | None =>
        head (filter (λ nodeTable,
                        nt_name nodeTable = nodeTableName (sourceNodeTable edgeTable))
                     tables)
    end
  ∧ to (findNodesOfEdge edgeTable tables nodes)
    = match to nodes with
      | Some x => Some x
      | None =>
          head (filter (λ nodeTable,
                          nt_name nodeTable
                          = nodeTableName (destinationNodeTable edgeTable))
                       tables)
      end.
Proof.
  revert nodes. induction tables as [|nodeTable tables IH]; intros nodes Hnames Hfrom Hto.
  { simpl. split; by destruct nodes as [[] []]. }
  rewrite fmap_cons in Hnames, Hfrom, Hto.
  apply NoDup_cons in Hnames as [Hfresh Hnames].
  simpl.
  set (nodes1 := if decide (_ = _) then _ else nodes).
  set (nodes2 := if decide (_ = _) then _ else nodes1).
  assert (from nodes2
          = match from nodes with
            | Some x => Some x
            | None =>
                if decide (nt_name nodeTable = nodeTableName (sourceNodeTable edgeTable))
                then Some nodeTable else None
            end) as Hfrom2.
  { subst nodes2 nodes1. destruct (from nodes) as [x|] eqn:Hx.
    - specialize (Hfrom x eq_refl). rewrite not_elem_of_cons in Hfrom.
      destruct Hfrom as [Hne _].
      rewrite (decide_False (P := nodeTableName (sourceNodeTable _) = _)) by done.
      destruct (decide (nodeTableName (destinationNodeTable edgeTable)
                        = nt_name nodeTable)); simpl; exact Hx.
    - repeat case_decide; simpl; congruence. }
  assert (to nodes2
          = match to nodes with
            | Some x => Some x
            | None =>
                if decide (nt_name nodeTable
                           = nodeTableName (destinationNodeTable edgeTable))
                then Some nodeTable else None
            end) as Hto2.
  { subst nodes2 nodes1. destruct (to nodes) as [x|] eqn:Hx.
    - specialize (Hto x eq_refl). rewrite not_elem_of_cons in Hto.
      destruct Hto as [Hne _].
      rewrite (decide_False (P := nodeTableName (destinationNodeTable _) = _)) by done.
      destruct (decide (nodeTableName (sourceNodeTable edgeTable) = nt_name nodeTable));
        simpl; [done | exact Hx].
    - repeat case_decide; simpl; congruence. }
  assert (∀ x, from nodes2 = Some x →
               nodeTableName (sourceNodeTable edgeTable) ∉ nt_name <$> tables) as Hfrom'.
  { intros x. rewrite Hfrom2. destruct (from nodes) as [y|] eqn:Hy.
    - intros _. specialize (Hfrom y eq_refl). by apply not_elem_of_cons in Hfrom as [_ ?].
    - destruct (decide (nt_name nodeTable = nodeTableName (sourceNodeTable edgeTable)))
        as [Hd|Hd]; [|done].
      intros _. by rewrite <-Hd. }
  assert (∀ x, to nodes2 = Some x →
               nodeTableName (destinationNodeTable edgeTable) ∉ nt_name <$> tables)
    as Hto'.
  { intros x. rewrite Hto2. destruct (to nodes) as [y|] eqn:Hy.
    - intros _. specialize (Hto y eq_refl). by apply not_elem_of_cons in Hto as [_ ?].
    - destruct (decide (nt_name nodeTable
                        = nodeTableName (destinationNodeTable edgeTable)))
        as [Hd|Hd]; [|done].
      intros _. by rewrite <-Hd. }
  assert (∀ name, name ∉ nt_name <$> tables →
                  filter (λ t, nt_name t = name) tables = []) as Habsent.
  { intros name Hname. apply elem_of_nil_inv. intros y [? ?]%list_elem_of_filter.
    apply Hname. apply list_elem_of_fmap. by exists y. }
  assert (match from nodes with
          | Some x => Some x
          | None =>
              head (filter (λ t, nt_name t = nodeTableName (sourceNodeTable edgeTable))
                           (nodeTable :: tables))
          end
          = match from nodes2 with
            | Some x => Some x
            | None =>
                head (filter (λ t, nt_name t
                                   = nodeTableName (sourceNodeTable edgeTable)) tables)
            end) as Hgoal_from.
  { rewrite Hfrom2. destruct (from nodes); [done|].
    destruct (decide (nt_name nodeTable = nodeTableName (sourceNodeTable edgeTable)));
      [by rewrite filter_cons_True | by rewrite filter_cons_False]. }
  assert (match to nodes with
          | Some x => Some x
          | None =>
              head (filter (λ t, nt_name t
                                 = nodeTableName (destinationNodeTable edgeTable))
                           (nodeTable :: tables))
          end
          = match to nodes2 with
            | Some x => Some x
            | None =>
                head (filter (λ t, nt_name t
                                   = nodeTableName (destinationNodeTable edgeTable))
                             tables)
            end) as Hgoal_to.
  { rewrite Hto2. destruct (to nodes); [done|].
    destruct (decide (nt_name nodeTable
                      = nodeTableName (destinationNodeTable edgeTable)));
      [by rewrite filter_cons_True | by rewrite filter_cons_False]. }
  rewrite Hgoal_from, Hgoal_to. clearbody nodes2. clear nodes1.
  destruct (bool_decide (is_Some (from nodes2)) && bool_decide (is_Some (to nodes2)))
    eqn:Hboth.
  - apply andb_true_iff in Hboth as [[x Hx]%bool_decide_eq_true [y Hy]%bool_decide_eq_true].
    by rewrite Hx, Hy.
  - by apply IH.
Qed.

End NodesOfEdges.

(** X4. When no two node tables share a name, [getNodesOfEdges] finds for each
    end of an edge table the table that [getNodeFromName] finds for the
    name of that end, and it logs an error exactly when an end is missing. *)
Theorem getNodesOfEdges_agrees_with_getNodeFromName (s : Schema.t)
    (edgeTable : Schema.EdgeTable) :
  NoDup (Schema.nt_name <$> Schema.nodeTables (Schema.rawSchema s)) →
  Schema.from (Schema.getNodesOfEdges s edgeTable).1
  = (Schema.getNodeFromName s
       (Schema.nodeTableName (Schema.sourceNodeTable edgeTable))).1
  ∧ Schema.to (Schema.getNodesOfEdges s edgeTable).1
    = (Schema.getNodeFromName s
         (Schema.nodeTableName (Schema.destinationNodeTable edgeTable))).1
  ∧ ((Schema.getNodesOfEdges s edgeTable).2 = []
     ↔ is_Some (Schema.from (Schema.getNodesOfEdges s edgeTable).1)
       ∧ is_Some (Schema.to (Schema.getNodesOfEdges s edgeTable).1)).
Proof.
  intros Hnames. rewrite !getNodeFromName_head. unfold Schema.getNodesOfEdges. simpl.
  destruct (findNodesOfEdge_unique_names edgeTable
              (Schema.nodeTables (Schema.rawSchema s))
              {| Schema.to := None; Schema.from := None |} Hnames)
    as [Hfrom Hto]; [done..|].
  simpl in Hfrom, Hto. split; [done|]. split; [done|].
  destruct (Schema.from _) as [x|], (Schema.to _) as [y|]; simpl;
    rewrite ?bool_decide_eq_true_2, ?bool_decide_eq_false_2
      by (try (by eexists); by intros [? ?]); simpl;
    (split; [try done | try (by intros [[? ?] [? ?]])]).
  all: by intros _; split; eexists.
Qed.

(** The hypothesis is needed: with two tables of one name, [getNodesOfEdges]
    takes the last one it passes before both ends are found, and
    [getNodeFromName] the first. *)
Example getNodesOfEdges_ambiguous_name :
  Schema.from (Schema.getNodesOfEdges Scenario.ambiguousSchema Scenario.ownsTable).1
  = Some Scenario.accountByIban
  ∧ (Schema.getNodeFromName Scenario.ambiguousSchema "Account").1
    = Some Scenario.accountByNumber.
Proof. split; reflexivity. Qed.

Lemma getNodesOfEdges_agrees_with_getNodeFromName_witness :
  Schema.from (Schema.getNodesOfEdges Fixture.mockSchema Fixture.worksAtTable).1
  = Some Fixture.personTable
  ∧ Schema.to (Schema.getNodesOfEdges Fixture.mockSchema Fixture.worksAtTable).1
    = Some Fixture.companyTable.
Proof.
  destruct (getNodesOfEdges_agrees_with_getNodeFromName
              Fixture.mockSchema Fixture.worksAtTable) as (Hfrom & Hto & _).
  - apply (bool_decide_unpack _). vm_compute. exact I.
  - rewrite Hfrom, Hto. split; reflexivity.
Defined.

(** X5. When both names resolve and [nodeIsConnectedToEdge] reports the node as
    the source, the edge table is one of the edge tables that
    [getEdgesOfNode] lists for the node table. *)
Theorem isSource_edge_among_getEdgesOfNode (s : Schema.t) (nodeName edgeName : string)
    (node : Schema.NodeTable) (edge : Schema.EdgeTable) :
  (Schema.getNodeFromName s nodeName).1 = Some node →
  (Schema.getEdgeFromName s edgeName).1 = Some edge →
  Schema.isSource (Schema.nodeIsConnectedToEdge s nodeName edgeName).1 = true →
  edge ∈ Schema.getEdgesOfNode s node.
Proof.
  unfold Schema.nodeIsConnectedToEdge, Schema.getEdgesOfNode.
  unfold Schema.getNodeFromName, Schema.getEdgeFromName.
  destruct (filter _ (Schema.nodeTables _)) as [|n ns] eqn:Hn; [done|].
  destruct (filter _ (Schema.edgeTables _)) as [|e es] eqn:He; [done|].
  simpl. intros [= ->] [= ->] Hsource%bool_decide_eq_true.
  apply list_elem_of_filter. split; [by left|].
  assert (edge ∈ filter (λ edgeTable, Schema.et_name edgeTable = edgeName)
                        (Schema.edgeTables (Schema.rawSchema s))) as Hin.
  { rewrite He. by left. }
  by apply list_elem_of_filter in Hin as [_ ?].
Qed.

Lemma isSource_edge_among_getEdgesOfNode_witness :
  Fixture.worksAtTable ∈ Schema.getEdgesOfNode Fixture.mockSchema Fixture.personTable.
Proof.
  apply (isSource_edge_among_getEdgesOfNode Fixture.mockSchema "Person" "WORKS_AT");
    reflexivity.
Defined.

(** ** Sessions of store calls *)

Section Sessions.
Import GraphConfig GraphStore GraphStoreMethods.

Variable config_appendGraphData :
  list NodeData → list EdgeData → GraphConfig.t → GraphConfig.t * list ConsoleMsg.
Variable isFalsy : string → bool.

Local Abbreviation after := (GraphStoreMethods.after config_appendGraphData isFalsy).
Local Abbreviation afterAll := (GraphStoreMethods.afterAll config_appendGraphData isFalsy).

Lemma set_config_id (s : GraphStore.t) : set_config (config s) s = s.
Proof. by destruct s. Qed.

Lemma getColorForNode_final (s : GraphStore.t) (node : option GraphObjectRef) :
  final (getColorForNode node s)
  = match colorScheme (config s), node with
    | NEIGHBORHOOD, Some object =>
        set_reservedColorsByNeighborhood
          (reserve (reservedColorsByNeighborhood s)
                   (GraphObject.neighborhood (base object))) s
    | _, _ => s
    end.
Proof.
  destruct (colorScheme (config s)) as [| |tag] eqn:Hscheme.
  - rewrite getColorForNode_neighborhood by done.
    destruct node as [object|]; [|done].
    pose proof (getColorForNodeByNeighborhood_run s object) as Hrun.
    cbv zeta in Hrun. by rewrite Hrun.
  - by rewrite getColorForNode_label.
  - by rewrite (getColorForNode_other s node tag).
Qed.

Lemma appendGraphData_final (s : GraphStore.t)
    (nodesData : option (list NodeData)) (edgesData : option (list EdgeData)) :
  ∃ config',
    final (appendGraphData config_appendGraphData nodesData edgesData s)
    = set_config config' s.
Proof.
  destruct (decide (freshNodes s nodesData = [] ∧ freshEdges s edgesData = []))
    as [[Hn He]|Hnew].
  - exists (config s). by rewrite appendGraphData_nothing_new, set_config_id.
  - eexists. rewrite appendGraphData_something_new; [done|].
    destruct (freshNodes s nodesData); [|by left].
    destruct (freshEdges s edgesData); [|by right]. by destruct Hnew.
Qed.

Lemma setViewMode_final (viewMode : ViewModes) (s : GraphStore.t) :
  final (setViewMode viewMode s)
  = if decide (viewMode = GraphConfig.viewMode (config s)) then s
    else set_config (modeSwitched viewMode s) s.
Proof.
  case_decide as Hmode.
  - subst. by rewrite setViewMode_unchanged.
  - by rewrite setViewMode_changed.
Qed.

Lemma after_eventListeners (command : Command) (s : GraphStore.t) (e : EventTypes) :
  eventListeners (after command s) e
  = eventListeners s e ++ registrations e [command].
Proof.
  destruct command as [eventType callback| | | | | | | | |];
    unfold GraphStoreMethods.after, registrations; cbn [omap list_omap];
    rewrite ?app_nil_r.
  - destruct eventType as [e'| |key]; simpl; rewrite ?app_nil_r; try done.
    + destruct (decide (e' = e)) as [->|Hne].
      * by rewrite decide_True.
      * rewrite decide_False by done. by rewrite app_nil_r.
    + by case_decide.
  - rewrite setViewMode_final. by case_decide.
  - done.
  - done.
  - done.
  - done.
  - done.
  - rewrite getColorForNode_final. by repeat case_match.
  - by destruct (appendGraphData_final s nodesData edgesData) as [config' ->].
  - done.
Qed.

Lemma afterAll_cons (command : Command) (commands : list Command) (s : GraphStore.t) :
  afterAll (command :: commands) s = afterAll commands (after command s).
Proof. done. Qed.

Lemma after_reserved (command : Command) (s : GraphStore.t) :
  reservedColorsByNeighborhood (after command s) = reservedColorsByNeighborhood s
  ∨ ∃ neighborhood,
      reservedColorsByNeighborhood (after command s)
      = reserve (reservedColorsByNeighborhood s) neighborhood.
Proof.
  destruct command as [eventType callback| | | | | | | | |];
    unfold GraphStoreMethods.after.
  - left. destruct eventType as [e'| |key]; simpl; [done..|]. by case_decide.
  - left. rewrite setViewMode_final. by case_decide.
  - by left.
  - by left.
  - by left.
  - by left.
  - by left.
  - rewrite getColorForNode_final. repeat case_match; try by left.
    right. by eexists.
  - left. by destruct (appendGraphData_final s nodesData edgesData) as [config' ->].
  - by left.
Qed.

Lemma reserve_prefix (reserved : list (option Z)) (neighborhood : option Z) :
  reserved `prefix_of` reserve reserved neighborhood.
Proof. unfold reserve. case_decide; [done|]. by apply prefix_app_r. Qed.

Lemma reserve_NoDup (reserved : list (option Z)) (neighborhood : option Z) :
  NoDup reserved → NoDup (reserve reserved neighborhood).
Proof.
  intros Hnodup. unfold reserve. case_decide; [done|].
  apply NoDup_app. split; [done|]. split; [|apply NoDup_singleton].
  by intros x Hx ->%list_elem_of_singleton.
Qed.

Lemma indexOf_elem_of (l : list (option Z)) (x : option Z) (i : nat) :
  indexOf l x = Some i → x ∈ l.
Proof.
  intros Hi. destruct (decide (x ∈ l)) as [|Hx]; [done|].
  apply indexOf_None in Hx. congruence.
Qed.

(** The graph part of a configuration: what the views are computed from. *)
Lemma after_graph (command : Command) (s : GraphStore.t) :
  ¬ appendsGraphData command →
  ∀ {B : Type} (field : GraphConfig.t → B),
    (∀ c v, field (set_focusedGraphObject v c) = field c) →
    (∀ c v, field (set_selectedGraphObject v c) = field c) →
    (∀ c v, field (set_viewMode v c) = field c) →
    (∀ c v, field (set_colorScheme v c) = field c) →
    (∀ c v, field (set_showLabels v c) = field c) →
    (∀ c v, field (set_layoutMode v c) = field c) →
    (∀ c v, field (set_lastLayoutMode v c) = field c) →
    field (config (after command s)) = field (config s).
Proof.
  intros Hcommand B field Hfocus Hselect Hmode Hscheme Hlabels Hlayout Hlast.
  destruct command as [eventType callback| | | | | | | | |];
    unfold GraphStoreMethods.after.
  - destruct eventType as [e'| |key]; simpl; [done..|]. by case_decide.
  - rewrite setViewMode_final. case_decide; [done|]. simpl.
    unfold modeSwitched, selectionCleared, focusCleared.
    by rewrite Hmode, Hselect, Hfocus.
  - simpl. apply Hlabels.
  - simpl. by rewrite Hlayout, Hlast.
  - simpl. apply Hfocus.
  - simpl. apply Hselect.
  - simpl. apply Hscheme.
  - rewrite getColorForNode_final. by repeat case_match.
  - by destruct Hcommand.
  - done.
Qed.

End Sessions.

(** X6. Whatever the session, the listeners of an event are afterwards the ones
    there were before, followed by the callbacks that the session registered
    for this event, in the order of registration and once per registration:
    no call of the store removes, reorders or deduplicates listeners. *)
Theorem session_listeners_append_only
    (config_appendGraphData :
       list GraphConfig.NodeData → list GraphConfig.EdgeData →
       GraphConfig.t → GraphConfig.t * list ConsoleMsg)
    (isFalsy : string → bool)
    (commands : list GraphStoreMethods.Command) (s : GraphStore.t)
    (e : GraphStore.EventTypes) :
  GraphStore.eventListeners
    (GraphStoreMethods.afterAll config_appendGraphData isFalsy commands s) e
  = GraphStore.eventListeners s e ++ GraphStoreMethods.registrations e commands.
Proof.
  revert s. induction commands as [|command commands IH]; intros s.
  - by rewrite app_nil_r.
  - rewrite afterAll_cons, IH, after_eventListeners, <-app_assoc. f_equal.
    unfold GraphStoreMethods.registrations. simpl.
    by destruct (match command with
                 | GraphStoreMethods.AddEventListener _ _ => _ | _ => _ end).
Qed.

(** X7. Whatever the session, the neighborhoods that have a palette slot keep
    it: the list of reserved neighborhoods only grows at its end, stays
    free of duplicates if it was, and a neighborhood found at a slot before
    the session is found at the same slot after it. *)
Theorem session_keeps_reserved_slots
    (config_appendGraphData :
       list GraphConfig.NodeData → list GraphConfig.EdgeData →
       GraphConfig.t → GraphConfig.t * list ConsoleMsg)
    (isFalsy : string → bool)
    (commands : list GraphStoreMethods.Command) (s : GraphStore.t) :
  GraphStore.reservedColorsByNeighborhood s
    `prefix_of` GraphStore.reservedColorsByNeighborhood
                  (GraphStoreMethods.afterAll config_appendGraphData isFalsy commands s)
  ∧ (NoDup (GraphStore.reservedColorsByNeighborhood s) →
     NoDup (GraphStore.reservedColorsByNeighborhood
              (GraphStoreMethods.afterAll config_appendGraphData isFalsy commands s)))
  ∧ (∀ neighborhood index,
       GraphStore.indexOf (GraphStore.reservedColorsByNeighborhood s) neighborhood
       = Some index →
       GraphStore.indexOf
         (GraphStore.reservedColorsByNeighborhood
            (GraphStoreMethods.afterAll config_appendGraphData isFalsy commands s))
         neighborhood
       = Some index).
Proof.
  revert s. induction commands as [|command commands IH]; intros s; [done|].
  rewrite afterAll_cons.
  destruct (IH (GraphStoreMethods.after config_appendGraphData isFalsy command s))
    as (Hprefix & Hnodup & Hindex).
  destruct (after_reserved config_appendGraphData isFalsy command s)
    as [Heq | [neighborhood Heq]]; rewrite Heq in Hprefix, Hnodup, Hindex.
  - done.
  - split; [|split].
    + etrans; [apply reserve_prefix|done].
    + intros ?. by apply Hnodup, reserve_NoDup.
    + intros nb index Hnb. apply Hindex.
      rewrite indexOf_reserve_old; [done|]. by eapply indexOf_elem_of.
Qed.

(** X8. A session without [appendGraphData] leaves the graph as it was: the
    live and the schema maps, both counts, the node colors, the palette
    and the edge styles. *)
Theorem session_without_append_keeps_graph
    (config_appendGraphData :
       list GraphConfig.NodeData → list GraphConfig.EdgeData →
       GraphConfig.t → GraphConfig.t * list ConsoleMsg)
    (isFalsy : string → bool)
    (commands : list GraphStoreMethods.Command) (s : GraphStore.t) :
  Forall (λ command, ¬ GraphStoreMethods.appendsGraphData command) commands →
  let s' := GraphStoreMethods.afterAll config_appendGraphData isFalsy commands s in
  GraphConfig.nodes (GraphStore.config s') = GraphConfig.nodes (GraphStore.config s)
  ∧ GraphConfig.edges (GraphStore.config s') = GraphConfig.edges (GraphStore.config s)
  ∧ GraphConfig.schemaNodes (GraphStore.config s')
    = GraphConfig.schemaNodes (GraphStore.config s)
  ∧ GraphConfig.schemaEdges (GraphStore.config s')
    = GraphConfig.schemaEdges (GraphStore.config s)
  ∧ GraphConfig.nodeCount (GraphStore.config s')
    = GraphConfig.nodeCount (GraphStore.config s)
  ∧ GraphConfig.edgeCount (GraphStore.config s')
    = GraphConfig.edgeCount (GraphStore.config s)
  ∧ GraphConfig.nodeColors (GraphStore.config s')
    = GraphConfig.nodeColors (GraphStore.config s)
  ∧ GraphConfig.colorPalette (GraphStore.config s')
    = GraphConfig.colorPalette (GraphStore.config s)
  ∧ GraphConfig.edgeDesign (GraphStore.config s')
    = GraphConfig.edgeDesign (GraphStore.config s).
Proof.
  intros Hcommands. cbv zeta. revert s.
  induction Hcommands as [|command commands Hcommand _ IH]; intros s; [done|].
  rewrite afterAll_cons.
  destruct (IH (GraphStoreMethods.after config_appendGraphData isFalsy command s))
    as (-> & -> & -> & -> & -> & -> & -> & -> & ->).
  split_and!;
    by apply (after_graph config_appendGraphData isFalsy command s Hcommand).
Qed.

Lemma session_keeps_reserved_slots_witness :
  GraphStore.indexOf
    (GraphStore.reservedColorsByNeighborhood
       (GraphStoreMethods.afterAll Fixture.ingest Scenario.neverFalsy Scenario.browsing
          (GraphStore.set_reservedColorsByNeighborhood [Some 7%Z] Fixture.mockStore)))
    (Some 7%Z)
  = Some 0%nat.
Proof.
  destruct (session_keeps_reserved_slots Fixture.ingest Scenario.neverFalsy
              Scenario.browsing
              (GraphStore.set_reservedColorsByNeighborhood [Some 7%Z] Fixture.mockStore))
    as (_ & _ & Hindex).
  apply Hindex. reflexivity.
Defined.

Lemma session_without_append_keeps_graph_witness :
  GraphConfig.nodeCount
    (GraphStore.config
       (GraphStoreMethods.afterAll Fixture.ingest Scenario.neverFalsy Scenario.browsing
          Fixture.mockStore))
  = 2.
Proof.
  destruct (session_without_append_keeps_graph Fixture.ingest Scenario.neverFalsy
              Scenario.browsing Fixture.mockStore)
    as (_ & _ & _ & _ & Hcount & _).
  - repeat constructor; simpl; tauto.
  - rewrite Hcount. reflexivity.
Defined.

(** ** Mutators of the view state *)

(** X9. A second [setViewMode] with the same mode is silent: it changes nothing
    and calls no listener, whatever the first call did. *)
Theorem setViewMode_repeated (X : GraphConfig.ViewModes) (s : GraphStore.t) :
  GraphStore.setViewMode X (GraphStore.final (GraphStore.setViewMode X s))
  = {| GraphStore.outcome := Normal ();
       GraphStore.final := GraphStore.final (GraphStore.setViewMode X s);
       GraphStore.effects := [] |}.
Proof.
  assert (GraphConfig.viewMode
            (GraphStore.config (GraphStore.final (GraphStore.setViewMode X s))) = X)
    as Hmode.
  { rewrite setViewMode_final. by case_decide. }
  rewrite <-Hmode at 1. apply setViewMode_unchanged.
Qed.

(** X10. Switching to another view mode and back restores the store except for
    the focus and the selection, which are lost. *)
Theorem setViewMode_there_and_back (X : GraphConfig.ViewModes) (s : GraphStore.t) :
  X ≠ GraphConfig.viewMode (GraphStore.config s) →
  GraphStore.final
    (GraphStore.setViewMode (GraphConfig.viewMode (GraphStore.config s))
       (GraphStore.final (GraphStore.setViewMode X s)))
  = GraphStore.set_config (GraphStore.selectionCleared s) s.
Proof.
  intros HX. rewrite (setViewMode_final X s), decide_False by done.
  rewrite setViewMode_final. simpl. rewrite decide_False by done.
  destruct s as [[] ? ? ?]. reflexivity.
Qed.

Lemma setViewMode_there_and_back_witness :
  GraphConfig.focusedGraphObject
    (GraphStore.config
       (GraphStore.final
          (GraphStore.setViewMode GraphConfig.DEFAULT
             (GraphStore.final
                (GraphStore.setViewMode GraphConfig.SCHEMA
                   (Fixture.withFocus (Some (GraphConfig.IsNode Fixture.personNode))
                      Fixture.mockStore))))))
  = None.
Proof.
  exact (f_equal (λ s, GraphConfig.focusedGraphObject (GraphStore.config s))
           (setViewMode_there_and_back GraphConfig.SCHEMA
              (Fixture.withFocus (Some (GraphConfig.IsNode Fixture.personNode))
                 Fixture.mockStore)
              ltac:(discriminate))).
Defined.

(** ** Color schemes *)

(** X20. [getColorForNode] dispatches on the configured color scheme.
    Under [NEIGHBORHOOD] the neighborhood of the node gets the palette slot
    it was first seen at, or the next free one, the slots given out before
    stay as they are, and the color of that slot is returned; when the slot
    is beyond the palette, [palette[0]] is returned and a diagnostic is
    logged. Under [LABEL] the color that [nodeColors] holds under the
    display name of the node is returned when it is not empty; when it is
    empty, or when there is none and the display name names no inherited
    member, a neutral gray is returned; when there is none and the display
    name names an inherited member, that member is returned. An edge gets
    the gray. Under any other scheme the call throws at once.
    [addEventListener] throws for every event type that is not
    registered. *)
Theorem getColorForNode_dispatch (s : GraphStore.t) :
  (GraphConfig.colorScheme (GraphStore.config s) = GraphConfig.NEIGHBORHOOD →
   ∀ node : GraphConfig.GraphObjectRef,
     let neighborhood := GraphObject.neighborhood (GraphConfig.base node) in
     let reserved := GraphStore.reservedColorsByNeighborhood s in
     let palette := GraphConfig.colorPalette (GraphStore.config s) in
     let run := GraphStore.getColorForNode (Some node) s in
     let index := GraphStore.slot reserved neighborhood in
     GraphStore.reservedColorsByNeighborhood (GraphStore.final run)
     = GraphStore.reserve reserved neighborhood
     ∧ GraphStore.indexOf (GraphStore.reserve reserved neighborhood) neighborhood
       = Some index
     ∧ (∀ seen, seen ∈ reserved →
          GraphStore.indexOf (GraphStore.reserve reserved neighborhood) seen
          = GraphStore.indexOf reserved seen)
     ∧ ((index < length palette)%nat →
        (∃ color,
           palette !! index = Some color
           ∧ GraphStore.outcome run = Normal (GraphStore.Value color))
        ∧ GraphStore.ranOutOfColors ∉ GraphStore.effects run)
     ∧ ((length palette ≤ index)%nat →
        (∀ color, palette !! 0%nat = Some color →
                  GraphStore.outcome run = Normal (GraphStore.Value color))
        ∧ (palette = [] → GraphStore.outcome run = Normal GraphStore.Undefined)
        ∧ GraphStore.ranOutOfColors ∈ GraphStore.effects run))
  ∧ (GraphConfig.colorScheme (GraphStore.config s) = GraphConfig.LABEL →
     (∀ node : GraphConfig.GraphNode,
        let key :=
          GraphStore.propertyKey
            (GraphObject.getDisplayName (GraphConfig.node_base node)) in
        let run := GraphStore.getColorForNode (Some (GraphConfig.IsNode node)) s in
        (∀ color, GraphConfig.nodeColors (GraphStore.config s) !! key = Some color →
                  color ≠ "" →
                  GraphStore.outcome run = Normal (GraphStore.Value color))
        ∧ (GraphConfig.nodeColors (GraphStore.config s) !! key = Some "" →
           GraphStore.outcome run = Normal (GraphStore.Value GraphStore.defaultColor))
        ∧ (GraphConfig.nodeColors (GraphStore.config s) !! key = None →
           key ∉ GraphStore.objectPrototypeKeys →
           GraphStore.outcome run = Normal (GraphStore.Value GraphStore.defaultColor))
        ∧ (GraphConfig.nodeColors (GraphStore.config s) !! key = None →
           key ∈ GraphStore.objectPrototypeKeys →
           GraphStore.outcome run = Normal (GraphStore.Inherited key)))
     ∧ (∀ edge : GraphConfig.GraphEdge,
          GraphStore.outcome
            (GraphStore.getColorForNode (Some (GraphConfig.IsEdge edge)) s)
          = Normal (GraphStore.Value GraphStore.defaultColor)))
  ∧ (∀ tag node,
       GraphConfig.colorScheme (GraphStore.config s) = GraphConfig.OtherColorScheme tag →
       throws (GraphStore.outcome (GraphStore.getColorForNode node s)))
  ∧ (∀ eventType callback,
       (∀ e, eventType ≠ GraphStore.Registered e) →
       throws (GraphStore.outcome (GraphStore.addEventListener eventType callback s))).
Proof.
  split; [|split; [|split]].
  - intros Hscheme node. cbv zeta.
    rewrite getColorForNode_neighborhood by done.
    pose proof (getColorForNodeByNeighborhood_run s node) as Hrun.
    cbv zeta in Hrun. rewrite Hrun. clear Hrun. simpl.
    split; [done|]. split; [apply indexOf_reserve|].
    split; [intros seen; apply indexOf_reserve_old|].
    unfold GraphStore.readIndex. split; intros Hindex.
    + rewrite (proj2 (Z.ltb_ge _ _)) by lia. split.
      * destruct (lookup_lt_is_Some_2 _ _ Hindex) as [color Hcolor].
        exists color. by rewrite Hcolor.
      * rewrite app_nil_r.
        destruct (GraphObject.neighborhood _); [apply not_elem_of_nil|].
        intros Hin%list_elem_of_singleton. discriminate Hin.
    + rewrite (proj2 (Z.ltb_lt _ _)) by lia. split; [|split].
      * by intros color ->.
      * by intros ->.
      * apply elem_of_app. right. apply list_elem_of_singleton. done.
  - intros Hscheme. split.
    + intros node. cbv zeta. rewrite getColorForNode_label by done.
      cbn [GraphStore.outcome].
      pose proof (getColorForNodeByLabel_node s node) as (Hown & Hempty & Hnone & Hinh).
      cbv zeta in *. repeat apply conj.
      * intros color Hkey Hcolor. by rewrite (Hown color).
      * intros Hkey. by rewrite Hempty.
      * intros Hkey Hnotin. by rewrite Hnone.
      * intros Hkey Hin. by rewrite Hinh.
    + intros edge. by rewrite getColorForNode_label.
  - intros tag node Hscheme.
    rewrite (getColorForNode_other s node tag Hscheme). by eexists.
  - intros eventType callback Hunregistered.
    destruct eventType as [e | description | key]; simpl.
    + by destruct (Hunregistered e).
    + by eexists.
    + case_decide; by eexists.
Qed.

Lemma getColorForNode_dispatch_witness :
  GraphStore.outcome
    (GraphStore.getColorForNode
       (Some (Fixture.inNeighborhood 5 Fixture.personNode)) Fixture.mockStore)
  = Normal (GraphStore.Value "#1A73E8")
  ∧ GraphStore.outcome
      (GraphStore.getColorForNode
         (Some (Fixture.inNeighborhood 5 Fixture.personNode))
         (GraphStore.set_reservedColorsByNeighborhood [Some 1%Z; Some 2%Z]
            Fixture.mockStore))
    = Normal (GraphStore.Value "#1A73E8")
  ∧ GraphStore.outcome
      (GraphStore.getColorForNode
         (Some (GraphConfig.IsNode Fixture.companyNode))
         (Fixture.withColorScheme GraphConfig.LABEL Fixture.mockStore))
    = Normal (GraphStore.Value "#E52592")
  ∧ throws
      (GraphStore.outcome
         (GraphStore.getColorForNode
            (Some (GraphConfig.IsNode Fixture.companyNode))
            (Fixture.withColorScheme (GraphConfig.OtherColorScheme "degree")
               Fixture.mockStore)))
  ∧ throws
      (GraphStore.outcome
         (GraphStore.addEventListener (GraphStore.StringKey "click") 50
            Fixture.mockStore)).
Proof.
  split; [|split; [|split; [|split]]].
  - destruct (getColorForNode_dispatch Fixture.mockStore) as [H _].
    destruct (H eq_refl (Fixture.inNeighborhood 5 Fixture.personNode))
      as (_ & _ & _ & Hslot & _).
    destruct Hslot as [(color & Hcolor & Hrun) _]; [vm_compute; lia|].
    rewrite Hrun. vm_compute in Hcolor. by injection Hcolor as <-.
  - destruct (getColorForNode_dispatch
                (GraphStore.set_reservedColorsByNeighborhood [Some 1%Z; Some 2%Z]
                   Fixture.mockStore)) as [H _].
    destruct (H eq_refl (Fixture.inNeighborhood 5 Fixture.personNode))
      as (_ & _ & _ & _ & Hexhausted).
    destruct Hexhausted as (Hfirst & _); [vm_compute; lia|].
    apply Hfirst. reflexivity.
  - destruct (getColorForNode_dispatch
                (Fixture.withColorScheme GraphConfig.LABEL Fixture.mockStore))
      as (_ & H & _).
    destruct (H eq_refl) as [Hnode _].
    destruct (Hnode Fixture.companyNode) as [Hcolor _].
    apply Hcolor; [reflexivity | discriminate].
  - destruct (getColorForNode_dispatch
                (Fixture.withColorScheme (GraphConfig.OtherColorScheme "degree")
                   Fixture.mockStore)) as (_ & _ & H & _).
    apply (H "degree"). reflexivity.
  - destruct (getColorForNode_dispatch Fixture.mockStore) as (_ & _ & _ & H).
    apply H. discriminate.
Defined.

(** X11. [setColorScheme] does not validate its argument: whatever the value, it
    becomes the color scheme and every listener is told. After a value
    outside the enumeration, [getColorForNode] throws for every node; after
    [LABEL] it returns the color by label. *)
Theorem setColorScheme_is_not_validated (isFalsy : string → bool)
    (scheme : GraphConfig.ColorScheme) (s : GraphStore.t)
    (node : option GraphConfig.GraphObjectRef) :
  let s' := (GraphStoreMethods.setColorScheme isFalsy scheme s).1.1 in
  GraphConfig.colorScheme (GraphStore.config s') = scheme
  ∧ (GraphStoreMethods.setColorScheme isFalsy scheme s).2
    = (λ callback,
         GraphStoreMethods.ColorSchemeCall callback scheme (GraphStore.config s'))
      <$> GraphStore.eventListeners s GraphStore.COLOR_SCHEME
  ∧ (∀ tag, scheme = GraphConfig.OtherColorScheme tag →
            throws (GraphStore.outcome (GraphStore.getColorForNode node s')))
  ∧ (scheme = GraphConfig.LABEL →
     GraphStore.outcome (GraphStore.getColorForNode node s')
     = Normal (GraphStore.getColorForNodeByLabel s node)).
Proof.
  cbv zeta. split; [done|]. split; [done|]. split.
  - intros tag ->. rewrite (getColorForNode_other _ node tag) by done. by eexists.
  - intros ->. by rewrite getColorForNode_label.
Qed.

Lemma setColorScheme_is_not_validated_witness :
  throws
    (GraphStore.outcome
       (GraphStore.getColorForNode (Some (GraphConfig.IsNode Fixture.personNode))
          (GraphStoreMethods.setColorScheme Scenario.neverFalsy
             (GraphConfig.OtherColorScheme "degree") Fixture.mockStore).1.1))
  ∧ GraphStore.outcome
      (GraphStore.getColorForNode (Some (GraphConfig.IsNode Fixture.personNode))
         (GraphStoreMethods.setColorScheme Scenario.neverFalsy
            GraphConfig.LABEL Fixture.mockStore).1.1)
    = Normal (GraphStore.Value "#1A73E8").
Proof.
  split.
  - destruct (setColorScheme_is_not_validated Scenario.neverFalsy
                (GraphConfig.OtherColorScheme "degree") Fixture.mockStore
                (Some (GraphConfig.IsNode Fixture.personNode)))
      as (_ & _ & Hthrows & _).
    by apply (Hthrows "degree").
  - destruct (setColorScheme_is_not_validated Scenario.neverFalsy
                GraphConfig.LABEL Fixture.mockStore
                (Some (GraphConfig.IsNode Fixture.personNode)))
      as (_ & _ & _ & Hlabel).
    rewrite Hlabel; reflexivity.
Defined.

(** X12. Under [LABEL], [getColorForNode] returns without throwing, and what
    it returns is never [undefined] and never the empty string: it is a
    non-empty color, except that it is a member of [Object.prototype], and
    no color, exactly when the object is a node under whose display name
    [nodeColors] holds nothing and whose display name is the name of such a
    member. Under [NEIGHBORHOOD] it returns [undefined] for an object
    exactly when the palette is empty, it does not throw then, and it
    never returns an inherited member. *)
Theorem getColorForNode_defined (s : GraphStore.t) (node : GraphConfig.GraphObjectRef) :
  (GraphConfig.colorScheme (GraphStore.config s) = GraphConfig.LABEL →
   ∃ result,
     GraphStore.outcome (GraphStore.getColorForNode (Some node) s) = Normal result
     ∧ result ≠ GraphStore.Undefined
     ∧ result ≠ GraphStore.Value ""
     ∧ ((∃ member, result = GraphStore.Inherited member)
        ↔ ∃ n,
            node = GraphConfig.IsNode n
            ∧ GraphStore.propertyKey
                (GraphObject.getDisplayName (GraphConfig.node_base n))
              ∈ GraphStore.objectPrototypeKeys
            ∧ GraphConfig.nodeColors (GraphStore.config s)
              !! GraphStore.propertyKey
                   (GraphObject.getDisplayName (GraphConfig.node_base n))
              = None))
  ∧ (GraphConfig.colorScheme (GraphStore.config s) = GraphConfig.NEIGHBORHOOD →
     ∃ result,
       GraphStore.outcome (GraphStore.getColorForNode (Some node) s) = Normal result
       ∧ (result = GraphStore.Undefined
          ↔ GraphConfig.colorPalette (GraphStore.config s) = [])
       ∧ ∀ member, result ≠ GraphStore.Inherited member).
Proof.
  split; intros Hscheme.
  - rewrite getColorForNode_label by done. eexists. split; [done|].
    destruct node as [n|e].
    + pose proof (getColorForNodeByLabel_node s n) as (Hown & Hempty & Hnone & Hinh).
      cbv zeta in *.
      set (key := GraphStore.propertyKey _) in *.
      destruct (GraphConfig.nodeColors (GraphStore.config s) !! key)
        as [nodeColor|] eqn:Hkey.
      * destruct (decide (nodeColor = "")) as [->|Hcolor].
        -- rewrite Hempty by done. repeat split; try done.
           ++ by intros [? ?].
           ++ intros (n' & [= <-] & _ & Hnone'). fold key in Hnone'. congruence.
        -- rewrite (Hown nodeColor) by done. repeat split; try done.
           ++ congruence.
           ++ by intros [? ?].
           ++ intros (n' & [= <-] & _ & Hnone'). fold key in Hnone'. congruence.
      * destruct (decide (key ∈ GraphStore.objectPrototypeKeys)) as [Hin|Hnotin].
        -- rewrite Hinh by done. repeat split; try done.
           ++ intros _. by exists n.
           ++ intros _. by eexists.
        -- rewrite Hnone by done. repeat split; try done.
           ++ by intros [? ?].
           ++ by intros (n' & [= <-] & Hin & _).
    + simpl. repeat split; try done.
      * by intros [? ?].
      * by intros (n' & ? & _).
  - rewrite getColorForNode_neighborhood by done.
    pose proof (getColorForNodeByNeighborhood_run s node) as Hrun.
    cbv zeta in Hrun. rewrite Hrun. clear Hrun. simpl. eexists. split; [done|].
    unfold GraphStore.readIndex.
    destruct (GraphConfig.colorPalette (GraphStore.config s)) as [|c palette] eqn:Hp.
    + simpl. by destruct (_ <? _)%Z.
    + destruct (_ <? _)%Z eqn:Hlt; [done|].
      apply Z.ltb_ge in Hlt.
      destruct (_ !! _) eqn:Hlookup; [done|].
      apply lookup_ge_None in Hlookup. simpl in *. lia.
Qed.

Lemma getColorForNode_defined_witness :
  (∃ result,
     GraphStore.outcome
       (GraphStore.getColorForNode (Some (GraphConfig.IsNode Scenario.constructorNode))
          (Fixture.withColorScheme GraphConfig.LABEL Fixture.mockStore))
     = Normal result
     ∧ result ≠ GraphStore.Undefined
     ∧ ∃ member, result = GraphStore.Inherited member)
  ∧ ∃ result,
      GraphStore.outcome
        (GraphStore.getColorForNode (Some (Fixture.inNeighborhood 5 Fixture.personNode))
           Fixture.mockStore)
      = Normal result
      ∧ result ≠ GraphStore.Undefined.
Proof.
  split.
  - destruct (getColorForNode_defined
                (Fixture.withColorScheme GraphConfig.LABEL Fixture.mockStore)
                (GraphConfig.IsNode Scenario.constructorNode)) as [Hlabel _].
    destruct (Hlabel eq_refl) as (result & Hrun & Hdefined & _ & Hinherited).
    exists result. split; [exact Hrun|]. split; [exact Hdefined|].
    apply Hinherited. exists Scenario.constructorNode.
    split; [reflexivity|]. split; [|reflexivity].
    apply (bool_decide_unpack _). reflexivity.
  - destruct (getColorForNode_defined Fixture.mockStore
                (Fixture.inNeighborhood 5 Fixture.personNode)) as [_ Hneighborhood].
    destruct (Hneighborhood eq_refl) as (result & Hrun & Hundefined & _).
    exists result. split; [exact Hrun|].
    intros Hresult. apply Hundefined in Hresult. discriminate Hresult.
Defined.

(** X13. Two nodes of different neighborhoods get different colors, as long as
    the palette has no repeated color and is not shorter than the list of
    reserved neighborhoods. *)
Theorem different_neighborhoods_different_colors (s : GraphStore.t)
    (node1 node2 : GraphConfig.GraphObjectRef) :
  let run1 := GraphStore.getColorForNode (Some node1) s in
  let run2 := GraphStore.getColorForNode (Some node2) (GraphStore.final run1) in
  GraphConfig.colorScheme (GraphStore.config s) = GraphConfig.NEIGHBORHOOD →
  NoDup (GraphConfig.colorPalette (GraphStore.config s)) →
  (length (GraphStore.reservedColorsByNeighborhood (GraphStore.final run2))
   ≤ length (GraphConfig.colorPalette (GraphStore.config s)))%nat →
  GraphObject.neighborhood (GraphConfig.base node1)
  ≠ GraphObject.neighborhood (GraphConfig.base node2) →
  ∃ color1 color2,
    GraphStore.outcome run1 = Normal (GraphStore.Value color1)
    ∧ GraphStore.outcome run2 = Normal (GraphStore.Value color2)
    ∧ color1 ≠ color2.
Proof.
  cbv zeta. intros Hscheme Hpalette Hcapacity Hdifferent.
  set (nb1 := GraphObject.neighborhood (GraphConfig.base node1)) in *.
  set (nb2 := GraphObject.neighborhood (GraphConfig.base node2)) in *.
  set (R := GraphStore.reservedColorsByNeighborhood s) in *.
  set (palette := GraphConfig.colorPalette (GraphStore.config s)) in *.
  set (s1 := GraphStore.set_reservedColorsByNeighborhood (GraphStore.reserve R nb1) s).
  assert (GraphStore.final (GraphStore.getColorForNode (Some node1) s) = s1) as Hs1.
  { rewrite getColorForNode_final. by rewrite Hscheme. }
  rewrite Hs1 in *.
  set (R1 := GraphStore.reserve R nb1) in *.
  set (R2 := GraphStore.reserve R1 nb2).
  assert (GraphStore.reservedColorsByNeighborhood
            (GraphStore.final (GraphStore.getColorForNode (Some node2) s1)) = R2) as HR2.
  { rewrite getColorForNode_final.
    change (GraphStore.config s1) with (GraphStore.config s). by rewrite Hscheme. }
  rewrite HR2 in Hcapacity.
  rewrite (getColorForNode_neighborhood s) by done.
  rewrite (getColorForNode_neighborhood s1) by done.
  pose proof (getColorForNodeByNeighborhood_run s node1) as Hrun1.
  pose proof (getColorForNodeByNeighborhood_run s1 node2) as Hrun2.
  cbv zeta in Hrun1, Hrun2. rewrite Hrun1, Hrun2. clear Hrun1 Hrun2.
  cbn [GraphStore.outcome GraphStore.config GraphStore.reservedColorsByNeighborhood
       GraphStore.set_reservedColorsByNeighborhood s1].
  fold nb1 nb2 R palette R1.
  pose proof (indexOf_reserve R nb1) as H1. fold R1 in H1.
  pose proof (indexOf_reserve R1 nb2) as H2. fold R2 in H2.
  assert (GraphStore.indexOf R2 nb1 = Some (GraphStore.slot R nb1)) as H1'.
  { unfold R2. rewrite indexOf_reserve_old; [done|].
    destruct (decide (nb1 ∈ R1)) as [|Hnot]; [done|].
    apply indexOf_None in Hnot. congruence. }
  apply indexOf_Some in H1' as [Hl1 _]. apply indexOf_Some in H2 as [Hl2 _].
  assert (GraphStore.slot R nb1 ≠ GraphStore.slot R1 nb2) as Hslots by congruence.
  pose proof (lookup_lt_Some _ _ _ Hl1) as Hlt1.
  pose proof (lookup_lt_Some _ _ _ Hl2) as Hlt2.
  rewrite !(proj2 (Z.ltb_ge _ _)) by lia.
  destruct (lookup_lt_is_Some_2 palette (GraphStore.slot R nb1)) as [c1 Hc1]; [lia|].
  destruct (lookup_lt_is_Some_2 palette (GraphStore.slot R1 nb2)) as [c2 Hc2]; [lia|].
  exists c1, c2. unfold GraphStore.readIndex. rewrite Hc1, Hc2.
  split; [done|]. split; [done|].
  intros ->. apply Hslots. by eapply NoDup_lookup.
Qed.

Lemma different_neighborhoods_different_colors_witness :
  ∃ color1 color2,
    GraphStore.outcome
      (GraphStore.getColorForNode (Some (Fixture.inNeighborhood 5 Fixture.personNode))
         Fixture.mockStore) = Normal (GraphStore.Value color1)
    ∧ GraphStore.outcome
        (GraphStore.getColorForNode
           (Some (Fixture.inNeighborhood 7 Fixture.companyNode))
           (GraphStore.final
              (GraphStore.getColorForNode
                 (Some (Fixture.inNeighborhood 5 Fixture.personNode))
                 Fixture.mockStore))) = Normal (GraphStore.Value color2)
    ∧ color1 ≠ color2.
Proof.
  apply (different_neighborhoods_different_colors Fixture.mockStore
           (Fixture.inNeighborhood 5 Fixture.personNode)
           (Fixture.inNeighborhood 7 Fixture.companyNode)).
  - reflexivity.
  - apply (bool_decide_unpack _). vm_compute. exact I.
  - vm_compute. lia.
  - discriminate.
Defined.

(** ** Edges of the highlighted node *)

(** X14. While a node is selected, or focused with nothing selected, the edges
    of the current view that [getEdgesOfNode] lists for it are drawn in the
    focused style and all other edges of the view in the default style. *)
Theorem getEdgeDesign_follows_getEdgesOfNode (s : GraphStore.t)
    (node : GraphConfig.GraphNode) (edge : GraphConfig.GraphEdge) :
  GraphConfig.selectedGraphObject (GraphStore.config s) = Some (GraphConfig.IsNode node)
  ∨ (GraphConfig.selectedGraphObject (GraphStore.config s) = None
     ∧ GraphConfig.focusedGraphObject (GraphStore.config s)
       = Some (GraphConfig.IsNode node)) →
  GraphConfig.edge_ref edge ≠ GraphConfig.node_ref node →
  edge ∈ GraphStore.getEdges s →
  (edge ∈ GraphStore.getEdgesOfNode s (Some node) →
   GraphStore.getEdgeDesign s edge
   = GraphConfig.focused_style (GraphConfig.edgeDesign (GraphStore.config s)))
  ∧ (edge ∉ GraphStore.getEdgesOfNode s (Some node) →
     GraphStore.getEdgeDesign s edge
     = GraphConfig.default_style (GraphConfig.edgeDesign (GraphStore.config s))).
Proof.
  intros Hhighlight Href Hedge.
  assert (edge ∈ GraphStore.getEdgesOfNode s (Some node)
          ↔ GraphStore.edgeIsConnectedToNode (Some edge) (Some (GraphConfig.IsNode node))
            = true) as Hlisted.
  { unfold GraphStore.getEdgesOfNode. rewrite list_elem_of_filter.
    rewrite edgeIsConnectedToNode_touches. unfold GraphStore.touches. simpl. tauto. }
  assert (GraphConfig.strict_eq (GraphConfig.IsEdge edge) (GraphConfig.IsNode node)
          = false) as Hstrict.
  { by apply bool_decide_eq_false_2. }
  rewrite !Hlisted. unfold GraphStore.getEdgeDesign,
    GraphStore.edgeIsConnectedToSelectedNode, GraphStore.edgeIsConnectedToFocusedNode.
  destruct Hhighlight as [-> | [-> ->]]; rewrite Hstrict.
  - rewrite bool_decide_eq_true_2 by by eexists. cbn [andb negb].
    split; [by intros -> | by intros ->%not_true_is_false].
  - rewrite bool_decide_eq_false_2 by (intros [? ?]; discriminate).
    cbn [andb negb GraphStore.edgeIsConnectedToNode]. rewrite orb_false_r.
    split; [by intros -> | by intros ->%not_true_is_false].
Qed.

Lemma getEdgeDesign_follows_getEdgesOfNode_witness :
  GraphStore.getEdgeDesign
    (Fixture.withFocus (Some (GraphConfig.IsNode Fixture.companyNode)) Fixture.mockStore)
    Fixture.worksAtEdge
  = "focused".
Proof.
  destruct (getEdgeDesign_follows_getEdgesOfNode
              (Fixture.withFocus (Some (GraphConfig.IsNode Fixture.companyNode))
                 Fixture.mockStore)
              Fixture.companyNode Fixture.worksAtEdge) as [Hfocused _].
  - right. split; reflexivity.
  - simpl. lia.
  - vm_compute. left.
  - apply Hfocused. vm_compute. left.
Defined.

(** ** Batches with repeated identifiers *)

(** The records of one identifier among those that pass a filter on the
    identifier. *)
Lemma filter_by_identifier {A} (identifier_of : A → string) (keep : string → Prop)
    `{!∀ identifier, Decision (keep identifier)} (batch : list A)
    (identifier : string) :
  (keep identifier →
   filter (λ d, identifier_of d = identifier)
          (filter (λ d, keep (identifier_of d)) batch)
   = filter (λ d, identifier_of d = identifier) batch)
  ∧ (¬ keep identifier →
     filter (λ d, identifier_of d = identifier)
            (filter (λ d, keep (identifier_of d)) batch)
     = []).
Proof.
  split; intros Hkeep.
  - apply list_filter_filter_l. by intros d ->.
  - apply elem_of_nil_inv. intros d.
    rewrite !list_elem_of_filter. intros (Hd & Hkept & _). by rewrite Hd in Hkept.
Qed.

(** X15. The store checks a batch against what a read of the live map yields,
    not against the batch itself. For an identifier that has no entry in
    the live map and is not the name of a member that the map inherits,
    the records it hands on and returns are all records of the batch with
    this identifier, in their order. For every other identifier, one that
    has an entry or one that names an inherited member such as
    [constructor], they hold no record. *)
Theorem appendGraphData_keeps_repeats
    (config_appendGraphData :
       list GraphConfig.NodeData → list GraphConfig.EdgeData →
       GraphConfig.t → GraphConfig.t * list ConsoleMsg)
    (s : GraphStore.t)
    (nodesData : list GraphConfig.NodeData) (edgesData : list GraphConfig.EdgeData)
    (newNodes : list GraphConfig.NodeData) (newEdges : list GraphConfig.EdgeData) :
  GraphStore.outcome
    (GraphStore.appendGraphData config_appendGraphData
       (Some nodesData) (Some edgesData) s)
  = Normal (Some (newNodes, newEdges)) →
  (∀ identifier,
     (GraphConfig.nodes (GraphStore.config s) !! identifier = None →
      identifier ∉ GraphStore.objectPrototypeKeys →
      filter (λ d, GraphConfig.nd_identifier d = identifier) newNodes
      = filter (λ d, GraphConfig.nd_identifier d = identifier) nodesData)
     ∧ (is_Some (GraphConfig.nodes (GraphStore.config s) !! identifier)
        ∨ identifier ∈ GraphStore.objectPrototypeKeys →
        filter (λ d, GraphConfig.nd_identifier d = identifier) newNodes = []))
  ∧ (∀ identifier,
       (GraphConfig.edges (GraphStore.config s) !! identifier = None →
        identifier ∉ GraphStore.objectPrototypeKeys →
        filter (λ d, GraphConfig.ed_identifier d = identifier) newEdges
        = filter (λ d, GraphConfig.ed_identifier d = identifier) edgesData)
       ∧ (is_Some (GraphConfig.edges (GraphStore.config s) !! identifier)
          ∨ identifier ∈ GraphStore.objectPrototypeKeys →
          filter (λ d, GraphConfig.ed_identifier d = identifier) newEdges = [])).
Proof.
  intros Hrun.
  assert (newNodes = GraphStore.freshNodes s (Some nodesData)
          ∧ newEdges = GraphStore.freshEdges s (Some edgesData)) as [-> ->].
  { destruct (decide (GraphStore.freshNodes s (Some nodesData) = []
                      ∧ GraphStore.freshEdges s (Some edgesData) = []))
      as [[Hn He]|Hnew].
    - by rewrite appendGraphData_nothing_new in Hrun.
    - rewrite appendGraphData_something_new in Hrun.
      + simpl in Hrun. by simplify_eq.
      + destruct (GraphStore.freshNodes s (Some nodesData)); [|by left].
        destruct (GraphStore.freshEdges s (Some edgesData)); [|by right].
        by destruct Hnew. }
  clear Hrun.
  unfold GraphStore.freshNodes, GraphStore.freshEdges. split; intros identifier.
  - destruct (filter_by_identifier GraphConfig.nd_identifier
                (λ identifier,
                   GraphStore.isTruthy GraphStore.objectIsTruthy
                     (GraphStore.readProperty
                        (GraphConfig.nodes (GraphStore.config s)) identifier)
                   = false)
                nodesData identifier) as [Hkept Hdropped].
    split.
    + intros Hnone Hkey. apply Hkept. by apply readProperty_falsy.
    + intros Hknown. apply Hdropped.
      rewrite readProperty_falsy. intros [Hnone Hkey].
      destruct Hknown as [[node Hnode]|Hin]; [congruence | done].
  - destruct (filter_by_identifier GraphConfig.ed_identifier
                (λ identifier,
                   GraphStore.isTruthy GraphStore.objectIsTruthy
                     (GraphStore.readProperty
                        (GraphConfig.edges (GraphStore.config s)) identifier)
                   = false)
                edgesData identifier) as [Hkept Hdropped].
    split.
    + intros Hnone Hkey. apply Hkept. by apply readProperty_falsy.
    + intros Hknown. apply Hdropped.
      rewrite readProperty_falsy. intros [Hnone Hkey].
      destruct Hknown as [[edge Hedge]|Hin]; [congruence | done].
Qed.

Lemma appendGraphData_keeps_repeats_witness :
  filter (λ d, GraphConfig.nd_identifier d = "3") [Fixture.jane; Fixture.jane]
  = filter (λ d, GraphConfig.nd_identifier d = "3")
           [Fixture.jane; Fixture.person; Scenario.toStringRecord; Fixture.jane]
  ∧ filter (λ d, GraphConfig.nd_identifier d = "toString")
           [Fixture.jane; Fixture.jane]
    = [].
Proof.
  destruct (appendGraphData_keeps_repeats Fixture.ingest Fixture.mockStore
              [Fixture.jane; Fixture.person; Scenario.toStringRecord; Fixture.jane]
              [Fixture.worksAt]
              [Fixture.jane; Fixture.jane] []) as [Hnodes _].
  - reflexivity.
  - split.
    + apply (Hnodes "3"); [reflexivity|].
      apply (bool_decide_unpack _). reflexivity.
    + apply (Hnodes "toString"). right.
      apply (bool_decide_unpack _). reflexivity.
Defined.

(** ** Neighbors *)

Section Neighbors.
Import GraphConfig GraphStore GraphStoreMethods.

(** The uid of the end of [edge] that [getNeighborsOfNode] looks up for
    [node]. *)
Lemma getNeighborsOfNode_entry (s : GraphStore.t) (node : GraphNode)
    (entry : Read GraphNode) :
  entry ∈ getNeighborsOfNode s (Some node)
  ↔ ∃ edge,
      edge ∈ getEdgesOfNode s (Some node)
      ∧ entry = readProperty (nodes (config s))
                  (if bool_decide (sourceUid edge = node_uid node)
                   then destinationUid edge else sourceUid edge).
Proof.
  unfold getNeighborsOfNode. rewrite list_elem_of_fmap.
  split; intros (edge & H1 & H2); exists edge; [split; [done|]|split; [|done]];
    subst; by case_bool_decide.
Qed.

Lemma includes_true (array : list (Read GraphNode)) (x : GraphObjectRef) :
  includes array (Some x) = true
  ↔ ∃ node, Value node ∈ array ∧ node_ref node = ref x.
Proof.
  unfold includes. rewrite existsb_exists. split.
  - intros ([node| |] & Hin%list_elem_of_In & Heq); [|done|done].
    exists node. split; [done|]. by apply bool_decide_eq_true in Heq.
  - intros (node & Hin%list_elem_of_In & Href). exists (Value node).
    split; [done|]. by apply bool_decide_eq_true.
Qed.

Lemma elem_of_getEdgesOfNode (s : GraphStore.t) (node : GraphNode) (edge : GraphEdge) :
  edge ∈ getEdgesOfNode s (Some node)
  ↔ edge ∈ getEdges s
    ∧ (sourceUid edge = node_uid node ∨ destinationUid edge = node_uid node).
Proof. unfold getEdgesOfNode. rewrite list_elem_of_filter. tauto. Qed.

End Neighbors.

(** X16. [getNeighborsOfNode] has one entry per edge of the node, in the order
    of the edges, for the uid of the other end: the destination of an edge
    that starts at the node, the source of any other edge. The entry is
    the node that the live map holds under this uid, in the schema view as
    well; when the live map holds none it is the member of
    [Object.prototype] of this name if the uid is the name of one, and
    [undefined] otherwise, and the entry is kept either way. Nothing is a
    neighbor of [null], and [null] has no neighbor. *)
Theorem getNeighborsOfNode_entries (s : GraphStore.t) (node : GraphConfig.GraphNode) :
  length (GraphStoreMethods.getNeighborsOfNode s (Some node))
  = length (GraphStore.getEdgesOfNode s (Some node))
  ∧ (∀ i edge,
       GraphStore.getEdgesOfNode s (Some node) !! i = Some edge →
       let uid :=
         if decide (GraphConfig.sourceUid edge = GraphConfig.node_uid node)
         then GraphConfig.destinationUid edge else GraphConfig.sourceUid edge in
       ∃ entry,
         GraphStoreMethods.getNeighborsOfNode s (Some node) !! i = Some entry
         ∧ (∀ neighbor,
              entry = GraphStore.Value neighbor
              ↔ GraphConfig.nodes (GraphStore.config s) !! uid = Some neighbor)
         ∧ (∀ member,
              entry = GraphStore.Inherited member
              ↔ GraphConfig.nodes (GraphStore.config s) !! uid = None
                ∧ uid ∈ GraphStore.objectPrototypeKeys ∧ member = uid)
         ∧ (entry = GraphStore.Undefined
            ↔ GraphConfig.nodes (GraphStore.config s) !! uid = None
              ∧ uid ∉ GraphStore.objectPrototypeKeys))
  ∧ GraphStoreMethods.nodeIsNeighborTo s (Some node) None = false
  ∧ (∀ other, GraphStoreMethods.nodeIsNeighborTo s None other = false).
Proof.
  split; [|split; [|split]].
  - unfold GraphStoreMethods.getNeighborsOfNode. by rewrite length_fmap.
  - intros i edge Hedge. cbv zeta.
    unfold GraphStoreMethods.getNeighborsOfNode.
    rewrite list_lookup_fmap, Hedge. simpl. eexists. split; [done|].
    case_bool_decide; case_decide; try done.
    + split; [intros; apply readProperty_Value|].
      split; [intros; apply readProperty_Inherited | apply readProperty_Undefined].
    + split; [intros; apply readProperty_Value|].
      split; [intros; apply readProperty_Inherited | apply readProperty_Undefined].
  - done.
  - by intros [other|].
Qed.

(** The person of the fixtures with two edges whose other ends are not in
    the live map: the one under the uid [valueOf] gives the inherited
    member, the one under the uid [8] gives [undefined]. *)
Lemma getNeighborsOfNode_entries_witness :
  GraphStore.Inherited "valueOf"
  ∈ GraphStoreMethods.getNeighborsOfNode Scenario.danglingStore
      (Some Fixture.personNode)
  ∧ GraphStore.Undefined
    ∈ GraphStoreMethods.getNeighborsOfNode Scenario.danglingStore
        (Some Fixture.personNode).
Proof.
  destruct (getNeighborsOfNode_entries Scenario.danglingStore Fixture.personNode)
    as (_ & Hentries & _).
  split.
  - destruct (Hentries 0 Scenario.valueOfEdge) as (entry & Hi & _ & Hinherited & _).
    { vm_compute. reflexivity. }
    apply list_elem_of_lookup. exists 0.
    rewrite Hi. f_equal. apply Hinherited.
    split; [reflexivity|]. split; [|reflexivity].
    apply (bool_decide_unpack _). reflexivity.
  - destruct (Hentries 1 Scenario.danglingEdge) as (entry & Hi & _ & _ & Hundefined).
    { vm_compute. reflexivity. }
    apply list_elem_of_lookup. exists 1.
    rewrite Hi. f_equal. apply Hundefined.
    split; [reflexivity|].
    apply (bool_decide_unpack _). reflexivity.
Defined.

(** X17. Between nodes that are the objects stored under their uid, in a live
    map that stores no object twice, being a neighbor is symmetric. *)
Theorem nodeIsNeighborTo_symmetric (s : GraphStore.t) (a b : GraphConfig.GraphNode) :
  GraphConfig.nodes (GraphStore.config s) !! GraphConfig.node_uid a = Some a →
  GraphConfig.nodes (GraphStore.config s) !! GraphConfig.node_uid b = Some b →
  (∀ uid1 uid2 node1 node2,
     GraphConfig.nodes (GraphStore.config s) !! uid1 = Some node1 →
     GraphConfig.nodes (GraphStore.config s) !! uid2 = Some node2 →
     GraphConfig.node_ref node1 = GraphConfig.node_ref node2 → uid1 = uid2) →
  GraphStoreMethods.nodeIsNeighborTo s (Some a) (Some (GraphConfig.IsNode b)) = true →
  GraphStoreMethods.nodeIsNeighborTo s (Some b) (Some (GraphConfig.IsNode a)) = true.
Proof.
  intros Ha Hb Hrefs.
  unfold GraphStoreMethods.nodeIsNeighborTo. rewrite !includes_true.
  intros (n & (edge & Hedge & Hentry)%getNeighborsOfNode_entry & Href).
  apply elem_of_getEdgesOfNode in Hedge as [Hedge Htouches].
  symmetry in Hentry. apply readProperty_Value in Hentry. simpl in Href.
  exists a. split; [|done]. apply getNeighborsOfNode_entry. exists edge.
  rewrite elem_of_getEdgesOfNode.
  case_bool_decide as Hsrc.
  - pose proof (Hrefs _ _ _ _ Hentry Hb Href) as Hdst.
    split; [split; [done|by right]|].
    symmetry. apply readProperty_Value.
    case_bool_decide as Hsrc'; [|by rewrite Hsrc].
    by rewrite Hdst, <-Hsrc', Hsrc.
  - pose proof (Hrefs _ _ _ _ Hentry Hb Href) as Hsrc'.
    destruct Htouches as [?|Hdst]; [done|].
    split; [split; [done|by left]|].
    symmetry. apply readProperty_Value.
    rewrite bool_decide_eq_true_2 by done. by rewrite Hdst.
Qed.

Lemma nodeIsNeighborTo_symmetric_witness :
  GraphStoreMethods.nodeIsNeighborTo Fixture.mockStore (Some Fixture.companyNode)
    (Some (GraphConfig.IsNode Fixture.personNode)) = true.
Proof.
  apply (nodeIsNeighborTo_symmetric Fixture.mockStore
           Fixture.personNode Fixture.companyNode).
  - reflexivity.
  - reflexivity.
  - intros uid1 uid2 node1 node2 H1 H2 Href.
    simpl in H1, H2.
    apply lookup_insert_Some in H1 as [[<- <-]|[? H1]];
      apply lookup_insert_Some in H2 as [[<- <-]|[? H2]]; try done.
    + apply lookup_singleton_Some in H2 as [<- <-]. discriminate Href.
    + apply lookup_singleton_Some in H1 as [<- <-]. discriminate Href.
    + apply lookup_singleton_Some in H1 as [<- <-].
      by apply lookup_singleton_Some in H2 as [<- <-].
  - reflexivity.
Defined.

(** ** Edge types of a node *)

Section EdgeTypes.
Import GraphConfig GraphStore GraphStoreMethods.

Lemma elem_of_edgeTypes_towards (P : Prop) `{!Decision P} (towards : Direction)
    (labels : list string) (type : EdgeType) :
  type ∈ (if decide P
          then (λ label, {| label := label; direction := towards |}) <$> labels
          else [])
  ↔ P ∧ direction type = towards ∧ label type ∈ labels.
Proof.
  case_decide as HP.
  - rewrite list_elem_of_fmap. split.
    + by intros (l & -> & ?).
    + intros (_ & <- & ?). exists (label type). by destruct type.
  - rewrite elem_of_nil. tauto.
Qed.

Lemma elem_of_edgeTypesOfTables (nodeTable : Schema.NodeTable)
    (edgeTable : Schema.EdgeTable) (type : EdgeType) :
  type ∈ edgeTypesOfTables nodeTable edgeTable
  ↔ label type ∈ Schema.et_labelNames edgeTable
    ∧ (direction type = OUTGOING
       ∧ Schema.nodeTableName (Schema.sourceNodeTable edgeTable)
         = Schema.nt_name nodeTable
       ∨ direction type = INCOMING
         ∧ Schema.nodeTableName (Schema.destinationNodeTable edgeTable)
           = Schema.nt_name nodeTable).
Proof.
  unfold edgeTypesOfTables.
  rewrite elem_of_app, !elem_of_edgeTypes_towards. tauto.
Qed.

Lemma length_edgeTypesOfTables (nodeTable : Schema.NodeTable)
    (edgeTable : Schema.EdgeTable) :
  length (edgeTypesOfTables nodeTable edgeTable)
  = ((if decide (Schema.nodeTableName (Schema.sourceNodeTable edgeTable)
                 = Schema.nt_name nodeTable)
      then length (Schema.et_labelNames edgeTable) else 0)
     + (if decide (Schema.nodeTableName (Schema.destinationNodeTable edgeTable)
                   = Schema.nt_name nodeTable)
        then length (Schema.et_labelNames edgeTable) else 0))%nat.
Proof.
  unfold edgeTypesOfTables. rewrite length_app.
  by repeat case_decide; rewrite ?length_fmap.
Qed.

Lemma length_list_bind {A B : Type} (f : A → list B) (l : list A) :
  length (l ≫= f) = sum_list_with (λ x, length (f x)) l.
Proof.
  induction l as [|x l IH]; [done|].
  rewrite bind_cons, length_app, IH. done.
Qed.

End EdgeTypes.

(** X18. [getEdgeTypesOfNode] returns nothing for [null] and for an edge. For a
    node it fails when the configuration has no schema. With a schema it
    lists a label and a direction exactly when some node table carrying a
    label of the node is the source (outgoing) or the destination
    (incoming) of an edge table with this label. Equal entries are not
    merged: every such pair of tables contributes one entry per label and
    direction of its own. *)
Theorem getEdgeTypesOfNode_lists_every_pair (schema : option Schema.t)
    (node : GraphConfig.GraphNode) :
  GraphStoreMethods.getEdgeTypesOfNode schema None = Normal []
  ∧ (∀ edge,
       GraphStoreMethods.getEdgeTypesOfNode schema (Some (GraphConfig.IsEdge edge))
       = Normal [])
  ∧ (schema = None →
     throws (GraphStoreMethods.getEdgeTypesOfNode schema
               (Some (GraphConfig.IsNode node))))
  ∧ (∀ sc, schema = Some sc →
       ∃ types,
         GraphStoreMethods.getEdgeTypesOfNode schema (Some (GraphConfig.IsNode node))
         = Normal types
         ∧ (∀ type,
              type ∈ types
              ↔ ∃ nodeTable edgeTable,
                  nodeTable ∈ Schema.nodeTables (Schema.rawSchema sc)
                  ∧ (∃ l, l ∈ GraphObject.labels (GraphConfig.node_base node)
                          ∧ l ∈ Schema.nt_labelNames nodeTable)
                  ∧ edgeTable ∈ Schema.edgeTables (Schema.rawSchema sc)
                  ∧ GraphStoreMethods.label type ∈ Schema.et_labelNames edgeTable
                  ∧ (GraphStoreMethods.direction type = GraphStoreMethods.OUTGOING
                     ∧ Schema.nodeTableName (Schema.sourceNodeTable edgeTable)
                       = Schema.nt_name nodeTable
                     ∨ GraphStoreMethods.direction type = GraphStoreMethods.INCOMING
                       ∧ Schema.nodeTableName (Schema.destinationNodeTable edgeTable)
                         = Schema.nt_name nodeTable))
         ∧ length types
           = sum_list_with
               (λ nodeTable,
                  sum_list_with
                    (λ edgeTable,
                       length (GraphStoreMethods.edgeTypesOfTables nodeTable edgeTable))
                    (Schema.edgeTables (Schema.rawSchema sc)))
               (filter
                  (λ nodeTable,
                     Exists (λ l, l ∈ Schema.nt_labelNames nodeTable)
                            (GraphObject.labels (GraphConfig.node_base node)))
                  (Schema.nodeTables (Schema.rawSchema sc)))).
Proof.
  split; [done|]. split; [done|]. split.
  - intros ->. by eexists.
  - intros sc ->. eexists. split; [done|]. split.
    + intros type. rewrite list_elem_of_bind. split.
      * intros (nodeTable & (edgeTable & Htype & Hedge)%list_elem_of_bind
                & [Hlabels Hnode]%list_elem_of_filter).
        apply elem_of_edgeTypesOfTables in Htype as [? ?].
        apply Exists_exists in Hlabels.
        exists nodeTable, edgeTable. done.
      * intros (nodeTable & edgeTable & Hnode & Hlabels & Hedge & Hlabel & Hdir).
        exists nodeTable. split.
        -- apply list_elem_of_bind. exists edgeTable. split; [|done].
           by apply elem_of_edgeTypesOfTables.
        -- apply list_elem_of_filter. split; [|done]. by apply Exists_exists.
    + rewrite length_list_bind.
      induction (filter _ _) as [|nodeTable tables IH]; [done|].
      simpl. by rewrite length_list_bind, IH.
Qed.

Lemma getEdgeTypesOfNode_lists_every_pair_witness :
  throws (GraphStoreMethods.getEdgeTypesOfNode None
            (Some (GraphConfig.IsNode Fixture.personNode)))
  ∧ GraphStoreMethods.getEdgeTypesOfNode (Some Fixture.mockSchema)
      (Some (GraphConfig.IsNode Fixture.personNode))
    = Normal [ {| GraphStoreMethods.label := "WORKS_AT";
                  GraphStoreMethods.direction := GraphStoreMethods.OUTGOING |} ].
Proof.
  destruct (getEdgeTypesOfNode_lists_every_pair None Fixture.personNode)
    as (_ & _ & Hthrows & _).
  split; [by apply Hthrows|]. vm_compute. reflexivity.
Defined.

(** ** Endpoints of an [Edge] that are not strings *)

(** X19. The endpoint check of the [Edge] constructor lets [null], booleans and
    finite numbers pass, whatever the conversion of strings is: when the
    inherited constructor returns, the instance is instantiated and holds
    the two values as they were passed, not as numbers. *)
Theorem Edge_constructor_accepts_null_and_booleans
    (GraphObject : Type)
    (GraphObject_constructor :
       JsValue → JsValue → gmap string JsValue →
       Completion GraphObject * list ConsoleMsg)
    (StringToNumber : string → JsNumber)
    (p : Edge.Params) (this : GraphObject) (log : list ConsoleMsg) :
  GraphObject_constructor (Edge.label p) (Edge.title p) (Edge.properties p)
  = (Normal this, log) →
  Edge.coercesWithoutParsing (Edge.to p) →
  Edge.coercesWithoutParsing (Edge.from p) →
  Edge.constructor GraphObject GraphObject_constructor StringToNumber p
  = (Normal {| Edge.base := this; Edge.target := Edge.to p;
               Edge.source := Edge.from p; Edge.instantiated := true |},
     log).
Proof.
  intros Hsuper Hto Hfrom. unfold Edge.constructor. rewrite Hsuper.
  assert (∀ v, Edge.coercesWithoutParsing v →
               Edge.isNumber StringToNumber v = true) as Hnumber.
  { intros [| |[]|[]|]; done. }
  by rewrite !Hnumber.
Qed.

Lemma Edge_constructor_accepts_null_and_booleans_witness :
  (Edge.constructor _ Fixture.storeArguments Fixture.decimalToNumber
     (Fixture.edgeParams JsNull (JsBool true))).1
  = Normal {| Edge.base := (JsStr "knows", JsUndefined, ∅);
              Edge.target := JsNull; Edge.source := JsBool true;
              Edge.instantiated := true |}.
Proof.
  rewrite (Edge_constructor_accepts_null_and_booleans _ Fixture.storeArguments
             Fixture.decimalToNumber (Fixture.edgeParams JsNull (JsBool true))
             (JsStr "knows", JsUndefined, ∅) []); [reflexivity | reflexivity | exact I..].
Defined.
